(** * joi-moment: the "moment" schema type

    A shallow embedding of the two source files of the extension
    ([index.js] and its later revision with reference support), and the
    properties of its coercion / validation contract.

    The extension delegates every date computation to an external date
    and time-zone library.  That library is not part of the repository;
    [Module Calendar] and [Module Moment] fix its documented behaviour
    on the fragment the extension calls: proleptic Gregorian calendar,
    instants in epoch milliseconds, time zones with a fixed offset from
    UTC, the units from year to millisecond under the names of the
    library's table, and the extended ISO-8601 formats [YYYY-MM-DD],
    [YYYY-MM-DDTHH:mm], [YYYY-MM-DDTHH:mm:ss], [YYYY-MM-DDTHH:mm:ss.SSS]
    with an optional [Z] or [+HH:mm] / [-HH:mm] designator.  The
    library knows more units and formats than these; properties that
    depend on a unit or on a string being no date say which ones they
    are about ([unitArg], [inRange], strings without a digit). *)

From Stdlib Require Import ZArith Lia String Ascii.
From stdpp Require Import base option list gmap strings.

Open Scope Z_scope.

(** ** Civil calendar *)

Module Calendar.

Definition MS_PER_SECOND : Z := 1000.
Definition MS_PER_MINUTE : Z := 60000.
Definition MS_PER_HOUR : Z := 3600000.
Definition MS_PER_DAY : Z := 86400000.

(** Day of the 400-year era for year-of-era [yoe], month [m] (1..12) and
    day of month [d]; years start in March, so that the leap day is the
    last day of the year. *)
Definition doe_of (yoe m d : Z) : Z :=
  let mp := (m + 9) mod 12 in
  let doy := (153 * mp + 2) / 5 + d - 1 in
  yoe * 365 + yoe / 4 - yoe / 100 + doy.

(** Days between 1970-01-01 and the civil date [y]-[m]-[d].  The day of
    month is not range checked: day 0 is the last day of the month
    before, day 32 carries into the next month. *)
Definition days_from_civil (y m d : Z) : Z :=
  let y' := if m <=? 2 then y - 1 else y in
  let era := y' / 400 in
  let yoe := y' - era * 400 in
  era * 146097 + doe_of yoe m d - 719468.

(** Year-of-era, month and day of month of a day of the era. *)
Definition ymd_of_doe (doe : Z) : Z * Z * Z :=
  let yoe := (doe - doe / 1460 + doe / 36524 - doe / 146096) / 365 in
  let doy := doe - (365 * yoe + yoe / 4 - yoe / 100) in
  let mp := (5 * doy + 2) / 153 in
  let d := doy - (153 * mp + 2) / 5 + 1 in
  let m := if mp <? 10 then mp + 3 else mp - 9 in
  (yoe, m, d).

(** Civil date (year, month 1..12, day of month) of a day number. *)
Definition civil_from_days (z : Z) : Z * Z * Z :=
  let z' := z + 719468 in
  let era := z' / 146097 in
  let doe := z' - era * 146097 in
  let '(yoe, m, d) := ymd_of_doe doe in
  let y := yoe + era * 400 in
  (if m <=? 2 then y + 1 else y, m, d).

(** [Date.UTC(y, m, d)]: the month is 0-based and may overflow into
    the following years. *)
Definition startOfDate (y m d : Z) : Z :=
  MS_PER_DAY * days_from_civil (y + m / 12) (m mod 12 + 1) d.

Definition isLeapYear (y : Z) : bool :=
  ((y mod 4 =? 0) && negb (y mod 100 =? 0)) || (y mod 400 =? 0).

(** Number of days of month [m] (0-based) of year [y]. *)
Definition daysInMonth (y m : Z) : Z :=
  if m =? 1 then (if isLeapYear y then 29 else 28)
  else 31 - (m mod 7) mod 2.

(** Day of the week of a day number, Sunday = 0. *)
Definition weekday_of_days (z : Z) : Z := (z + 4) mod 7.

(** Bounded universal check, by evaluation. *)
Fixpoint all_from (n : nat) (i : Z) (f : Z -> bool) : bool :=
  match n with
  | O => true
  | S k => if f i then all_from k (i + 1) f else false
  end.

Definition doe_roundtrip (doe : Z) : bool :=
  let '(yoe, m, d) := ymd_of_doe doe in
  (0 <=? yoe) && (yoe <? 400) && (1 <=? m) && (m <=? 12) && (1 <=? d)
  && (doe_of yoe m d =? doe).

Definition first_roundtrip (k : Z) : bool :=
  let yoe := k / 12 in
  let m := k mod 12 + 1 in
  let doe := doe_of yoe m 1 in
  (0 <=? doe) && (doe <? 146097)
  && match ymd_of_doe doe with
     | (yoe', m', d') => (yoe' =? yoe) && (m' =? m) && (d' =? 1)
     end.

End Calendar.

(** ** The date library: moments *)

Module Moment.
Import Calendar.

(** A moment: the instant in epoch milliseconds ([None] is the
    not-a-number instant of an invalid moment), the offset of its
    display zone from UTC in minutes, and the name of the zone when one
    was assigned. *)
Record moment := Build_moment {
  valueOf : option Z;
  utcOffset : Z;
  zoneName : option string
}.

Definition isValid (m : moment) : bool :=
  match valueOf m with Some _ => true | None => false end.

(** Instants compare as numbers do: no comparison with the
    not-a-number instant holds. *)
Definition le (a b : moment) : Prop :=
  match valueOf a, valueOf b with
  | Some x, Some y => x <= y
  | _, _ => False
  end.

Definition invalid (off : Z) : moment :=
  {| valueOf := None; utcOffset := off; zoneName := None |}.

Definition at_instant (m : moment) (t : Z) : moment :=
  {| valueOf := Some t; utcOffset := utcOffset m; zoneName := zoneName m |}.

Inductive units :=
  | Year | Quarter | Month | Week | IsoWeek | Day | Date
  | Hour | Minute | Second | Millisecond.

(** Unit names, plurals and shorthands, matched exactly. *)
Definition normalizeUnits (s : string) : option units :=
  if (s =? "year")%string || (s =? "years")%string || (s =? "y")%string then Some Year
  else if (s =? "quarter")%string || (s =? "quarters")%string || (s =? "Q")%string then Some Quarter
  else if (s =? "month")%string || (s =? "months")%string || (s =? "M")%string then Some Month
  else if (s =? "week")%string || (s =? "weeks")%string || (s =? "w")%string then Some Week
  else if (s =? "isoWeek")%string || (s =? "isoWeeks")%string || (s =? "W")%string then Some IsoWeek
  else if (s =? "day")%string || (s =? "days")%string || (s =? "d")%string then Some Day
  else if (s =? "date")%string || (s =? "dates")%string || (s =? "D")%string then Some Date
  else if (s =? "hour")%string || (s =? "hours")%string || (s =? "h")%string then Some Hour
  else if (s =? "minute")%string || (s =? "minutes")%string || (s =? "m")%string then Some Minute
  else if (s =? "second")%string || (s =? "seconds")%string || (s =? "s")%string then Some Second
  else if (s =? "millisecond")%string || (s =? "milliseconds")%string || (s =? "ms")%string
       then Some Millisecond
  else None.

(** Civil fields of instant [t] seen at offset [off]: year, month
    (0-based), day of month, and day of the week (Sunday = 0). *)
Definition localDays (off t : Z) : Z := (t + off * MS_PER_MINUTE) / MS_PER_DAY.

Definition fields (off t : Z) : Z * Z * Z * Z :=
  let z := localDays off t in
  let '(y, m, d) := civil_from_days z in
  (y, m - 1, d, weekday_of_days z).

(** First instant of the civil day [y]-[m]-[d] at offset [off]. *)
Definition zoneStartOfDate (off y m d : Z) : Z :=
  startOfDate y m d - off * MS_PER_MINUTE.

Definition isoWeekday (day : Z) : Z := if day =? 0 then 7 else day.

Definition startOf_ms (u : units) (off t : Z) : Z :=
  let '(y, m, d, wd) := fields off t in
  match u with
  | Year => zoneStartOfDate off y 0 1
  | Quarter => zoneStartOfDate off y (m - m mod 3) 1
  | Month => zoneStartOfDate off y m 1
  | Week => zoneStartOfDate off y m (d - wd)
  | IsoWeek => zoneStartOfDate off y m (d - (isoWeekday wd - 1))
  | Day | Date => zoneStartOfDate off y m d
  | Hour => t - (t + off * MS_PER_MINUTE) mod MS_PER_HOUR
  | Minute => t - t mod MS_PER_MINUTE
  | Second => t - t mod MS_PER_SECOND
  | Millisecond => t
  end.

Definition endOf_ms (u : units) (off t : Z) : Z :=
  let '(y, m, d, wd) := fields off t in
  match u with
  | Year => zoneStartOfDate off (y + 1) 0 1 - 1
  | Quarter => zoneStartOfDate off y (m - m mod 3 + 3) 1 - 1
  | Month => zoneStartOfDate off y (m + 1) 1 - 1
  | Week => zoneStartOfDate off y m (d - wd + 7) - 1
  | IsoWeek => zoneStartOfDate off y m (d - (isoWeekday wd - 1) + 7) - 1
  | Day | Date => zoneStartOfDate off y m (d + 1) - 1
  | Hour => t + (MS_PER_HOUR - (t + off * MS_PER_MINUTE) mod MS_PER_HOUR - 1)
  | Minute => t + (MS_PER_MINUTE - t mod MS_PER_MINUTE - 1)
  | Second => t + (MS_PER_SECOND - t mod MS_PER_SECOND - 1)
  | Millisecond => t
  end.

Arguments startOf_ms : simpl never.
Arguments endOf_ms : simpl never.

(** [m.startOf(unit)] and [m.endOf(unit)]: an unknown unit and an
    invalid moment are left alone. *)
Definition startOf (unit : option units) (m : moment) : moment :=
  match unit, valueOf m with
  | Some u, Some t => at_instant m (startOf_ms u (utcOffset m) t)
  | _, _ => m
  end.

Definition endOf (unit : option units) (m : moment) : moment :=
  match unit, valueOf m with
  | Some u, Some t => at_instant m (endOf_ms u (utcOffset m) t)
  | _, _ => m
  end.

(** [m.tz(name)]: the display zone changes, the instant stays; a name
    the zone database does not know leaves the moment without a zone,
    at the offset it had. *)
Definition tz (zones : gmap string Z) (name : string) (m : moment) : moment :=
  match zones !! name with
  | Some off => {| valueOf := valueOf m; utcOffset := off; zoneName := Some name |}
  | None => {| valueOf := valueOf m; utcOffset := utcOffset m; zoneName := None |}
  end.

(** Comparisons at a granularity; the unit defaults to the millisecond
    and the receiver's display zone fixes the unit boundaries.  Any
    comparison with an invalid moment is false. *)
Definition isBefore (a b : moment) (unit : option units) : bool :=
  match valueOf a, valueOf b with
  | Some x, Some y =>
      match unit with
      | None | Some Millisecond => x <? y
      | Some u => endOf_ms u (utcOffset a) x <? y
      end
  | _, _ => false
  end.

Definition isAfter (a b : moment) (unit : option units) : bool :=
  match valueOf a, valueOf b with
  | Some x, Some y =>
      match unit with
      | None | Some Millisecond => y <? x
      | Some u => y <? startOf_ms u (utcOffset a) x
      end
  | _, _ => false
  end.

Definition isSame (a b : moment) (unit : option units) : bool :=
  match valueOf a, valueOf b with
  | Some x, Some y =>
      match unit with
      | None | Some Millisecond => x =? y
      | Some u => (startOf_ms u (utcOffset a) x <=? y)
                  && (y <=? endOf_ms u (utcOffset a) x)
      end
  | _, _ => false
  end.

Definition isSameOrAfter (a b : moment) (unit : option units) : bool :=
  isSame a b unit || isAfter a b unit.

Definition isSameOrBefore (a b : moment) (unit : option units) : bool :=
  isSame a b unit || isBefore a b unit.

(** *** ISO-8601 strings *)

Definition digit (c : ascii) : option Z :=
  let n := Z.of_N (N_of_ascii c) in
  if (48 <=? n) && (n <=? 57) then Some (n - 48) else None.

Definition num2 (a b : ascii) : option Z :=
  x ← digit a; y ← digit b; Some (10 * x + y).

Definition num3 (a b c : ascii) : option Z :=
  x ← num2 a b; y ← digit c; Some (10 * x + y).

Definition num4 (a b c d : ascii) : option Z :=
  x ← num2 a b; y ← num2 c d; Some (100 * x + y).

(** Zone designator: nothing, [Z], [+HH:mm] or [-HH:mm]; the result is
    the offset in minutes when one is given. *)
Definition parse_zone (l : list ascii) : option (option Z) :=
  match l with
  | [] => Some None
  | [z] => if (z =? "Z")%char then Some (Some 0) else None
  | [sg; h1; h2; c; m1; m2] =>
      h ← num2 h1 h2; m ← num2 m1 m2;
      if negb (c =? ":")%char then None
      else if (sg =? "+")%char then Some (Some (60 * h + m))
      else if (sg =? "-")%char then Some (Some (- (60 * h + m)))
      else None
  | _ => None
  end.

(** Hour 24 is midnight at the end of the day and admits no minutes. *)
Definition time_ms (h mi s ms : Z) : option Z :=
  if (24 <? h) || ((h =? 24) && negb ((mi =? 0) && (s =? 0) && (ms =? 0)))
     || (59 <? mi) || (59 <? s)
  then None
  else Some (h * MS_PER_HOUR + mi * MS_PER_MINUTE + s * MS_PER_SECOND + ms).

(** Seconds and fraction after [HH:mm], then the zone. *)
Definition parse_seconds (h mi : Z) (l : list ascii) : option (Z * option Z) :=
  match l with
  | c :: s1 :: s2 :: rest =>
      if (c =? ":")%char then
        s ← num2 s1 s2;
        match rest with
        | p :: f1 :: f2 :: f3 :: rest' =>
            if (p =? ".")%char then
              ms ← num3 f1 f2 f3; t ← time_ms h mi s ms;
              z ← parse_zone rest'; Some (t, z)
            else t ← time_ms h mi s 0; z ← parse_zone rest; Some (t, z)
        | _ => t ← time_ms h mi s 0; z ← parse_zone rest; Some (t, z)
        end
      else t ← time_ms h mi 0 0; z ← parse_zone l; Some (t, z)
  | _ => t ← time_ms h mi 0 0; z ← parse_zone l; Some (t, z)
  end.

(** Time of day after the date: nothing, or [T] (or a space) and
    [HH:mm] with optional seconds, fraction and zone. *)
Definition parse_time (l : list ascii) : option (Z * option Z) :=
  match l with
  | [] => Some (0, None)
  | sep :: h1 :: h2 :: c :: m1 :: m2 :: rest =>
      if ((sep =? "T")%char || (sep =? " ")%char) && (c =? ":")%char then
        h ← num2 h1 h2; mi ← num2 m1 m2; parse_seconds h mi rest
      else None
  | _ => None
  end.

(** The civil time a string denotes, in milliseconds as if in UTC, and
    the offset it carries; [None] when the string is not in one of the
    formats or a field is out of range. *)
Definition parseISO (s : string) : option (Z * option Z) :=
  match list_ascii_of_string s with
  | y1 :: y2 :: y3 :: y4 :: c1 :: m1 :: m2 :: c2 :: d1 :: d2 :: rest =>
      if (c1 =? "-")%char && (c2 =? "-")%char then
        y ← num4 y1 y2 y3 y4; m ← num2 m1 m2; d ← num2 d1 d2;
        if (1 <=? m) && (m <=? 12) && (1 <=? d) && (d <=? daysInMonth y (m - 1))
        then '(t, z) ← parse_time rest;
             Some (startOfDate y (m - 1) d + t, z)
        else None
      else None
  | _ => None
  end.

(** [moment(string, moment.ISO_8601)]: a string without a designator is
    read in the local zone; the result is displayed in the local zone
    in either case. *)
Definition fromISO (localOffset : Z) (s : string) : moment :=
  match parseISO s with
  | Some (c, Some off) =>
      {| valueOf := Some (c - off * MS_PER_MINUTE);
         utcOffset := localOffset; zoneName := None |}
  | Some (c, None) =>
      {| valueOf := Some (c - localOffset * MS_PER_MINUTE);
         utcOffset := localOffset; zoneName := None |}
  | None => invalid localOffset
  end.

End Moment.

(** ** JavaScript values, the object store and the host's interface *)

Module JS.
Import Calendar Moment.

(** Moment objects live in a store and are passed by reference.  The
    only other objects are the host's references to sibling fields. *)
Abbreviation loc := nat.
Abbreviation heap := (list moment).

Inductive jsval :=
  | JUndefined
  | JNull
  | JBool (b : bool)
  | JNum (n : Z)
  | JNaN
  | JString (s : string)
  | JMoment (l : loc)
  | JRef (key : string).

(** [!value] is [negb (truthy value)]. *)
Definition truthy (v : jsval) : bool :=
  match v with
  | JUndefined | JNull | JNaN => false
  | JBool b => b
  | JNum n => negb (n =? 0)
  | JString s => negb (s =? "")%string
  | JMoment _ | JRef _ => true
  end.

Definition isString (v : jsval) : bool :=
  match v with JString _ => true | _ => false end.

Definition isMoment (v : jsval) : bool :=
  match v with JMoment _ => true | _ => false end.

(** Exceptions: the two a call can raise, and the fault of following a
    reference that is not in the store (no JavaScript state has one). *)
Inductive exn :=
  | TypeError (msg : string)
  | Error (msg : string)
  | Dangling (l : loc).

Inductive outcome (A : Type) :=
  | Return (a : A) (h : heap)
  | Throw (e : exn).
Arguments Return {A} a h.
Arguments Throw {A} e.

(** Computations over the store that may throw. *)
Definition M (A : Type) : Type := heap -> outcome A.

#[export] Instance M_ret : MRet M := fun A a h => Return a h.
#[export] Instance M_bind : MBind M := fun A B k c h =>
  match c h with
  | Return a h' => k a h'
  | Throw e => Throw e
  end.

Definition throw {A} (e : exn) : M A := fun _ => Throw e.

Definition alloc (m : moment) : M loc := fun h => Return (length h) (h ++ [m]).

Definition load (l : loc) : M moment := fun h =>
  match h !! l with
  | Some m => Return m h
  | None => Throw (Dangling l)
  end.

Definition modify (l : loc) (f : moment -> moment) : M () := fun h =>
  match h !! l with
  | Some m => Return () (<[l := f m]> h)
  | None => Throw (Dangling l)
  end.

(** The process around the library: clock, local zone, zone database. *)
Record env := Build_env {
  now : Z;
  localOffset : Z;
  zones : gmap string Z
}.

Section Library.
Variable E : env.

(** The receiver of a method of the moment prototype. *)
Definition receiver (method : string) (v : jsval) : M loc :=
  match v with
  | JMoment l => mret l
  | _ => throw (TypeError (method ++ " is not a function"))
  end.

(** [moment(value, moment.ISO_8601)]: a fresh object; a moment is
    cloned, a string is parsed, and the string form of anything else
    matches none of the formats above. *)
Definition moment_ISO (v : jsval) : M jsval :=
  match v with
  | JMoment l => m ← load l; l' ← alloc m; mret (JMoment l')
  | JString s => l' ← alloc (fromISO (localOffset E) s); mret (JMoment l')
  | _ => l' ← alloc (invalid (localOffset E)); mret (JMoment l')
  end.

(** The moment an argument of a comparison stands for: a moment is
    taken as it is, anything else goes through [moment(input)], where
    nothing is now, a number is an instant, a string is read in the
    ISO-8601 formats above, and an object without date fields is today
    at the start of the day. *)
Definition createLocal (v : jsval) : M moment :=
  match v with
  | JMoment l => load l
  | JUndefined =>
      mret {| valueOf := Some (now E); utcOffset := localOffset E; zoneName := None |}
  | JNum n =>
      mret {| valueOf := Some n; utcOffset := localOffset E; zoneName := None |}
  | JString s => mret (fromISO (localOffset E) s)
  | JRef _ =>
      mret (startOf (Some Day)
              {| valueOf := Some (now E); utcOffset := localOffset E;
                 zoneName := None |})
  | JNull | JBool _ | JNaN => mret (invalid (localOffset E))
  end.

(** A unit argument: only strings name units. *)
Definition unitOf (v : jsval) : option units :=
  match v with JString s => normalizeUnits s | _ => None end.

Definition call_isValid (v : jsval) : M bool :=
  l ← receiver "value.isValid" v; m ← load l; mret (isValid m).

(** [value.tz(name)] sets the zone when it is given a name, and the
    name has to be a string. *)
Definition call_tz (v name : jsval) : M () :=
  l ← receiver "value.tz" v;
  if truthy name then
    match name with
    | JString s => modify l (tz (zones E) s)
    | _ => throw (Error "Time zone name must be a string")
    end
  else mret ().

Definition call_startOf (v unit : jsval) : M () :=
  l ← receiver "value.startOf" v; modify l (startOf (unitOf unit)).

Definition call_endOf (v unit : jsval) : M () :=
  l ← receiver "value.endOf" v; modify l (endOf (unitOf unit)).

Definition compare (method : string)
    (cmp : moment -> moment -> option units -> bool)
    (v date precision : jsval) : M bool :=
  l ← receiver method v; a ← load l; b ← createLocal date;
  mret (cmp a b (unitOf precision)).

Definition call_isBefore := compare "value.isBefore" isBefore.
Definition call_isAfter := compare "value.isAfter" isAfter.
Definition call_isSameOrBefore := compare "value.isSameOrBefore" isSameOrBefore.
Definition call_isSameOrAfter := compare "value.isSameOrAfter" isSameOrAfter.

End Library.

(** *** The host framework's side of the extension contract *)

(** An error descriptor: [helpers.error(code, {date, precision})]. *)
Record error := Build_error {
  code : string;
  local : option (jsval * jsval)
}.

Definition helpers_error (code : string) (local : option (jsval * jsval)) : error :=
  {| code := code; local := local |}.

(** What [validate] hands back: the value itself, a [{value, errors}]
    object, or nothing. *)
Inductive validated :=
  | VValue (v : jsval)
  | VErrors (v : jsval) (errors : error)
  | VNothing.

(** What a rule hands back: the value, or an error descriptor. *)
Inductive ruled :=
  | Pass (v : jsval)
  | Fail (e : error).

(** A reference to a sibling field is resolved in the validation
    state; a field that is not there resolves to nothing. *)
Definition isRef (v : jsval) : bool :=
  match v with JRef _ => true | _ => false end.

Definition ref_resolve (state : gmap string jsval) (v : jsval) : jsval :=
  match v with
  | JRef key => default JUndefined (state !! key)
  | _ => v
  end.

(** A rule as [$_addRule] records it. *)
Record rule := Build_rule {
  name : string;
  args_date : jsval;
  args_precision : jsval
}.

(** A schema: the flags set on it and the rules added to it. *)
Record schema := Build_schema {
  flags : gmap string jsval;
  rules : list rule
}.

Definition getFlag (s : schema) (flag : string) : jsval :=
  default JUndefined (flags s !! flag).

Definition setFlag (flag : string) (v : jsval) (s : schema) : schema :=
  {| flags := <[flag := v]> (flags s); rules := rules s |}.

(** [$_addRule]: rules are unique by name, so the rule replaces the
    earlier rules recorded under its name and goes to the end. *)
Definition addRule (r : rule) (s : schema) : schema :=
  {| flags := flags s;
     rules := List.filter (fun r' => negb (name r' =? name r)%string) (rules s)
              ++ [r] |}.

(** What the host passes to [coerce] besides the value: the schema,
    the validation state that references resolve in, and the
    preferences of the call with the caller's context.  The context is
    an object when the caller passes one and [null], the host's
    default, when not: [None] here. *)
Record prefs := Build_prefs {
  context : option (gmap string jsval)
}.

Record helpers := Build_helpers {
  h_schema : schema;
  h_state : gmap string jsval;
  h_prefs : prefs
}.

End JS.

(** ** The blocks of [coerce] and of the rules that the two files share *)

Module Stages.
Import Moment JS.

Section Stages.
Variable E : env.

(** Start of period, then end of period. *)
Definition period (startOf endOf value : jsval) : M () :=
  _ ← (if truthy startOf then call_startOf value startOf else mret ());
  if truthy endOf then call_endOf value endOf else mret ().

(** Min date, then max date: the bound replaces the value. *)
Definition minMax (minDate maxDate value : jsval) : M jsval :=
  value ← (if truthy minDate
           then b ← call_isBefore E value minDate JUndefined;
                mret (if b : bool then minDate else value)
           else mret value);
  if truthy maxDate
  then b ← call_isAfter E value maxDate JUndefined;
       mret (if b : bool then maxDate else value)
  else mret value.

(** The top-level [validate]. *)
Definition validate (value : jsval) : M validated :=
  if negb (truthy value) then mret (VValue value)
  else
    valid ← call_isValid value;
    if negb valid
    then mret (VErrors value (helpers_error "date.iso" None))
    else mret VNothing.

(** A comparison rule once its arguments are read: default precision,
    a string date parsed, a value that is not a moment let through. *)
Definition compareRule (code : string)
    (call : jsval -> jsval -> jsval -> M bool)
    (value date precision : jsval) : M ruled :=
  let precision := if negb (truthy precision) then JString "milliseconds"
                   else precision in
  date ← (if isString date then moment_ISO E date else mret date);
  ok ← (if negb (isMoment value) then mret true
        else call value date precision);
  if ok : bool then mret (Pass value)
  else mret (Fail (helpers_error code (Some (date, precision)))).

(** The host evaluates a recorded rule with the validator registered
    under the rule's name, on the resolved arguments. *)
Definition evalRule
    (rules_validate : string -> option (jsval -> jsval -> jsval -> M ruled))
    (state : gmap string jsval) (r : rule) (value : jsval) : M ruled :=
  match rules_validate (name r) with
  | Some validate =>
      validate value (ref_resolve state (args_date r)) (args_precision r)
  | None => throw (Error "Unknown rule")
  end.

End Stages.
End Stages.

(** ** [index.js] *)

Module Index.
Import Moment JS Stages.

(** The configuration methods. *)
Definition tz_method (tz : jsval) := setFlag "tz" tz.
Definition startOf_method (startOf : jsval) := setFlag "startOf" startOf.
Definition endOf_method (endOf : jsval) := setFlag "endOf" endOf.
Definition maxDate_method (max : jsval) := setFlag "max" max.
Definition minDate_method (min : jsval) := setFlag "min" min.

Definition isBefore_method (date precision : jsval) :=
  addRule {| name := "isBefore"; args_date := date; args_precision := precision |}.
Definition isAfter_method (date precision : jsval) :=
  addRule {| name := "isAfter"; args_date := date; args_precision := precision |}.
Definition isSameOrBefore_method (date precision : jsval) :=
  addRule {| name := "isBefore"; args_date := date; args_precision := precision |}.
Definition isSameOrAfter_method (date precision : jsval) :=
  addRule {| name := "isAfter"; args_date := date; args_precision := precision |}.

(** The assertions on the two arguments of a comparison rule. *)
Definition date_assert (v : jsval) : bool := isString v || isMoment v.
Definition precision_assert (v : jsval) : bool := isString v.

(** The message templates, by error kind. *)
Definition quote : string := String "034"%char EmptyString.

Definition messages : gmap string string :=
  {[ "moment.isBefore"%string :=
       ("must be before {{#date}}, with precision "
        ++ quote ++ "{{#precision}}" ++ quote)%string;
     "moment.isAfter"%string :=
       ("must be after {{#date}}, with precision "
        ++ quote ++ "{{#precision}}" ++ quote)%string;
     "moment.isSameOrBefore"%string :=
       ("must be same as or before {{#date}}, with precision "
        ++ quote ++ "{{#precision}}" ++ quote)%string;
     "moment.isSameOrAfter"%string :=
       ("must be same as or after {{#date}}, with precision "
        ++ quote ++ "{{#precision}}" ++ quote)%string ]}.

(** The schemas that the configuration methods build, from the schema
    without flags and rules. *)
Inductive configured : schema -> Prop :=
  | configured_new : configured {| flags := ∅; rules := [] |}
  | configured_tz v s : configured s -> configured (tz_method v s)
  | configured_startOf v s : configured s -> configured (startOf_method v s)
  | configured_endOf v s : configured s -> configured (endOf_method v s)
  | configured_maxDate v s : configured s -> configured (maxDate_method v s)
  | configured_minDate v s : configured s -> configured (minDate_method v s)
  | configured_isBefore d p s :
      configured s -> configured (isBefore_method d p s)
  | configured_isAfter d p s :
      configured s -> configured (isAfter_method d p s)
  | configured_isSameOrBefore d p s :
      configured s -> configured (isSameOrBefore_method d p s)
  | configured_isSameOrAfter d p s :
      configured s -> configured (isSameOrAfter_method d p s).

Section Evaluation.
Variable E : env.

(** Apply a timezone. *)
Definition timezone (tz value : jsval) : M () :=
  if truthy tz then call_tz E value tz else mret ().

Definition coerce (value : jsval) (helpers : helpers) : M (option jsval) :=
  if negb (truthy value) then mret None
  else
    value ← moment_ISO E value;
    valid ← call_isValid value;
    if negb valid then mret None
    else
      let tz := getFlag (h_schema helpers) "tz" in
      let startOf := getFlag (h_schema helpers) "startOf" in
      let endOf := getFlag (h_schema helpers) "endOf" in
      let max := getFlag (h_schema helpers) "max" in
      let min := getFlag (h_schema helpers) "min" in
      _ ← timezone tz value;
      _ ← period startOf endOf value;
      value ← minMax E min max value;
      mret (Some value).

Definition validate : jsval -> M validated := Stages.validate.

Definition isBefore_validate :=
  compareRule E "moment.isBefore" (call_isBefore E).
Definition isAfter_validate :=
  compareRule E "moment.isAfter" (call_isAfter E).
Definition isSameOrBefore_validate :=
  compareRule E "moment.isSameOrBefore" (call_isSameOrBefore E).
Definition isSameOrAfter_validate :=
  compareRule E "moment.isSameOrAfter" (call_isSameOrAfter E).

(** The [rules] object: the validator registered under a name. *)
Definition rules_validate (rule : string)
    : option (jsval -> jsval -> jsval -> M ruled) :=
  if (rule =? "isBefore")%string then Some isBefore_validate
  else if (rule =? "isAfter")%string then Some isAfter_validate
  else if (rule =? "isSameOrBefore")%string then Some isSameOrBefore_validate
  else if (rule =? "isSameOrAfter")%string then Some isSameOrAfter_validate
  else None.

End Evaluation.
End Index.

(** ** The revision with references and a context time zone *)

Module Part000.
Import Moment JS Stages.

(** The configuration methods. *)
Definition tz_method (tz : jsval) := setFlag "tz" tz.
Definition startOf_method (startOf : jsval) := setFlag "startOf" startOf.
Definition endOf_method (endOf : jsval) := setFlag "endOf" endOf.
Definition maxDate_method (maxDate : jsval) := setFlag "maxDate" maxDate.
Definition minDate_method (minDate : jsval) := setFlag "minDate" minDate.

Definition isBefore_method (date precision : jsval) :=
  addRule {| name := "isBefore"; args_date := date; args_precision := precision |}.
Definition isAfter_method (date precision : jsval) :=
  addRule {| name := "isAfter"; args_date := date; args_precision := precision |}.
Definition isSameOrBefore_method (date precision : jsval) :=
  addRule {| name := "isSameOrBefore"; args_date := date; args_precision := precision |}.
Definition isSameOrAfter_method (date precision : jsval) :=
  addRule {| name := "isSameOrAfter"; args_date := date; args_precision := precision |}.

(** The assertions on the two arguments of a comparison rule. *)
Definition date_assert (v : jsval) : bool :=
  negb (truthy v) || isString v || isMoment v.
Definition precision_assert (v : jsval) : bool := isString v.

(** The message templates, by error kind. *)
Definition quote : string := String "034"%char EmptyString.

Definition messages : gmap string string :=
  {[ "moment.isBefore"%string := ("must be before {{#date}}" ++ quote)%string;
     "moment.isAfter"%string := ("must be after {{#date}}" ++ quote)%string;
     "moment.isSameOrBefore"%string :=
       ("must be same as or before {{#date}}" ++ quote)%string;
     "moment.isSameOrAfter"%string :=
       ("must be same as or after {{#date}}" ++ quote)%string ]}.

(** The schemas that the configuration methods build, from the schema
    without flags and rules. *)
Inductive configured : schema -> Prop :=
  | configured_new : configured {| flags := ∅; rules := [] |}
  | configured_tz v s : configured s -> configured (tz_method v s)
  | configured_startOf v s : configured s -> configured (startOf_method v s)
  | configured_endOf v s : configured s -> configured (endOf_method v s)
  | configured_maxDate v s : configured s -> configured (maxDate_method v s)
  | configured_minDate v s : configured s -> configured (minDate_method v s)
  | configured_isBefore d p s :
      configured s -> configured (isBefore_method d p s)
  | configured_isAfter d p s :
      configured s -> configured (isAfter_method d p s)
  | configured_isSameOrBefore d p s :
      configured s -> configured (isSameOrBefore_method d p s)
  | configured_isSameOrAfter d p s :
      configured s -> configured (isSameOrAfter_method d p s).

Section Evaluation.
Variable E : env.

(** Apply a timezone: the flag, or else the one of the context. *)
Definition timezone (tz contextTimezone value : jsval) : M () :=
  if truthy tz then call_tz E value tz
  else if truthy contextTimezone then call_tz E value contextTimezone
  else mret ().

(** [prefs.context.timezone]: reading a property of [null] throws. *)
Definition contextTimezone (prefs : prefs) : M jsval :=
  match context prefs with
  | Some c => mret (default JUndefined (c !! "timezone"))
  | None =>
      throw (TypeError "Cannot read properties of null (reading 'timezone')")
  end.

(** The context is read only when the schema sets no zone. *)
Definition coerce (value : jsval) (hp : helpers) : M (option jsval) :=
  let schema := h_schema hp in
  let state := h_state hp in
  let prefs := h_prefs hp in
  if negb (truthy value) then mret None
  else
    value ← (if negb (isMoment value) then moment_ISO E value else mret value);
    valid ← call_isValid value;
    if negb valid then mret None
    else
      let tz := getFlag schema "tz" in
      let startOf := getFlag schema "startOf" in
      let endOf := getFlag schema "endOf" in
      let maxDate := getFlag schema "maxDate" in
      let minDate := getFlag schema "minDate" in
      let minDate := if isRef minDate then ref_resolve state minDate else minDate in
      let maxDate := if isRef maxDate then ref_resolve state maxDate else maxDate in
      _ ← (if truthy tz then timezone tz JUndefined value
           else zone ← contextTimezone prefs; timezone tz zone value);
      _ ← period startOf endOf value;
      value ← minMax E minDate maxDate value;
      mret (Some value).

Definition validate : jsval -> M validated := Stages.validate.

(** A rule whose date is falsy lets the value through. *)
Definition guarded (validate : jsval -> jsval -> jsval -> M ruled)
    (value date precision : jsval) : M ruled :=
  if negb (truthy date) then mret (Pass value)
  else validate value date precision.

Definition isBefore_validate :=
  guarded (compareRule E "moment.isBefore" (call_isBefore E)).
Definition isAfter_validate :=
  guarded (compareRule E "moment.isAfter" (call_isAfter E)).
Definition isSameOrBefore_validate :=
  guarded (compareRule E "moment.isSameOrBefore" (call_isSameOrBefore E)).
Definition isSameOrAfter_validate :=
  guarded (compareRule E "moment.isSameOrAfter" (call_isSameOrAfter E)).

(** The [rules] object: the validator registered under a name. *)
Definition rules_validate (rule : string)
    : option (jsval -> jsval -> jsval -> M ruled) :=
  if (rule =? "isBefore")%string then Some isBefore_validate
  else if (rule =? "isAfter")%string then Some isAfter_validate
  else if (rule =? "isSameOrBefore")%string then Some isSameOrBefore_validate
  else if (rule =? "isSameOrAfter")%string then Some isSameOrAfter_validate
  else None.

End Evaluation.
End Part000.

(** ** What each block does to the moment it is applied to *)

Module Effects.
Import Moment JS.

(** [value.tz(zone)] under its guard: a falsy zone is not applied. *)
Definition zoned (E : env) (zone : jsval) (m : moment) : moment :=
  match zone with
  | JString z => if truthy zone then tz (zones E) z m else m
  | _ => m
  end.

(** [value.startOf(startOf)] and then [value.endOf(endOf)], each under
    its guard. *)
Definition rounded (startOf endOf : jsval) (m : moment) : moment :=
  let m := if truthy startOf then Moment.startOf (unitOf startOf) m else m in
  if truthy endOf then Moment.endOf (unitOf endOf) m else m.

(** A zone argument that [value.tz] accepts: a string, or nothing. *)
Definition zoneArg (zone : jsval) : bool := isString zone || negb (truthy zone).

End Effects.

(** ** Sample data *)

Module Samples.
Import Moment JS.

(** A process on UTC+1 with three zones in its database. *)
Definition env0 : env :=
  {| now := 1700000000000;
     localOffset := 60;
     zones := {[ "UTC"%string := 0; "Asia/Tokyo"%string := 540;
                 "America/Phoenix"%string := -420 ]} |}.

Definition schema0 : schema := {| flags := ∅; rules := [] |}.

Definition helpers0 : helpers :=
  {| h_schema := schema0; h_state := ∅; h_prefs := {| context := Some ∅ |} |}.

(** The caller's context names a default zone. *)
Definition helpersTokyo : helpers :=
  {| h_schema := schema0; h_state := ∅;
     h_prefs :=
       {| context := Some {[ "timezone"%string := JString "Asia/Tokyo" ]} |} |}.

(** 2024-03-15T10:00:00Z, shown in the local zone. *)
Definition march15 : moment :=
  {| valueOf := Some 1710496800000; utcOffset := 60; zoneName := None |}.

(** 2024-06-01T12:00 and 2024-06-01T00:00 of the local zone. *)
Definition june1noon : moment :=
  {| valueOf := Some 1717239600000; utcOffset := 60; zoneName := None |}.
Definition june1 : moment :=
  {| valueOf := Some 1717196400000; utcOffset := 60; zoneName := None |}.

(** 2024-01-01T00:00 of the local zone. *)
Definition january1 : moment :=
  {| valueOf := Some 1704063600000; utcOffset := 60; zoneName := None |}.

End Samples.

(** ** Calendar units by day number *)

Module Periods.
Import Calendar Moment.

(** First day of the era of the month after month [m] of year-of-era [yoe]. *)
Definition next_first_doe (yoe m : Z) : Z :=
  if m =? 2 then (if yoe =? 399 then 146097 else doe_of (yoe + 1) 3 1)
  else doe_of yoe (m mod 12 + 1) 1.

Definition doe_in_month (doe : Z) : bool :=
  let '(yoe, m, d) := ymd_of_doe doe in doe <? next_first_doe yoe m.

(** Day number of the civil date with a 0-based month that may overflow. *)
Definition dayOfDate (y m d : Z) : Z :=
  days_from_civil (y + m / 12) (m mod 12 + 1) d.

(** Day number of the first day of the unit that day [z] falls in, and
    of the first day of the unit after it; units shorter than a day
    count as the day. *)
Definition unitStartDay (u : units) (z : Z) : Z :=
  let '(y, m, d) := civil_from_days z in
  let m := m - 1 in
  let wd := weekday_of_days z in
  match u with
  | Year => dayOfDate y 0 1
  | Quarter => dayOfDate y (m - m mod 3) 1
  | Month => dayOfDate y m 1
  | Week => dayOfDate y m (d - wd)
  | IsoWeek => dayOfDate y m (d - (isoWeekday wd - 1))
  | _ => dayOfDate y m d
  end.

Definition unitNextDay (u : units) (z : Z) : Z :=
  let '(y, m, d) := civil_from_days z in
  let m := m - 1 in
  let wd := weekday_of_days z in
  match u with
  | Year => dayOfDate (y + 1) 0 1
  | Quarter => dayOfDate y (m - m mod 3 + 3) 1
  | Month => dayOfDate y (m + 1) 1
  | Week => dayOfDate y m (d - wd + 7)
  | IsoWeek => dayOfDate y m (d - (isoWeekday wd - 1) + 7)
  | _ => dayOfDate y m (d + 1)
  end.
(** The first month of a unit of months and of the unit after it, by
    index from January of year 0. *)
Definition monthsOf (u : units) (k : Z) : Z * Z :=
  match u with
  | Year => (k - k mod 12, k - k mod 12 + 12)
  | Quarter => (k - k mod 3, k - k mod 3 + 3)
  | _ => (k, k + 1)
  end.

(** The units that [startOf] and [endOf] truncate by calendar date. *)
Definition dateUnit (u : units) : bool :=
  match u with
  | Year | Quarter | Month | Week | IsoWeek | Day | Date => true
  | _ => false
  end.

End Periods.

(** ** The same configuration in both files *)

Module Settings.
Import JS.

(** Two schemas built by the same calls, one with the methods of
    [index.js] and one with the methods of the revision. *)
Inductive sameCalls : schema -> schema -> Prop :=
  | same_new : sameCalls {| flags := ∅; rules := [] |} {| flags := ∅; rules := [] |}
  | same_tz v si sp :
      sameCalls si sp -> sameCalls (Index.tz_method v si) (Part000.tz_method v sp)
  | same_startOf v si sp :
      sameCalls si sp ->
      sameCalls (Index.startOf_method v si) (Part000.startOf_method v sp)
  | same_endOf v si sp :
      sameCalls si sp ->
      sameCalls (Index.endOf_method v si) (Part000.endOf_method v sp)
  | same_maxDate v si sp :
      sameCalls si sp ->
      sameCalls (Index.maxDate_method v si) (Part000.maxDate_method v sp)
  | same_minDate v si sp :
      sameCalls si sp ->
      sameCalls (Index.minDate_method v si) (Part000.minDate_method v sp)
  | same_isBefore d p si sp :
      sameCalls si sp ->
      sameCalls (Index.isBefore_method d p si) (Part000.isBefore_method d p sp)
  | same_isAfter d p si sp :
      sameCalls si sp ->
      sameCalls (Index.isAfter_method d p si) (Part000.isAfter_method d p sp)
  | same_isSameOrBefore d p si sp :
      sameCalls si sp ->
      sameCalls (Index.isSameOrBefore_method d p si)
        (Part000.isSameOrBefore_method d p sp)
  | same_isSameOrAfter d p si sp :
      sameCalls si sp ->
      sameCalls (Index.isSameOrAfter_method d p si)
        (Part000.isSameOrAfter_method d p sp).

End Settings.

(** ** What the rules and [coerce] work with *)

Module Outcomes.
Import Calendar Moment JS.

(** The precision a rule compares at and reports. *)
Definition precisionOf (precision : jsval) : jsval :=
  if negb (truthy precision) then JString "milliseconds" else precision.

(** The date a rule compares with, and the store after a string date
    was parsed into a new moment. *)
Definition dateOf (E : env) (date : jsval) (h : heap) : jsval * heap :=
  match date with
  | JString s => (JMoment (length h), h ++ [fromISO (localOffset E) s])
  | _ => (date, h)
  end.

(** A unit argument that is nothing, or one of the names of the table
    of [normalizeUnits] for the units from year to millisecond.  The
    library knows further units (weekday, dayOfYear and others), at
    which a moment does not stay valid, and lower-cases a name that it
    does not find. *)
Definition unitArg (unit : jsval) : bool :=
  match unitOf unit with
  | Some _ => true
  | None => negb (truthy unit)
  end.

(** The moment that [moment(value, moment.ISO_8601)] builds. *)
Definition momentOf (E : env) (v : jsval) (h : heap) : option moment :=
  match v with
  | JMoment l => h !! l
  | JString s => Some (fromISO (localOffset E) s)
  | _ => Some (invalid (localOffset E))
  end.

(** The library's dates end 8.64e15 milliseconds from the epoch on
    either side.  A moment is in range when it is valid and 400 days
    or more inside these ends, so that the start and the end of every
    unit it falls in are dates as well. *)
Definition inRange (m : moment) : bool :=
  match valueOf m with
  | Some t => Z.abs t <=? 8640000000000000 - 400 * MS_PER_DAY
  | None => false
  end.

End Outcomes.

(** * Properties *)

(** ** Calendar facts *)

Module CalendarFacts.
Import Calendar.

Lemma all_from_spec n : forall i f,
  all_from n i f = true ->
  forall j, i <= j < i + Z.of_nat n -> f j = true.
Proof.
  induction n as [|k IH]; intros i f H j Hj; [lia|].
  cbn [all_from] in H. destruct (f i) eqn:Hi; [|discriminate].
  destruct (Z.eq_dec j i) as [->|Hne]; [exact Hi|].
  apply (IH (i + 1) f H). lia.
Qed.

Lemma doe_roundtrip_all doe :
  0 <= doe < 146097 -> doe_roundtrip doe = true.
Proof.
  intros H.
  apply (all_from_spec (Z.to_nat 146097) 0 doe_roundtrip);
    [vm_compute; reflexivity | lia].
Qed.

Lemma first_roundtrip_all k :
  0 <= k < 4800 -> first_roundtrip k = true.
Proof.
  intros H.
  apply (all_from_spec (Z.to_nat 4800) 0 first_roundtrip);
    [vm_compute; reflexivity | lia].
Qed.

Lemma div_unique_pos a b q : 0 < b -> 0 <= a - q * b < b -> a / b = q.
Proof.
  intros Hb H. symmetry. apply (Z.div_unique_pos a b q (a - q * b)); lia.
Qed.

(** Decoding a day number and encoding it again gives the day number
    back; the decoded month and day are in range. *)
Lemma days_from_civil_from_days z :
  match civil_from_days z with
  | (y, m, d) => days_from_civil y m d = z /\ 1 <= m <= 12 /\ 1 <= d
  end.
Proof.
  unfold civil_from_days.
  set (z' := z + 719468). set (era := z' / 146097).
  set (doe := z' - era * 146097).
  assert (Hdoe : 0 <= doe < 146097).
  { subst doe era. pose proof (Z.div_mod z' 146097 ltac:(lia)).
    pose proof (Z.mod_pos_bound z' 146097 ltac:(lia)). lia. }
  pose proof (doe_roundtrip_all doe Hdoe) as Hrt. unfold doe_roundtrip in Hrt.
  destruct (ymd_of_doe doe) as [[yoe m] d].
  repeat (apply andb_prop in Hrt; destruct Hrt as [Hrt ?]).
  assert (Hy : (if m <=? 2
                then (if m <=? 2 then yoe + era * 400 + 1 else yoe + era * 400) - 1
                else (if m <=? 2 then yoe + era * 400 + 1 else yoe + era * 400))
               = yoe + era * 400) by (destruct (m <=? 2); lia).
  split; [|lia].
  unfold days_from_civil. rewrite Hy.
  assert (He : (yoe + era * 400) / 400 = era) by (apply div_unique_pos; lia).
  rewrite He. replace (yoe + era * 400 - era * 400) with yoe by lia.
  subst doe z'. lia.
Qed.

(** The first day of a month decodes to that month. *)
Lemma civil_from_days_first y m :
  1 <= m <= 12 -> civil_from_days (days_from_civil y m 1) = (y, m, 1).
Proof.
  intros Hm. unfold days_from_civil.
  set (y' := if m <=? 2 then y - 1 else y).
  set (era := y' / 400). set (yoe := y' - era * 400).
  assert (Hyoe : 0 <= yoe < 400).
  { subst yoe era. pose proof (Z.div_mod y' 400 ltac:(lia)).
    pose proof (Z.mod_pos_bound y' 400 ltac:(lia)). lia. }
  pose proof (first_roundtrip_all (yoe * 12 + (m - 1)) ltac:(lia)) as Hrt.
  unfold first_roundtrip in Hrt.
  assert (Hq : (yoe * 12 + (m - 1)) / 12 = yoe) by (apply div_unique_pos; lia).
  assert (Hr : (yoe * 12 + (m - 1)) mod 12 + 1 = m).
  { rewrite Z.mod_eq by lia. rewrite Hq. lia. }
  rewrite Hq, Hr in Hrt.
  set (doe := doe_of yoe m 1) in *.
  destruct (ymd_of_doe doe) as [[yoe' m'] d'] eqn:Hdec.
  repeat (apply andb_prop in Hrt; destruct Hrt as [Hrt ?]).
  assert (yoe' = yoe) by lia. assert (m' = m) by lia. assert (d' = 1) by lia.
  subst yoe' m' d'.
  unfold civil_from_days.
  assert (He : (era * 146097 + doe - 719468 + 719468) / 146097 = era)
    by (apply div_unique_pos; lia).
  rewrite He.
  replace (era * 146097 + doe - 719468 + 719468 - era * 146097) with doe by lia.
  rewrite Hdec. f_equal. f_equal.
  subst yoe y'. destruct (m <=? 2); lia.
Qed.

(** The day of month enters the day number linearly. *)
Lemma days_from_civil_shift y m d k :
  days_from_civil y m (d + k) = days_from_civil y m d + k.
Proof. unfold days_from_civil, doe_of. lia. Qed.

End CalendarFacts.

(** ** Facts about moments *)

Module MomentFacts.
Import Calendar Moment CalendarFacts.

Lemma month_index m :
  1 <= m <= 12 -> (m - 1) / 12 = 0 /\ (m - 1) mod 12 + 1 = m.
Proof.
  intros H. rewrite Z.div_small, Z.mod_small by lia. lia.
Qed.

(** The start of a civil day, counted from the civil date of a day
    number. *)
Lemma zoneStartOfDate_civil off z y m d k :
  civil_from_days z = (y, m, d) ->
  zoneStartOfDate off y (m - 1) (d + k)
  = MS_PER_DAY * (z + k) - off * MS_PER_MINUTE.
Proof.
  intros Hc. pose proof (days_from_civil_from_days z) as Hz.
  rewrite Hc in Hz. destruct Hz as (Hz & Hm & _).
  destruct (month_index m Hm) as [Hq Hr].
  unfold zoneStartOfDate, startOfDate. rewrite Hq, Hr, Z.add_0_r.
  rewrite days_from_civil_shift, Hz. reflexivity.
Qed.

Lemma zoneStartOfDate_first off y m :
  0 <= m <= 11 ->
  zoneStartOfDate off y m 1
  = MS_PER_DAY * days_from_civil y (m + 1) 1 - off * MS_PER_MINUTE.
Proof.
  intros Hm. unfold zoneStartOfDate, startOfDate.
  rewrite Z.div_small, Z.mod_small, Z.add_0_r by lia. reflexivity.
Qed.

Lemma localDays_start off k :
  localDays off (MS_PER_DAY * k - off * MS_PER_MINUTE) = k.
Proof.
  unfold localDays.
  replace (MS_PER_DAY * k - off * MS_PER_MINUTE + off * MS_PER_MINUTE)
    with (k * MS_PER_DAY) by lia.
  apply Z.div_mul. discriminate.
Qed.

Lemma fields_start off k :
  fields off (MS_PER_DAY * k - off * MS_PER_MINUTE)
  = let '(y, m, d) := civil_from_days k in (y, m - 1, d, weekday_of_days k).
Proof. unfold fields. rewrite localDays_start. reflexivity. Qed.

(** The start and the end of the day, by day number. *)
Lemma startOf_ms_day off t :
  startOf_ms Day off t = MS_PER_DAY * localDays off t - off * MS_PER_MINUTE.
Proof.
  unfold startOf_ms, fields.
  destruct (civil_from_days (localDays off t)) as [[y m] d] eqn:Hc.
  rewrite <- (Z.add_0_r d), (zoneStartOfDate_civil off _ y m d 0 Hc).
  f_equal. f_equal. lia.
Qed.

Lemma endOf_ms_day off t :
  endOf_ms Day off t
  = MS_PER_DAY * (localDays off t + 1) - off * MS_PER_MINUTE - 1.
Proof.
  unfold endOf_ms, fields.
  destruct (civil_from_days (localDays off t)) as [[y m] d] eqn:Hc.
  rewrite (zoneStartOfDate_civil off _ y m d 1 Hc). reflexivity.
Qed.

Lemma startOf_ms_date off t : startOf_ms Date off t = startOf_ms Day off t.
Proof.
  unfold startOf_ms. destruct (fields off t) as [[[y m] d] wd]. reflexivity.
Qed.

Lemma endOf_ms_date off t : endOf_ms Date off t = endOf_ms Day off t.
Proof.
  unfold endOf_ms. destruct (fields off t) as [[[y m] d] wd]. reflexivity.
Qed.

Lemma startOf_ms_idempotent u off t :
  startOf_ms u off (startOf_ms u off t) = startOf_ms u off t.
Proof.
  destruct u.
  - (* year *)
    unfold startOf_ms at 2 3. destruct (fields off t) as [[[y m] d] wd].
    rewrite (zoneStartOfDate_first off y 0) by lia.
    unfold startOf_ms. rewrite fields_start.
    rewrite (civil_from_days_first y (0 + 1)) by lia.
    apply zoneStartOfDate_first. lia.
  - (* quarter *)
    unfold startOf_ms at 2 3. unfold fields.
    pose proof (days_from_civil_from_days (localDays off t)) as Hz.
    destruct (civil_from_days (localDays off t)) as [[y m] d].
    destruct Hz as (_ & Hm & _).
    pose proof (Z.mod_pos_bound (m - 1) 3 ltac:(lia)) as Hb.
    pose proof (Z.mod_le (m - 1) 3 ltac:(lia) ltac:(lia)) as Hle.
    set (q := m - 1 - (m - 1) mod 3) in *.
    assert (Hqb : 0 <= q <= 11) by (unfold q; lia).
    assert (Hq3 : q mod 3 = 0).
    { subst q. rewrite (Z.div_mod (m - 1) 3) at 1 by lia.
      replace (3 * ((m - 1) / 3) + (m - 1) mod 3 - (m - 1) mod 3)
        with (((m - 1) / 3) * 3) by lia.
      apply Z.mod_mul. lia. }
    rewrite (zoneStartOfDate_first off y q) by lia.
    unfold startOf_ms. rewrite fields_start.
    rewrite (civil_from_days_first y (q + 1)) by lia.
    replace (q + 1 - 1) with q by lia. rewrite Hq3, Z.sub_0_r.
    apply zoneStartOfDate_first. lia.
  - (* month *)
    unfold startOf_ms at 2 3. unfold fields.
    pose proof (days_from_civil_from_days (localDays off t)) as Hz.
    destruct (civil_from_days (localDays off t)) as [[y m] d].
    destruct Hz as (_ & Hm & _).
    rewrite (zoneStartOfDate_first off y (m - 1)) by lia.
    unfold startOf_ms. rewrite fields_start.
    rewrite (civil_from_days_first y (m - 1 + 1)) by lia.
    replace (m - 1 + 1 - 1) with (m - 1) by lia.
    apply zoneStartOfDate_first. lia.
  - (* week *)
    unfold startOf_ms at 2 3. unfold fields.
    set (z := localDays off t).
    destruct (civil_from_days z) as [[y m] d] eqn:Hc.
    replace (d - weekday_of_days z) with (d + - weekday_of_days z) by lia.
    rewrite (zoneStartOfDate_civil off z y m d _ Hc).
    unfold startOf_ms. rewrite fields_start.
    set (z' := z + - weekday_of_days z).
    destruct (civil_from_days z') as [[y' m'] d'] eqn:Hc'.
    assert (Hw : weekday_of_days z' = 0).
    { subst z'. unfold weekday_of_days.
      pose proof (Z.div_mod (z + 4) 7 ltac:(lia)).
      replace (z + - ((z + 4) mod 7) + 4) with (((z + 4) / 7) * 7) by lia.
      apply Z.mod_mul. lia. }
    rewrite Hw. replace (d' - 0) with (d' + 0) by lia.
    rewrite (zoneStartOfDate_civil off z' y' m' d' 0 Hc'). f_equal. lia.
  - (* isoWeek *)
    unfold startOf_ms at 2 3. unfold fields.
    set (z := localDays off t).
    destruct (civil_from_days z) as [[y m] d] eqn:Hc.
    replace (d - (isoWeekday (weekday_of_days z) - 1))
      with (d + - (isoWeekday (weekday_of_days z) - 1)) by lia.
    rewrite (zoneStartOfDate_civil off z y m d _ Hc).
    unfold startOf_ms. rewrite fields_start.
    set (z' := z + - (isoWeekday (weekday_of_days z) - 1)).
    destruct (civil_from_days z') as [[y' m'] d'] eqn:Hc'.
    assert (Hw : weekday_of_days z' = 1).
    { subst z'. unfold weekday_of_days, isoWeekday.
      pose proof (Z.mod_pos_bound (z + 4) 7 ltac:(lia)) as Hb.
      pose proof (Z.div_mod (z + 4) 7 ltac:(lia)) as Hd.
      destruct ((z + 4) mod 7 =? 0) eqn:H0.
      - apply Z.eqb_eq in H0.
        replace (z + - (7 - 1) + 4) with (1 + ((z + 4) / 7 - 1) * 7) by lia.
        rewrite Z.mod_add by lia. reflexivity.
      - apply Z.eqb_neq in H0.
        replace (z + - ((z + 4) mod 7 - 1) + 4) with (1 + ((z + 4) / 7) * 7) by lia.
        rewrite Z.mod_add by lia. reflexivity. }
    rewrite Hw. change (isoWeekday 1 - 1) with 0.
    replace (d' - 0) with (d' + 0) by lia.
    rewrite (zoneStartOfDate_civil off z' y' m' d' 0 Hc'). f_equal. lia.
  - (* day *)
    rewrite !startOf_ms_day, localDays_start. reflexivity.
  - (* date *)
    rewrite !startOf_ms_date, !startOf_ms_day, localDays_start. reflexivity.
  - (* hour *)
    unfold startOf_ms.
    destruct (fields off t) as [[[y m] d] wd].
    destruct (fields off _) as [[[y' m'] d'] wd'].
    unfold MS_PER_HOUR, MS_PER_MINUTE.
    pose proof (Z.div_mod (t + off * 60000) 3600000 ltac:(lia)) as Hd.
    replace (t - (t + off * 60000) mod 3600000 + off * 60000)
      with (((t + off * 60000) / 3600000) * 3600000) by lia.
    rewrite Z.mod_mul by lia. lia.
  - (* minute *)
    unfold startOf_ms.
    destruct (fields off t) as [[[y m] d] wd].
    destruct (fields off _) as [[[y' m'] d'] wd'].
    unfold MS_PER_MINUTE.
    pose proof (Z.div_mod t 60000 ltac:(lia)) as Hd.
    replace (t - t mod 60000) with ((t / 60000) * 60000) by lia.
    rewrite Z.mod_mul by lia. lia.
  - (* second *)
    unfold startOf_ms.
    destruct (fields off t) as [[[y m] d] wd].
    destruct (fields off _) as [[[y' m'] d'] wd'].
    unfold MS_PER_SECOND.
    pose proof (Z.div_mod t 1000 ltac:(lia)) as Hd.
    replace (t - t mod 1000) with ((t / 1000) * 1000) by lia.
    rewrite Z.mod_mul by lia. lia.
  - (* millisecond *)
    unfold startOf_ms.
    destruct (fields off t) as [[[y m] d] wd]. reflexivity.
Qed.

Lemma startOf_idempotent u m : startOf u (startOf u m) = startOf u m.
Proof.
  destruct u as [u|]; [|reflexivity].
  destruct m as [[t|] off zn]; [|reflexivity].
  unfold startOf, at_instant; cbn [valueOf utcOffset zoneName].
  rewrite startOf_ms_idempotent. reflexivity.
Qed.

(** A string without a digit is in none of the formats. *)
Lemma parseISO_no_digit s :
  Forall (fun c => digit c = None) (list_ascii_of_string s) ->
  parseISO s = None.
Proof.
  unfold parseISO.
  destruct (list_ascii_of_string s)
    as [|y1 [|y2 [|y3 [|y4 [|c1 [|m1 [|m2 [|c2 [|d1 [|d2 rest]]]]]]]]]];
    try reflexivity.
  intros H. apply Forall_cons in H as [Hy1 _].
  unfold num4, num2. rewrite Hy1.
  destruct ((c1 =? "-")%char && (c2 =? "-")%char); reflexivity.
Qed.

End MomentFacts.

(** ** Facts about calls on objects of the store *)

Module StoreFacts.
Import Moment JS Stages.

Lemma bind_Return {A B} (c : M A) (k : A -> M B) h a h' :
  c h = Return a h' -> (c ≫= k) h = k a h'.
Proof. intros H. unfold mbind, M_bind. rewrite H. reflexivity. Qed.

Lemma bind_Throw {A B} (c : M A) (k : A -> M B) h e :
  c h = Throw e -> (c ≫= k) h = Throw e.
Proof. intros H. unfold mbind, M_bind. rewrite H. reflexivity. Qed.

Lemma load_eq l m (h : heap) : h !! l = Some m -> load l h = Return m h.
Proof. intros H. unfold load. rewrite H. reflexivity. Qed.

Lemma modify_eq l f m (h : heap) :
  h !! l = Some m -> modify l f h = Return () (<[l := f m]> h).
Proof. intros H. unfold modify. rewrite H. reflexivity. Qed.

Lemma lookup_modified l (h : heap) m m' :
  h !! l = Some m -> <[l := m']> h !! l = Some m'.
Proof. intros H. apply list_lookup_insert_eq. eapply lookup_lt_Some, H. Qed.

Lemma call_isValid_eq l m (h : heap) :
  h !! l = Some m -> call_isValid (JMoment l) h = Return (isValid m) h.
Proof.
  intros H. unfold call_isValid, receiver.
  rewrite (bind_Return _ _ h l h) by reflexivity.
  rewrite (bind_Return _ _ h m h) by (apply load_eq, H). reflexivity.
Qed.

Lemma call_isValid_not_moment v (h : heap) :
  isMoment v = false ->
  call_isValid v h = Throw (TypeError "value.isValid is not a function").
Proof. intros H. destruct v; try discriminate; reflexivity. Qed.

Lemma call_startOf_eq l m unit (h : heap) :
  h !! l = Some m ->
  call_startOf (JMoment l) unit h
  = Return () (<[l := startOf (unitOf unit) m]> h).
Proof.
  intros H. unfold call_startOf, receiver.
  rewrite (bind_Return _ _ h l h) by reflexivity. apply modify_eq, H.
Qed.

Lemma call_endOf_eq l m unit (h : heap) :
  h !! l = Some m ->
  call_endOf (JMoment l) unit h
  = Return () (<[l := endOf (unitOf unit) m]> h).
Proof.
  intros H. unfold call_endOf, receiver.
  rewrite (bind_Return _ _ h l h) by reflexivity. apply modify_eq, H.
Qed.

Lemma call_tz_eq E l m name (h : heap) :
  h !! l = Some m ->
  truthy (JString name) = true ->
  call_tz E (JMoment l) (JString name) h
  = Return () (<[l := tz (zones E) name m]> h).
Proof.
  intros H Ht. unfold call_tz, receiver.
  rewrite (bind_Return _ _ h l h) by reflexivity.
  rewrite Ht. apply modify_eq, H.
Qed.

(** Reading the argument of a comparison leaves the store alone. *)
Lemma createLocal_store E d (h : heap) b h' :
  createLocal E d h = Return b h' -> h' = h.
Proof.
  destruct d; cbn [createLocal]; unfold mret, M_ret, load;
    try (intros [= _ <-]; reflexivity).
  destruct (h !! l); [intros [= _ <-]; reflexivity | discriminate].
Qed.

Lemma compare_eq E method cmp l a d b p (h : heap) :
  h !! l = Some a ->
  createLocal E d h = Return b h ->
  compare E method cmp (JMoment l) d p h = Return (cmp a b (unitOf p)) h.
Proof.
  intros Hl Hd. unfold compare, receiver.
  rewrite (bind_Return _ _ h l h) by reflexivity.
  rewrite (bind_Return _ _ h a h) by (apply load_eq, Hl).
  rewrite (bind_Return _ _ h b h) by exact Hd. reflexivity.
Qed.

Lemma createLocal_moment E l m (h : heap) :
  h !! l = Some m -> createLocal E (JMoment l) h = Return m h.
Proof. intros H. apply load_eq, H. Qed.

End StoreFacts.

(** ** Facts about the blocks of [coerce] *)

Module StageFacts.
Import Moment JS Stages Effects StoreFacts.

Lemma insert_same l (h : heap) m : h !! l = Some m -> <[l := m]> h = h.
Proof. apply list_insert_id. Qed.

Lemma period_eq startOf endOf l m (h : heap) :
  h !! l = Some m ->
  period startOf endOf (JMoment l) h
  = Return () (<[l := rounded startOf endOf m]> h).
Proof.
  intros H. unfold period, rounded.
  destruct (truthy startOf).
  - rewrite (bind_Return _ _ h () _ (call_startOf_eq l m startOf h H)).
    destruct (truthy endOf).
    + rewrite (call_endOf_eq l (Moment.startOf (unitOf startOf) m))
        by (eapply lookup_modified, H).
      rewrite list_insert_insert_eq. reflexivity.
    + reflexivity.
  - rewrite (bind_Return _ _ h () h) by reflexivity.
    destruct (truthy endOf).
    + apply call_endOf_eq, H.
    + rewrite insert_same by exact H. reflexivity.
Qed.

Lemma index_timezone_eq E zone l m (h : heap) :
  h !! l = Some m -> zoneArg zone = true ->
  Index.timezone E zone (JMoment l) h = Return () (<[l := zoned E zone m]> h).
Proof.
  intros H Hz. unfold Index.timezone, zoned.
  destruct zone; cbn [truthy]; try discriminate Hz;
    try (rewrite insert_same by exact H; reflexivity).
  - destruct b; [discriminate Hz|]. rewrite insert_same by exact H. reflexivity.
  - unfold zoneArg in Hz; cbn [isString truthy] in Hz.
    destruct (n =? 0); [|discriminate Hz].
    rewrite insert_same by exact H. reflexivity.
  - destruct (negb (s =? "")%string) eqn:Hs.
    + apply call_tz_eq; [exact H | exact Hs].
    + rewrite insert_same by exact H. reflexivity.
Qed.


Lemma part000_timezone_eq E tz ctx l m (h : heap) :
  h !! l = Some m ->
  zoneArg (if truthy tz then tz else ctx) = true ->
  Part000.timezone E tz ctx (JMoment l) h
  = Return () (<[l := zoned E (if truthy tz then tz else ctx) m]> h).
Proof.
  intros H Hz. unfold Part000.timezone.
  destruct (truthy tz) eqn:Ht.
  - rewrite <- (index_timezone_eq E tz l m h H Hz).
    unfold Index.timezone. rewrite Ht. reflexivity.
  - rewrite <- (index_timezone_eq E ctx l m h H Hz). reflexivity.
Qed.

(** The bounds never write to the store. *)
Lemma minMax_store E minDate maxDate value (h : heap) r h' :
  minMax E minDate maxDate value h = Return r h' ->
  h' = h /\ (r = value \/ r = minDate \/ r = maxDate).
Proof.
  assert (Hcmp : forall method cmp v d p b h1,
            compare E method cmp v d p h = Return b h1 -> h1 = h).
  { intros method cmp v d p b h1. unfold compare, receiver, mbind, M_bind.
    destruct v; try discriminate.
    cbn [mret M_ret]. unfold load.
    destruct (h !! l); [|discriminate].
    destruct (createLocal E d h) as [b0 h0|] eqn:Hc; [|discriminate].
    apply createLocal_store in Hc. subst h0. intros [= _ <-]. reflexivity. }
  unfold minMax, mbind, M_bind.
  destruct (truthy minDate).
  - unfold call_isBefore at 1, mbind, M_bind.
    destruct (compare E _ _ value minDate JUndefined h) as [b h1|] eqn:Hb;
      [|discriminate].
    apply Hcmp in Hb. subst h1. cbn [mret M_ret].
    destruct (truthy maxDate).
    + unfold call_isAfter, mbind, M_bind.
      destruct (compare E _ _ _ maxDate JUndefined h) as [b' h1|] eqn:Hb';
        [|discriminate].
      apply Hcmp in Hb'. subst h1. cbn [mret M_ret].
      intros [= <- <-]. split; [reflexivity|]. destruct b', b; auto.
    + intros [= <- <-]. split; [reflexivity|]. destruct b; auto.
  - cbn [mret M_ret]. destruct (truthy maxDate).
    + unfold call_isAfter, mbind, M_bind.
      destruct (compare E _ _ _ maxDate JUndefined h) as [b' h1|] eqn:Hb';
        [|discriminate].
      apply Hcmp in Hb'. subst h1. cbn [mret M_ret].
      intros [= <- <-]. split; [reflexivity|]. destruct b'; auto.
    + intros [= <- <-]. auto.
Qed.


(** The bounds block on three moments of the store. *)
Lemma minMax_moments E (h : heap) lv lmin lmax V Dmin Dmax :
  h !! lv = Some V -> h !! lmin = Some Dmin -> h !! lmax = Some Dmax ->
  minMax E (JMoment lmin) (JMoment lmax) (JMoment lv) h
  = Return (if isBefore V Dmin None
            then (if isAfter Dmin Dmax None then JMoment lmax else JMoment lmin)
            else (if isAfter V Dmax None then JMoment lmax else JMoment lv)) h.
Proof.
  intros Hv Hmin Hmax. unfold minMax. cbn [truthy].
  unfold call_isBefore, call_isAfter.
  rewrite (bind_Return _ _ h
             (if isBefore V Dmin None then JMoment lmin else JMoment lv) h).
  2:{ rewrite (bind_Return _ _ h (isBefore V Dmin None) h); [reflexivity|].
      apply compare_eq; [exact Hv | apply createLocal_moment, Hmin]. }
  destruct (isBefore V Dmin None).
  - rewrite (bind_Return _ _ h (isAfter Dmin Dmax None) h); [reflexivity|].
    apply compare_eq; [exact Hmin | apply createLocal_moment, Hmax].
  - rewrite (bind_Return _ _ h (isAfter V Dmax None) h); [reflexivity|].
    apply compare_eq; [exact Hv | apply createLocal_moment, Hmax].
Qed.

(** *** What a computation that returned has done *)

Lemma bind_inv {A B} (c : M A) (k : A -> M B) (h : heap) b h' :
  (c ≫= k) h = Return b h' ->
  exists a h1, c h = Return a h1 /\ k a h1 = Return b h'.
Proof. unfold mbind, M_bind. destruct (c h) as [a h1|]; [eauto|discriminate]. Qed.

Lemma bind_ext {A B} (c : M A) (k1 k2 : A -> M B) (h : heap) :
  (forall a h1, k1 a h1 = k2 a h1) -> (c ≫= k1) h = (c ≫= k2) h.
Proof. intros H. unfold mbind, M_bind. destruct (c h); [apply H|reflexivity]. Qed.

Lemma bind_eq {A B} (c1 c2 : M A) (k : A -> M B) (h : heap) :
  c1 h = c2 h -> (c1 ≫= k) h = (c2 ≫= k) h.
Proof. intros H. unfold mbind, M_bind. rewrite H. reflexivity. Qed.

Lemma isValid_tz zs n m : isValid (tz zs n m) = isValid m.
Proof. unfold tz. destruct (zs !! n); reflexivity. Qed.

(** Whatever its argument, [value.tz] writes one object and keeps its
    validity. *)
Lemma call_tz_inv E l name (h : heap) h' m :
  h !! l = Some m ->
  call_tz E (JMoment l) name h = Return () h' ->
  exists m', h' = <[l := m']> h /\ isValid m' = isValid m.
Proof.
  intros Hm. cbv [call_tz receiver mbind M_bind mret M_ret].
  destruct (truthy name).
  - destruct name; cbv [throw modify]; try discriminate.
    rewrite Hm. intros [= <-]. eexists. split; [reflexivity|apply isValid_tz].
  - intros [= <-]. exists m. rewrite insert_same by exact Hm. auto.
Qed.

Lemma index_timezone_inv E zone l (h : heap) h' m :
  h !! l = Some m ->
  Index.timezone E zone (JMoment l) h = Return () h' ->
  exists m', h' = <[l := m']> h /\ isValid m' = isValid m.
Proof.
  intros Hm. unfold Index.timezone. destruct (truthy zone).
  - apply call_tz_inv, Hm.
  - intros [= <-]. exists m. rewrite insert_same by exact Hm. auto.
Qed.

(** The zone of the revision is the zone of [index.js] on the flag or,
    without one, on the zone of the context. *)
Lemma part000_timezone_index E zone ctx value :
  Part000.timezone E zone ctx value
  = Index.timezone E (if truthy zone then zone else ctx) value.
Proof.
  unfold Part000.timezone, Index.timezone.
  destruct (truthy zone) eqn:Hz; [rewrite Hz|]; reflexivity.
Qed.

(** The zone step of the revision, with the context read on demand. *)
Lemma part000_zone_inv E zone prefs l (h : heap) h' m :
  h !! l = Some m ->
  (if truthy zone then Part000.timezone E zone JUndefined (JMoment l)
   else ctx ← Part000.contextTimezone prefs;
        Part000.timezone E zone ctx (JMoment l)) h = Return () h' ->
  exists m', h' = <[l := m']> h /\ isValid m' = isValid m.
Proof.
  intros Hm. destruct (truthy zone) eqn:Hz.
  - rewrite part000_timezone_index, Hz. apply index_timezone_inv, Hm.
  - intros H. apply bind_inv in H as (ctx & h1 & Hc & H).
    unfold Part000.contextTimezone in Hc.
    destruct (context prefs); [|discriminate Hc]. injection Hc as <- <-.
    rewrite part000_timezone_index in H.
    eapply index_timezone_inv; [exact Hm | exact H].
Qed.

End StageFacts.

(** ** The coercion and validation contract *)

Import Calendar Moment JS Stages Effects Samples.
Import CalendarFacts MomentFacts StoreFacts StageFacts.

(** C7.  An absent input (undefined, null, the empty string, false,
    zero, not-a-number: any falsy value) makes [coerce] return nothing
    and leave the store alone, whatever the configuration, and
    [validate] hands the value back as it is, without an error; this
    holds in both files. *)
Theorem absent_input_passes (E : env) (v : jsval) (hp : helpers) (h : heap) :
  truthy v = false ->
  Index.coerce E v hp h = Return None h /\
  Part000.coerce E v hp h = Return None h /\
  Index.validate v h = Return (VValue v) h /\
  Part000.validate v h = Return (VValue v) h.
Proof.
  intros Hv.
  unfold Index.coerce, Part000.coerce, Index.validate, Part000.validate,
    Stages.validate.
  rewrite Hv. repeat split; reflexivity.
Qed.

Lemma absent_input_passes_witness :
  truthy (JString "") = false /\
  (Index.coerce env0 (JString "") helpersTokyo [] = Return None [] /\
   Part000.coerce env0 (JString "") helpersTokyo [] = Return None [] /\
   Index.validate (JString "") [] = Return (VValue (JString "")) [] /\
   Part000.validate (JString "") [] = Return (VValue (JString "")) []).
Proof.
  split; [reflexivity|].
  apply (absent_input_passes env0 (JString "") helpersTokyo []). reflexivity.
Defined.

(** C4.  Truncating to the start of a unit twice gives what truncating
    once gives: for every unit (and no unit) and every moment, and, on
    the store, for the call [value.startOf(unit)] that [coerce] makes,
    whatever the unit argument and the receiver. *)
Theorem startOf_twice_is_once :
  (forall (u : option units) (t : moment),
     startOf u (startOf u t) = startOf u t) /\
  (forall (unit value : jsval) (h : heap),
     (_ ← call_startOf value unit; call_startOf value unit) h
     = call_startOf value unit h).
Proof.
  split; [exact startOf_idempotent|].
  intros unit value h.
  destruct value; try reflexivity.
  destruct (h !! l) as [m|] eqn:Hl.
  - rewrite (bind_Return _ _ h () _ (call_startOf_eq l m unit h Hl)).
    rewrite (call_startOf_eq l (startOf (unitOf unit) m))
      by (eapply lookup_modified, Hl).
    rewrite list_insert_insert_eq, startOf_idempotent.
    symmetry. apply call_startOf_eq, Hl.
  - assert (Ht : call_startOf (JMoment l) unit h = Throw (Dangling l)).
    { unfold call_startOf, receiver.
      rewrite (bind_Return _ _ h l h) by reflexivity.
      unfold modify. rewrite Hl. reflexivity. }
    rewrite (bind_Throw _ _ h _ Ht). symmetry. exact Ht.
Qed.

(** C5.  When both [startOf] and [endOf] are set, the period block of
    [coerce] (the same in both files) truncates to the start first and
    to the end second: the moment is left at the end of [endOf]'s unit
    computed on the [startOf]-truncated moment. *)
Theorem startOf_then_endOf (startOf endOf : jsval) (l : loc) (m : moment)
    (h : heap) :
  h !! l = Some m ->
  truthy startOf = true ->
  truthy endOf = true ->
  period startOf endOf (JMoment l) h
  = Return ()
      (<[l := Moment.endOf (unitOf endOf) (Moment.startOf (unitOf startOf) m)]> h).
Proof.
  intros Hl Hs He. rewrite (period_eq startOf endOf l m h Hl).
  unfold rounded. rewrite Hs, He. reflexivity.
Qed.

Lemma startOf_then_endOf_witness :
  [march15] !! 0%nat = Some march15 /\
  truthy (JString "year") = true /\
  truthy (JString "day") = true /\
  period (JString "year") (JString "day") (JMoment 0) [march15]
  = Return ()
      (<[0%nat := Moment.endOf (unitOf (JString "day"))
                    (Moment.startOf (unitOf (JString "year")) march15)]>
         [march15]).
Proof.
  split; [reflexivity|]. split; [reflexivity|]. split; [reflexivity|].
  apply (startOf_then_endOf (JString "year") (JString "day") 0%nat march15);
    reflexivity.
Defined.

(** The end of the first day of 2024, local time: the start of the year
    did move the moment before the end of the day was taken. *)
Example startOf_then_endOf_value :
  period (JString "year") (JString "day") (JMoment 0) [march15]
  = Return ()
      [{| valueOf := Some 1704149999999; utcOffset := 60; zoneName := None |}].
Proof. vm_compute. reflexivity. Qed.

(** C3.  With a minimum and a maximum that are moments and
    [Dmin <= Dmax], the bounds block of [coerce] (the same in both
    files) returns, for a valid moment [V], a moment [R] with
    [Dmin <= R <= Dmax], and returns [V] itself when
    [Dmin <= V <= Dmax] already. *)
Theorem minMax_clamps (E : env) (h : heap) (lv lmin lmax : loc)
    (V Dmin Dmax : moment) :
  h !! lv = Some V ->
  h !! lmin = Some Dmin ->
  h !! lmax = Some Dmax ->
  isValid V = true ->
  le Dmin Dmax ->
  exists (lr : loc) (R : moment),
    minMax E (JMoment lmin) (JMoment lmax) (JMoment lv) h
    = Return (JMoment lr) h /\
    h !! lr = Some R /\
    le Dmin R /\ le R Dmax /\
    (le Dmin V -> le V Dmax -> lr = lv).
Proof.
  intros Hv Hmin Hmax Hvalid Hle.
  unfold isValid in Hvalid. unfold le in *.
  destruct (valueOf V) as [v|] eqn:EV; [|discriminate].
  destruct (valueOf Dmin) as [a|] eqn:Ea; [|contradiction].
  destruct (valueOf Dmax) as [b|] eqn:Eb; [|contradiction].
  rewrite (minMax_moments E h lv lmin lmax V Dmin Dmax Hv Hmin Hmax).
  unfold isBefore, isAfter. rewrite EV, Ea, Eb.
  destruct (v <? a) eqn:Hva.
  - apply Z.ltb_lt in Hva.
    assert (Hba : (b <? a) = false) by (apply Z.ltb_ge; exact Hle).
    rewrite Hba. exists lmin, Dmin. rewrite Ea.
    repeat split; try assumption; lia.
  - apply Z.ltb_ge in Hva. destruct (b <? v) eqn:Hbv.
    + apply Z.ltb_lt in Hbv. exists lmax, Dmax. rewrite Eb.
      repeat split; try assumption; lia.
    + apply Z.ltb_ge in Hbv. exists lv, V. rewrite EV.
      repeat split; try assumption; lia.
Qed.

Lemma minMax_clamps_witness :
  [march15; january1; june1] !! 0%nat = Some march15 /\
  [march15; january1; june1] !! 1%nat = Some january1 /\
  [march15; january1; june1] !! 2%nat = Some june1 /\
  isValid march15 = true /\
  le january1 june1 /\
  exists (lr : loc) (R : moment),
    minMax env0 (JMoment 1) (JMoment 2) (JMoment 0) [march15; january1; june1]
    = Return (JMoment lr) [march15; january1; june1] /\
    [march15; january1; june1] !! lr = Some R /\
    le january1 R /\ le R june1 /\
    (le january1 march15 -> le march15 june1 -> lr = 0%nat).
Proof.
  split; [reflexivity|]. split; [reflexivity|]. split; [reflexivity|].
  split; [reflexivity|]. split; [unfold le; simpl; lia|].
  apply (minMax_clamps env0 [march15; january1; june1] 0%nat 1%nat 2%nat
           march15 january1 june1);
    [reflexivity | reflexivity | reflexivity | reflexivity
    | unfold le; simpl; lia].
Defined.

(** A value after the maximum comes back as the maximum. *)
Example minMax_clamps_down :
  minMax env0 (JMoment 1) (JMoment 2) (JMoment 0) [june1noon; january1; june1]
  = Return (JMoment 2) [june1noon; january1; june1].
Proof. vm_compute. reflexivity. Qed.

(** C6, as the code has it.  A zone flag that names a zone of the
    database moves the display zone of the moment to it and keeps the
    instant, in both files, and no context zone overrides it.  Without
    a zone flag, the revision with a context applies the zone of the
    context the same way, and [index.js], which never reads the
    context, leaves the moment as it is. *)
Theorem timezone_flag_then_context (E : env) (zone : string) (off : Z)
    (l : loc) (m : moment) (h : heap) :
  h !! l = Some m ->
  zone <> ""%string ->
  zones E !! zone = Some off ->
  let m' := {| valueOf := valueOf m; utcOffset := off; zoneName := Some zone |} in
  (forall ctx : jsval,
     Part000.timezone E (JString zone) ctx (JMoment l) h
     = Return () (<[l := m']> h)) /\
  (forall tz : jsval, truthy tz = false ->
     Part000.timezone E tz (JString zone) (JMoment l) h
     = Return () (<[l := m']> h)) /\
  Index.timezone E (JString zone) (JMoment l) h = Return () (<[l := m']> h) /\
  (forall tz : jsval, truthy tz = false ->
     Index.timezone E tz (JMoment l) h = Return () h).
Proof.
  intros Hl Hne Hz m'.
  assert (Ht : truthy (JString zone) = true).
  { cbn [truthy]. destruct (String.eqb_spec zone ""); [contradiction|reflexivity]. }
  assert (Hm' : tz (zones E) zone m = m') by (unfold tz; rewrite Hz; reflexivity).
  repeat split.
  - intros ctx. unfold Part000.timezone. rewrite Ht.
    rewrite (call_tz_eq E l m zone h Hl Ht), Hm'. reflexivity.
  - intros tzf Hf. unfold Part000.timezone. rewrite Hf, Ht.
    rewrite (call_tz_eq E l m zone h Hl Ht), Hm'. reflexivity.
  - unfold Index.timezone. rewrite Ht.
    rewrite (call_tz_eq E l m zone h Hl Ht), Hm'. reflexivity.
  - intros tzf Hf. unfold Index.timezone. rewrite Hf. reflexivity.
Qed.

Lemma timezone_flag_then_context_witness :
  [march15] !! 0%nat = Some march15 /\
  "Asia/Tokyo"%string <> ""%string /\
  zones env0 !! "Asia/Tokyo"%string = Some 540 /\
  Part000.timezone env0 JUndefined (JString "Asia/Tokyo") (JMoment 0) [march15]
  = Return ()
      [{| valueOf := Some 1710496800000; utcOffset := 540;
          zoneName := Some "Asia/Tokyo"%string |}].
Proof.
  split; [reflexivity|]. split; [discriminate|]. split; [reflexivity|].
  pose proof (timezone_flag_then_context env0 "Asia/Tokyo" 540 0%nat march15
                [march15]) as H.
  destruct H as (_ & H & _); [reflexivity | discriminate | reflexivity |].
  apply (H JUndefined). reflexivity.
Defined.

(** C6 as stated fails on [index.js]: the context supplies a default
    zone, no zone flag is set, and the coerced moment still shows the
    local zone. *)
Lemma index_ignores_context_timezone :
  truthy (getFlag (h_schema helpersTokyo) "tz") = false /\
  (c ← context (h_prefs helpersTokyo); c !! "timezone"%string)
  = Some (JString "Asia/Tokyo") /\
  zones env0 !! "Asia/Tokyo"%string = Some 540 /\
  Index.coerce env0 (JString "2024-03-15T10:00:00Z") helpersTokyo []
  = Return (Some (JMoment 0)) [march15] /\
  isValid march15 = true /\
  zoneName march15 <> Some "Asia/Tokyo"%string /\
  utcOffset march15 <> 540.
Proof.
  split; [reflexivity|]. split; [reflexivity|]. split; [reflexivity|].
  split; [vm_compute; reflexivity|]. split; [reflexivity|].
  split; discriminate.
Qed.

(** The revision applies the context zone to the same input. *)
Example part000_applies_context_timezone :
  Part000.coerce env0 (JString "2024-03-15T10:00:00Z") helpersTokyo []
  = Return (Some (JMoment 0))
      [{| valueOf := Some 1710496800000; utcOffset := 540;
          zoneName := Some "Asia/Tokyo"%string |}].
Proof. vm_compute. reflexivity. Qed.

(** C8, as the code has it.  In the revision with the guard, each of
    the four comparison rules lets any value through, unchanged and
    without touching the store, when its date is falsy; so does every
    recorded rule whose date resolves to a falsy value, for instance a
    reference to a field that is not there. *)
Theorem absent_date_passes (E : env) (value date precision : jsval) (h : heap) :
  truthy date = false ->
  Part000.isBefore_validate E value date precision h = Return (Pass value) h /\
  Part000.isAfter_validate E value date precision h = Return (Pass value) h /\
  Part000.isSameOrBefore_validate E value date precision h = Return (Pass value) h /\
  Part000.isSameOrAfter_validate E value date precision h = Return (Pass value) h /\
  (forall (state : gmap string jsval) (r : rule),
     Part000.rules_validate E (name r) <> None ->
     ref_resolve state (args_date r) = date ->
     evalRule (Part000.rules_validate E) state r value h = Return (Pass value) h).
Proof.
  intros Hd.
  assert (Hg : forall f p, Part000.guarded f value date p h = Return (Pass value) h).
  { intros f p. unfold Part000.guarded. rewrite Hd. reflexivity. }
  repeat split; try apply Hg.
  intros state r Hr Hres. unfold evalRule.
  unfold Part000.rules_validate in *.
  destruct (name r =? "isBefore")%string; [rewrite Hres; apply Hg|].
  destruct (name r =? "isAfter")%string; [rewrite Hres; apply Hg|].
  destruct (name r =? "isSameOrBefore")%string; [rewrite Hres; apply Hg|].
  destruct (name r =? "isSameOrAfter")%string; [rewrite Hres; apply Hg|].
  contradiction.
Qed.

Lemma absent_date_passes_witness :
  truthy JUndefined = false /\
  evalRule (Part000.rules_validate env0) ∅
    {| name := "isBefore"; args_date := JRef "start"; args_precision := JUndefined |}
    (JMoment 0) [march15]
  = Return (Pass (JMoment 0)) [march15].
Proof.
  split; [reflexivity|].
  apply (absent_date_passes env0 (JMoment 0) JUndefined JUndefined [march15]);
    [reflexivity | discriminate | reflexivity].
Defined.

(** C8 as stated fails on [index.js], which has no guard: a date that
    is not there is read as the current time, and the empty string,
    which the argument assertion of that file admits, as an invalid
    date, with which no comparison holds. *)
Lemma index_absent_date_fails :
  evalRule (Index.rules_validate env0) ∅
    {| name := "isBefore"; args_date := JRef "start"; args_precision := JUndefined |}
    (JMoment 0) [march15]
  = Return (Fail {| code := "moment.isBefore";
                    local := Some (JUndefined, JString "milliseconds") |})
      [march15] /\
  Index.date_assert (JString "") = true /\
  truthy (JString "") = false /\
  Index.isSameOrAfter_validate env0 (JMoment 0) (JString "") (JString "day") [march15]
  = Return (Fail {| code := "moment.isSameOrAfter";
                    local := Some (JMoment 1, JString "day") |})
      [march15; invalid 60].
Proof.
  split; [vm_compute; reflexivity|]. split; [reflexivity|].
  split; [reflexivity|]. vm_compute. reflexivity.
Qed.

(** *** The scenario of the two dates *)

Lemma parse_january1 : parseISO "2024-01-01" = Some (startOfDate 2024 0 1, None).
Proof. vm_compute. reflexivity. Qed.

Lemma parse_june1 : parseISO "2024-06-01" = Some (startOfDate 2024 5 1, None).
Proof. vm_compute. reflexivity. Qed.

Lemma lookup_snoc (h : heap) m : (h ++ [m]) !! length h = Some m.
Proof. apply list_lookup_middle. reflexivity. Qed.

Lemma getFlag_unset (s : schema) flag :
  flags s = ∅ -> getFlag s flag = JUndefined.
Proof. intros H. unfold getFlag. rewrite H, lookup_empty. reflexivity. Qed.

(** The value of the scenario is not after its date at the precision of
    a day, whatever the local zone. *)
Lemma january_not_after_june off zn zn' :
  isAfter
    {| valueOf := Some (zoneStartOfDate off 2024 0 1); utcOffset := off;
       zoneName := zn |}
    {| valueOf := Some (zoneStartOfDate off 2024 5 1); utcOffset := off;
       zoneName := zn' |}
    (Some Day) = false.
Proof.
  unfold isAfter. cbn [valueOf utcOffset].
  rewrite startOf_ms_day. apply Z.ltb_ge.
  unfold zoneStartOfDate.
  replace (startOfDate 2024 0 1) with (MS_PER_DAY * 19723)
    by (vm_compute; reflexivity).
  replace (startOfDate 2024 5 1) with (MS_PER_DAY * 19875)
    by (vm_compute; reflexivity).
  rewrite localDays_start. unfold MS_PER_DAY. lia.
Qed.

(** C9.  For the input "2024-01-01" and the rule
    isAfter("2024-06-01", "day"), in both files and whatever the local
    zone: [coerce] returns a fresh valid moment for the first day of
    2024, [validate] finds nothing wrong with it, and the recorded
    rule fails with an error of kind moment.isAfter whose data are the
    moment parsed from "2024-06-01" and the precision "day". *)
Theorem isAfter_scenario (E : env) (state : gmap string jsval) (h : heap) :
  let off := localOffset E in
  let value := {| valueOf := Some (zoneStartOfDate off 2024 0 1);
                  utcOffset := off; zoneName := None |} in
  let date := {| valueOf := Some (zoneStartOfDate off 2024 5 1);
                 utcOffset := off; zoneName := None |} in
  let r := {| name := "isAfter"; args_date := JString "2024-06-01";
              args_precision := JString "day" |} in
  let s := {| flags := ∅; rules := [r] |} in
  let hp := {| h_schema := s; h_state := state;
               h_prefs := {| context := Some ∅ |} |} in
  let l := length h in
  let failure := Fail {| code := "moment.isAfter";
                         local := Some (JMoment (S l), JString "day") |} in
  Index.isAfter_method (JString "2024-06-01") (JString "day") schema0 = s /\
  Part000.isAfter_method (JString "2024-06-01") (JString "day") schema0 = s /\
  Index.coerce E (JString "2024-01-01") hp h
  = Return (Some (JMoment l)) (h ++ [value]) /\
  Part000.coerce E (JString "2024-01-01") hp h
  = Return (Some (JMoment l)) (h ++ [value]) /\
  Index.validate (JMoment l) (h ++ [value]) = Return VNothing (h ++ [value]) /\
  Part000.validate (JMoment l) (h ++ [value]) = Return VNothing (h ++ [value]) /\
  evalRule (Index.rules_validate E) state r (JMoment l) (h ++ [value])
  = Return failure (h ++ [value; date]) /\
  evalRule (Part000.rules_validate E) state r (JMoment l) (h ++ [value])
  = Return failure (h ++ [value; date]).
Proof.
  intros off value date r s hp l failure.
  assert (Hvalue : fromISO off "2024-01-01" = value).
  { unfold fromISO. rewrite parse_january1. reflexivity. }
  assert (Hdate : fromISO off "2024-06-01" = date).
  { unfold fromISO. rewrite parse_june1. reflexivity. }
  assert (Hl : (h ++ [value]) !! l = Some value) by apply lookup_snoc.
  assert (Hparse : moment_ISO E (JString "2024-01-01") h
                   = Return (JMoment l) (h ++ [value])).
  { unfold moment_ISO. fold off. rewrite Hvalue. reflexivity. }
  assert (Hvalid : call_isValid (JMoment l) (h ++ [value])
                   = Return true (h ++ [value])).
  { rewrite (call_isValid_eq l value _ Hl). reflexivity. }
  assert (Hflag : forall flag, getFlag s flag = JUndefined)
    by (intros flag; apply getFlag_unset; reflexivity).
  assert (Hrule : compareRule E "moment.isAfter" (call_isAfter E)
                    (JMoment l) (JString "2024-06-01") (JString "day")
                    (h ++ [value])
                  = Return failure (h ++ [value; date])).
  { unfold compareRule. cbn [truthy isString isMoment negb String.eqb Ascii.eqb
                               Bool.eqb].
    assert (Hd : moment_ISO E (JString "2024-06-01") (h ++ [value])
                 = Return (JMoment (S l)) (h ++ [value; date])).
    { unfold moment_ISO, alloc. fold off. rewrite Hdate.
      unfold mbind, M_bind, mret, M_ret.
      rewrite length_app, <- app_assoc. cbn [length app].
      replace (length h + 1)%nat with (S l) by (unfold l; lia). reflexivity. }
    rewrite (bind_Return _ _ _ _ _ Hd).
    assert (Hl1 : (h ++ [value; date]) !! l = Some value)
      by (apply list_lookup_middle; reflexivity).
    assert (Hl2 : (h ++ [value; date]) !! S l = Some date).
    { change (h ++ [value; date]) with (h ++ [value] ++ [date]).
      rewrite app_assoc. apply list_lookup_middle.
      rewrite length_app. cbn [length]. unfold l. lia. }
    assert (Hcmp : call_isAfter E (JMoment l) (JMoment (S l)) (JString "day")
                     (h ++ [value; date])
                   = Return false (h ++ [value; date])).
    { unfold call_isAfter.
      rewrite (compare_eq E _ isAfter l value (JMoment (S l)) date
                 (JString "day") _ Hl1 (createLocal_moment E (S l) date _ Hl2)).
      replace (unitOf (JString "day")) with (Some Day) by reflexivity.
      unfold value, date. rewrite january_not_after_june. reflexivity. }
    rewrite (bind_Return _ _ _ _ _ Hcmp). reflexivity. }
  split; [reflexivity|]. split; [reflexivity|].
  split.
  { unfold Index.coerce. cbn [truthy negb String.eqb Ascii.eqb Bool.eqb].
    rewrite (bind_Return _ _ _ _ _ Hparse), (bind_Return _ _ _ _ _ Hvalid).
    cbn [negb h_schema hp]. rewrite !Hflag.
    unfold Index.timezone, period, minMax. cbn [truthy]. reflexivity. }
  split.
  { unfold Part000.coerce. cbn [truthy negb isMoment String.eqb Ascii.eqb Bool.eqb].
    rewrite (bind_Return _ _ _ _ _ Hparse), (bind_Return _ _ _ _ _ Hvalid).
    cbn [negb h_schema h_prefs h_state hp context]. rewrite !Hflag.
    unfold Part000.contextTimezone. cbn [truthy context h_prefs hp].
    rewrite lookup_empty.
    unfold Part000.timezone, period, minMax.
    cbn [truthy isRef default option_rect from_option]. reflexivity. }
  split.
  { unfold Index.validate, Stages.validate. cbn [truthy negb].
    rewrite (bind_Return _ _ _ _ _ Hvalid). reflexivity. }
  split.
  { unfold Part000.validate, Stages.validate. cbn [truthy negb].
    rewrite (bind_Return _ _ _ _ _ Hvalid). reflexivity. }
  split.
  { unfold evalRule. replace (Index.rules_validate E (name r))
      with (Some (Index.isAfter_validate E)) by reflexivity.
    cbn [args_date args_precision r ref_resolve]. exact Hrule. }
  { unfold evalRule. replace (Part000.rules_validate E (name r))
      with (Some (Part000.isAfter_validate E)) by reflexivity.
    cbn [args_date args_precision r ref_resolve].
    unfold Part000.isAfter_validate, Part000.guarded.
    cbn [truthy negb String.eqb Ascii.eqb Bool.eqb]. exact Hrule. }
Qed.

(** *** Strings that are not dates *)

(** A non-empty string without a digit, which no ISO-8601 format
    admits: [coerce] allocates the
    invalid moment, returns nothing and drops it; [validate], which the
    host then calls on the string itself, calls a method that strings
    do not have. *)
Lemma unparseable_string_dropped (E : env) (s : string) (hp : helpers)
    (h h' : heap) :
  s <> ""%string ->
  Forall (fun c => digit c = None) (list_ascii_of_string s) ->
  Index.coerce E (JString s) hp h = Return None (h ++ [invalid (localOffset E)]) /\
  Part000.coerce E (JString s) hp h = Return None (h ++ [invalid (localOffset E)]) /\
  Stages.validate (JString s) h'
  = Throw (TypeError "value.isValid is not a function").
Proof.
  intros Hne Hparse. apply parseISO_no_digit in Hparse.
  assert (Ht : truthy (JString s) = true).
  { cbn [truthy]. destruct (String.eqb_spec s ""); [contradiction|reflexivity]. }
  assert (Hm : moment_ISO E (JString s) h
               = Return (JMoment (length h)) (h ++ [invalid (localOffset E)])).
  { unfold moment_ISO, fromISO. rewrite Hparse. reflexivity. }
  assert (Hv : call_isValid (JMoment (length h)) (h ++ [invalid (localOffset E)])
               = Return false (h ++ [invalid (localOffset E)])).
  { rewrite (call_isValid_eq _ _ _ (lookup_snoc h _)). reflexivity. }
  repeat split.
  - unfold Index.coerce. rewrite Ht. cbn [negb].
    rewrite (bind_Return _ _ _ _ _ Hm), (bind_Return _ _ _ _ _ Hv). reflexivity.
  - unfold Part000.coerce. rewrite Ht. cbn [negb isMoment].
    rewrite (bind_Return _ _ _ _ _ Hm), (bind_Return _ _ _ _ _ Hv). reflexivity.
  - unfold Stages.validate. rewrite Ht. cbn [negb].
    rewrite (bind_Throw _ _ h' _ (call_isValid_not_moment (JString s) h' eq_refl)).
    reflexivity.
Qed.

(** An invalid moment that does reach [validate] comes back with one
    error of kind date.iso; a valid one raises nothing. *)
Lemma validate_moment (l : loc) (m : moment) (h : heap) :
  h !! l = Some m ->
  Stages.validate (JMoment l) h
  = Return (if isValid m then VNothing
            else VErrors (JMoment l) {| code := "date.iso"; local := None |}) h.
Proof.
  intros Hl. unfold Stages.validate. cbn [truthy negb].
  rewrite (bind_Return _ _ h _ h (call_isValid_eq l m h Hl)).
  destruct (isValid m); reflexivity.
Qed.

(** C1, at the input "not-a-date".  The string does not parse; in both
    files [coerce] returns nothing, not the invalid moment it built,
    and [validate] on the string that the host is left with throws a
    type error.  The error of kind date.iso is what [validate] returns
    on the invalid moment, which never reaches it. *)
Theorem not_a_date_is_dropped_by_coerce :
  parseISO "not-a-date" = None /\
  Index.coerce env0 (JString "not-a-date") helpers0 [] = Return None [invalid 60] /\
  Part000.coerce env0 (JString "not-a-date") helpers0 [] = Return None [invalid 60] /\
  Index.validate (JString "not-a-date") [invalid 60]
  = Throw (TypeError "value.isValid is not a function") /\
  Part000.validate (JString "not-a-date") [invalid 60]
  = Throw (TypeError "value.isValid is not a function") /\
  Index.validate (JMoment 0) [invalid 60]
  = Return (VErrors (JMoment 0) {| code := "date.iso"; local := None |})
      [invalid 60].
Proof. repeat split; vm_compute; reflexivity. Qed.

(** *** Same or before, by the day *)

(** At the precision of a day, a moment is the same as or before
    another exactly when its calendar day, in its own display zone, is
    not after the day the other falls on in that zone. *)
Lemma isSameOrBefore_day (Y X : moment) (y x : Z) :
  valueOf Y = Some y -> valueOf X = Some x ->
  isSameOrBefore Y X (Some Day)
  = (localDays (utcOffset Y) y <=? localDays (utcOffset Y) x).
Proof.
  intros HY HX. unfold isSameOrBefore, isSame, isBefore. rewrite HY, HX.
  rewrite startOf_ms_day, endOf_ms_day. unfold localDays.
  set (c := utcOffset Y * MS_PER_MINUTE).
  pose proof (Z.div_mod (x + c) MS_PER_DAY ltac:(discriminate)) as Hx.
  pose proof (Z.mod_pos_bound (x + c) MS_PER_DAY ltac:(reflexivity)) as Hxb.
  set (zx := (x + c) / MS_PER_DAY) in *.
  set (zy := (y + c) / MS_PER_DAY) in *.
  unfold MS_PER_DAY in *.
  destruct (Z.leb_spec zy zx);
    destruct (Z.leb_spec (86400000 * zy - c) x);
    destruct (Z.leb_spec x (86400000 * (zy + 1) - c - 1));
    destruct (Z.ltb_spec (86400000 * (zy + 1) - c - 1) x);
    cbn [andb orb]; try reflexivity; exfalso; lia.
Qed.

(** In the revision, the rule recorded by isSameOrBefore(X, "day"), for
    a date [X] that is a moment or a reference to one, lets a valid
    moment through when it falls on the calendar day of [X], and fails
    with an error of its own kind when it falls on a later day; days
    are those of the display zone of the value. *)
Lemma part000_isSameOrBefore_day (E : env) (state : gmap string jsval)
    (h : heap) (d : jsval) (ly lx : loc) (Y X : moment) (y x : Z) :
  ref_resolve state d = JMoment lx ->
  h !! ly = Some Y -> h !! lx = Some X ->
  valueOf Y = Some y -> valueOf X = Some x ->
  let r := {| name := "isSameOrBefore"; args_date := d;
              args_precision := JString "day" |} in
  Part000.isSameOrBefore_method d (JString "day") schema0
  = {| flags := ∅; rules := [r] |} /\
  (localDays (utcOffset Y) y = localDays (utcOffset Y) x ->
   evalRule (Part000.rules_validate E) state r (JMoment ly) h
   = Return (Pass (JMoment ly)) h) /\
  (localDays (utcOffset Y) x < localDays (utcOffset Y) y ->
   evalRule (Part000.rules_validate E) state r (JMoment ly) h
   = Return (Fail {| code := "moment.isSameOrBefore";
                     local := Some (JMoment lx, JString "day") |}) h).
Proof.
  intros Hd Hy Hx HY HX r.
  assert (Hrule : evalRule (Part000.rules_validate E) state r (JMoment ly) h
                  = (if isSameOrBefore Y X (Some Day)
                     then Return (Pass (JMoment ly)) h
                     else Return (Fail {| code := "moment.isSameOrBefore";
                                          local := Some (JMoment lx, JString "day") |}) h)).
  { unfold evalRule.
    replace (Part000.rules_validate E (name r))
      with (Some (Part000.isSameOrBefore_validate E)) by reflexivity.
    cbn [args_date args_precision r]. rewrite Hd.
    unfold Part000.isSameOrBefore_validate, Part000.guarded, compareRule.
    cbn [truthy negb isString isMoment String.eqb Ascii.eqb Bool.eqb].
    rewrite (bind_Return _ _ h (JMoment lx) h) by reflexivity.
    unfold call_isSameOrBefore.
    rewrite (bind_Return _ _ h _ h
               (compare_eq E _ isSameOrBefore ly Y (JMoment lx) X
                  (JString "day") h Hy (createLocal_moment E lx X h Hx))).
    replace (unitOf (JString "day")) with (Some Day) by reflexivity.
    destruct (isSameOrBefore Y X (Some Day)); reflexivity. }
  split; [reflexivity|].
  rewrite Hrule, (isSameOrBefore_day Y X y x HY HX).
  split; intros Hday.
  - rewrite Hday, Z.leb_refl. reflexivity.
  - apply Z.leb_gt in Hday. rewrite Hday. reflexivity.
Qed.

(** The same for a date given as a string that parses: the rule parses
    it into a new moment [X] of the local zone and compares with that. *)
Lemma part000_isSameOrBefore_day_string (E : env) (state : gmap string jsval)
    (h : heap) (sx : string) (ly : loc) (Y : moment) (y x : Z) :
  let X := fromISO (localOffset E) sx in
  let lx := length h in
  let r := {| name := "isSameOrBefore"; args_date := JString sx;
              args_precision := JString "day" |} in
  sx <> ""%string ->
  h !! ly = Some Y ->
  valueOf Y = Some y -> valueOf X = Some x ->
  (localDays (utcOffset Y) y = localDays (utcOffset Y) x ->
   evalRule (Part000.rules_validate E) state r (JMoment ly) h
   = Return (Pass (JMoment ly)) (h ++ [X])) /\
  (localDays (utcOffset Y) x < localDays (utcOffset Y) y ->
   evalRule (Part000.rules_validate E) state r (JMoment ly) h
   = Return (Fail {| code := "moment.isSameOrBefore";
                     local := Some (JMoment lx, JString "day") |}) (h ++ [X])).
Proof.
  intros X lx r Hne Hy HY HX.
  assert (Ht : truthy (JString sx) = true).
  { cbn [truthy]. destruct (String.eqb_spec sx ""); [contradiction|reflexivity]. }
  assert (Hy' : (h ++ [X]) !! ly = Some Y) by (apply lookup_app_l_Some, Hy).
  assert (Hx' : (h ++ [X]) !! lx = Some X) by apply lookup_snoc.
  assert (Hrule : evalRule (Part000.rules_validate E) state r (JMoment ly) h
                  = (if isSameOrBefore Y X (Some Day)
                     then Return (Pass (JMoment ly)) (h ++ [X])
                     else Return (Fail {| code := "moment.isSameOrBefore";
                                          local := Some (JMoment lx, JString "day") |})
                            (h ++ [X]))).
  { unfold evalRule.
    replace (Part000.rules_validate E (name r))
      with (Some (Part000.isSameOrBefore_validate E)) by reflexivity.
    cbn [args_date args_precision r ref_resolve].
    unfold Part000.isSameOrBefore_validate, Part000.guarded, compareRule.
    rewrite Ht.
    cbn [truthy negb isString isMoment String.eqb Ascii.eqb Bool.eqb].
    rewrite (bind_Return _ _ h (JMoment lx) (h ++ [X])) by reflexivity.
    unfold call_isSameOrBefore.
    rewrite (bind_Return _ _ _ _ _
               (compare_eq E _ isSameOrBefore ly Y (JMoment lx) X
                  (JString "day") _ Hy' (createLocal_moment E lx X _ Hx'))).
    replace (unitOf (JString "day")) with (Some Day) by reflexivity.
    destruct (isSameOrBefore Y X (Some Day)); reflexivity. }
  rewrite Hrule, (isSameOrBefore_day Y X y x HY HX).
  split; intros Hday.
  - rewrite Hday, Z.leb_refl. reflexivity.
  - apply Z.leb_gt in Hday. rewrite Hday. reflexivity.
Qed.

(** C2, at a value on the day of the date.  The method isSameOrBefore of
    [index.js] records its rule under the name isBefore, so the host
    evaluates it with the validator of isBefore: the noon of
    2024-06-01 fails isSameOrBefore("2024-06-01", "day") with an error
    of kind moment.isBefore.  The revision records the rule under its
    own name and lets the same value through. *)
Theorem index_isSameOrBefore_same_day_fails :
  let r := {| name := "isBefore"; args_date := JString "2024-06-01";
              args_precision := JString "day" |} in
  let r' := {| name := "isSameOrBefore"; args_date := JString "2024-06-01";
               args_precision := JString "day" |} in
  Index.isSameOrBefore_method (JString "2024-06-01") (JString "day") schema0
  = {| flags := ∅; rules := [r] |} /\
  localDays 60 1717239600000 = localDays 60 1717196400000 /\
  evalRule (Index.rules_validate env0) ∅ r (JMoment 0) [june1noon]
  = Return (Fail {| code := "moment.isBefore";
                    local := Some (JMoment 1, JString "day") |})
      [june1noon; june1] /\
  Part000.isSameOrBefore_method (JString "2024-06-01") (JString "day") schema0
  = {| flags := ∅; rules := [r'] |} /\
  evalRule (Part000.rules_validate env0) ∅ r' (JMoment 0) [june1noon]
  = Return (Pass (JMoment 0)) [june1noon; june1].
Proof. repeat split; vm_compute; reflexivity. Qed.

(** *** Moments handed in by the caller *)

Import Outcomes.





(** [index.js] on the same input copies: the caller's object stays as
    it was and the result is a new object. *)
Example index_coerce_copies :
  Index.coerce env0 (JMoment 0)
    {| h_schema := Index.startOf_method (JString "day") schema0;
       h_state := ∅; h_prefs := {| context := Some ∅ |} |}
    [march15]
  = Return (Some (JMoment 1))
      [march15;
       {| valueOf := Some 1710457200000; utcOffset := 60; zoneName := None |}].
Proof. vm_compute. reflexivity. Qed.

(** *** Scenarios *)

(** "2024-03-15T10:00:00Z" with startOf("day") and the zone "UTC" is
    coerced to 2024-03-15T00:00:00 UTC, in both files. *)
Example start_of_day_in_utc :
  let hp := {| h_schema := setFlag "tz" (JString "UTC")
                             (setFlag "startOf" (JString "day") schema0);
               h_state := ∅; h_prefs := {| context := Some ∅ |} |} in
  let result := Return (Some (JMoment 0))
                  [{| valueOf := Some (startOfDate 2024 2 15); utcOffset := 0;
                      zoneName := Some "UTC"%string |}] in
  Index.coerce env0 (JString "2024-03-15T10:00:00Z") hp [] = result /\
  Part000.coerce env0 (JString "2024-03-15T10:00:00Z") hp [] = result.
Proof. split; vm_compute; reflexivity. Qed.

(** "2024-07-01" between the bounds 2024-01-01 and 2024-06-01, given as
    moments, is coerced to the maximum: the result is the object of the
    bound itself. *)
Example clamped_down_to_maximum :
  let hp := {| h_schema := Part000.minDate_method (JMoment 0)
                             (Part000.maxDate_method (JMoment 1) schema0);
               h_state := ∅; h_prefs := {| context := Some ∅ |} |} in
  Part000.coerce env0 (JString "2024-07-01") hp [january1; june1]
  = Return (Some (JMoment 1))
      [january1; june1;
       {| valueOf := Some 1719788400000; utcOffset := 60; zoneName := None |}].
Proof. vm_compute. reflexivity. Qed.

(** ** Calendar units: which days a year, quarter, month or week holds *)

Module PeriodFacts.
Import Calendar Moment Periods CalendarFacts MomentFacts.

Lemma doe_in_month_all doe : 0 <= doe < 146097 -> doe_in_month doe = true.
Proof.
  intros H.
  apply (all_from_spec (Z.to_nat 146097) 0 doe_in_month);
    [vm_compute; reflexivity | lia].
Qed.

Ltac month_cases m H :=
  assert (m = 1 \/ m = 2 \/ m = 3 \/ m = 4 \/ m = 5 \/ m = 6 \/ m = 7 \/ m = 8
          \/ m = 9 \/ m = 10 \/ m = 11 \/ m = 12) as H by lia;
  destruct H as [H|[H|[H|[H|[H|[H|[H|[H|[H|[H|[H|H]]]]]]]]]]]; subst m.

Ltac split_tests :=
  repeat match goal with
  | |- context [?a <=? ?b] => destruct (Z.leb_spec a b)
  | |- context [?a =? ?b] => destruct (Z.eqb_spec a b)
  | H : context [?a <=? ?b] |- _ => destruct (Z.leb_spec a b)
  | H : context [?a =? ?b] |- _ => destruct (Z.eqb_spec a b)
  end.

Ltac calendar_lia :=
  unfold dayOfDate, next_first_doe, days_from_civil, doe_of in *;
  split_tests; Z.to_euclidean_division_equations; lia.

(** The first day of the month with index [k], counting months from
    January of year 0. *)
Lemma month_step y m :
  1 <= m <= 12 ->
  days_from_civil y m 1 + 28 <= dayOfDate y m 1 <= days_from_civil y m 1 + 31.
Proof. intros H. month_cases m Hm; calendar_lia. Qed.

Lemma dayOfDate_index k d :
  dayOfDate (k / 12) (k mod 12 + 1) d = dayOfDate ((k + 1) / 12) ((k + 1) mod 12) d.
Proof.
  unfold dayOfDate. f_equal; Z.to_euclidean_division_equations; lia.
Qed.

Lemma first_of_index_mono k1 k2 :
  k1 <= k2 ->
  dayOfDate (k1 / 12) (k1 mod 12) 1 <= dayOfDate (k2 / 12) (k2 mod 12) 1.
Proof.
  intros H.
  assert (Hn : forall n : nat,
            dayOfDate (k1 / 12) (k1 mod 12) 1
            <= dayOfDate ((k1 + Z.of_nat n) / 12) ((k1 + Z.of_nat n) mod 12) 1).
  { induction n as [|n IH].
    - rewrite Z.add_0_r. lia.
    - etransitivity; [exact IH|]. set (k := k1 + Z.of_nat n).
      replace (k1 + Z.of_nat (S n)) with (k + 1) by lia.
      rewrite <- dayOfDate_index.
      pose proof (Z.mod_pos_bound k 12 ltac:(lia)) as Hb.
      pose proof (month_step (k / 12) (k mod 12 + 1) ltac:(lia)) as Hs.
      assert (Hd : dayOfDate (k / 12) (k mod 12) 1
                   = days_from_civil (k / 12) (k mod 12 + 1) 1).
      { unfold dayOfDate.
        rewrite (Z.div_small (k mod 12)), Z.mod_mod, Z.add_0_r by lia.
        reflexivity. }
      lia. }
  specialize (Hn (Z.to_nat (k2 - k1))).
  replace (k1 + Z.of_nat (Z.to_nat (k2 - k1))) with k2 in Hn by lia.
  exact Hn.
Qed.

Lemma first_mono y1 m1 y2 m2 :
  1 <= m1 <= 12 -> 1 <= m2 <= 12 -> 12 * y1 + m1 <= 12 * y2 + m2 ->
  days_from_civil y1 m1 1 <= days_from_civil y2 m2 1.
Proof.
  intros H1 H2 H.
  pose proof (first_of_index_mono (12 * y1 + (m1 - 1)) (12 * y2 + (m2 - 1)) ltac:(lia)) as Hm.
  assert (Hi : forall y m, 1 <= m <= 12 ->
            dayOfDate ((12 * y + (m - 1)) / 12) ((12 * y + (m - 1)) mod 12) 1
            = days_from_civil y m 1).
  { intros y m Hmm. unfold dayOfDate.
    assert (Hq : (12 * y + (m - 1)) / 12 = y) by (Z.to_euclidean_division_equations; lia).
    assert (Hr : (12 * y + (m - 1)) mod 12 = m - 1) by (Z.to_euclidean_division_equations; lia).
    rewrite Hq, Hr, Z.div_small, Z.mod_small by lia. f_equal; lia. }
  rewrite !Hi in Hm by assumption. exact Hm.
Qed.

(** A day lies before the first day of the month after its own. *)
Lemma day_before_next_month z :
  match civil_from_days z with
  | (y, m, d) => z < dayOfDate y m 1
  end.
Proof.
  unfold civil_from_days.
  set (z' := z + 719468). set (era := z' / 146097).
  set (doe := z' - era * 146097).
  assert (Hdoe : 0 <= doe < 146097).
  { subst doe era. pose proof (Z.div_mod z' 146097 ltac:(lia)).
    pose proof (Z.mod_pos_bound z' 146097 ltac:(lia)). lia. }
  pose proof (doe_roundtrip_all doe Hdoe) as Hrt. unfold doe_roundtrip in Hrt.
  pose proof (doe_in_month_all doe Hdoe) as Hin. unfold doe_in_month in Hin.
  destruct (ymd_of_doe doe) as [[yoe m] d].
  repeat (apply andb_prop in Hrt; destruct Hrt as [Hrt ?]).
  apply Z.ltb_lt in Hin.
  assert (Hz : z = era * 146097 + doe - 719468) by (subst doe z'; lia).
  assert (Hm : 1 <= m <= 12) by lia.
  assert (Hy : 0 <= yoe < 400) by lia.
  clearbody era doe. clear z' Hrt H H0 H1 H2 H3.
  cbv beta iota zeta. month_cases m Hc; calendar_lia.
Qed.

(** Days between the first of a month and the first of the next belong
    to that month. *)
Lemma same_month y m z :
  1 <= m <= 12 ->
  days_from_civil y m 1 <= z < dayOfDate y m 1 ->
  exists d, civil_from_days z = (y, m, d) /\ 1 <= d.
Proof.
  intros Hm Hz.
  pose proof (days_from_civil_from_days z) as Hrt.
  pose proof (day_before_next_month z) as Hnext.
  destruct (civil_from_days z) as [[y2 m2] d2].
  destruct Hrt as (Hrt & Hm2 & Hd2).
  assert (Hfirst : days_from_civil y2 m2 1 <= z).
  { rewrite <- Hrt. replace d2 with (1 + (d2 - 1)) by lia.
    rewrite days_from_civil_shift. lia. }
  assert (Hnorm : forall y m, 1 <= m <= 12 ->
            dayOfDate y m 1 = days_from_civil (y + m / 12) (m mod 12 + 1) 1
            /\ 1 <= m mod 12 + 1 <= 12
            /\ 12 * (y + m / 12) + (m mod 12 + 1) = 12 * y + m + 1).
  { intros y0 m0 H0. split; [reflexivity|].
    Z.to_euclidean_division_equations; lia. }
  destruct (Hnorm y m Hm) as (_ & Hn1 & Hn2).
  destruct (Hnorm y2 m2 Hm2) as (_ & Hn3 & Hn4).
  destruct (Z.lt_trichotomy (12 * y2 + m2) (12 * y + m)) as [Hlt|[Heq|Hgt]].
  - pose proof (first_mono (y2 + m2 / 12) (m2 mod 12 + 1) y m Hn3 Hm ltac:(lia)).
    unfold dayOfDate in *. lia.
  - assert (y2 = y /\ m2 = m) as [-> ->] by lia. eauto.
  - pose proof (first_mono (y + m / 12) (m mod 12 + 1) y2 m2 Hn1 Hm2 ltac:(lia)).
    unfold dayOfDate in *. lia.
Qed.

Lemma dayOfDate_norm y m d :
  dayOfDate y m d = dayOfDate ((12 * y + m) / 12) ((12 * y + m) mod 12) d.
Proof. unfold dayOfDate. f_equal; Z.to_euclidean_division_equations; lia. Qed.

(** Where a day falls among the months, by index. *)
Lemma month_window z a b :
  match civil_from_days z with
  | (y, m, d) =>
      (a <= 12 * y + (m - 1) < b ->
       dayOfDate (a / 12) (a mod 12) 1 <= z < dayOfDate (b / 12) (b mod 12) 1) /\
      (dayOfDate (a / 12) (a mod 12) 1 <= z < dayOfDate (b / 12) (b mod 12) 1 ->
       a <= 12 * y + (m - 1) < b)
  end.
Proof.
  pose proof (days_from_civil_from_days z) as Hrt.
  pose proof (day_before_next_month z) as Hnext.
  destruct (civil_from_days z) as [[y m] d].
  destruct Hrt as (Hrt & Hm & Hd).
  set (k := 12 * y + (m - 1)).
  assert (Hfirst : dayOfDate (k / 12) (k mod 12) 1 <= z).
  { unfold k. rewrite <- dayOfDate_norm. unfold dayOfDate.
    destruct (month_index m Hm) as [-> ->]. rewrite Z.add_0_r.
    rewrite <- Hrt. replace d with (1 + (d - 1)) by lia.
    rewrite days_from_civil_shift. lia. }
  assert (Hlast : z < dayOfDate ((k + 1) / 12) ((k + 1) mod 12) 1).
  { replace (k + 1) with (12 * y + m) by (unfold k; lia).
    rewrite <- dayOfDate_norm. exact Hnext. }
  split.
  - intros [Ha Hb].
    pose proof (first_of_index_mono a k Ha).
    pose proof (first_of_index_mono (k + 1) b ltac:(lia)). lia.
  - intros [Ha Hb]. split.
    + destruct (Z.le_gt_cases a k) as [|Hlt]; [assumption|].
      pose proof (first_of_index_mono (k + 1) a ltac:(lia)). lia.
    + destruct (Z.lt_ge_cases k b) as [|Hge]; [assumption|].
      pose proof (first_of_index_mono b k ltac:(lia)). lia.
Qed.

Lemma dayOfDate_civil z y m d k :
  civil_from_days z = (y, m, d) -> dayOfDate y (m - 1) (d + k) = z + k.
Proof.
  intros Hc. pose proof (days_from_civil_from_days z) as Hz.
  rewrite Hc in Hz. destruct Hz as (Hz & Hm & _).
  destruct (month_index m Hm) as [Hq Hr].
  unfold dayOfDate. rewrite Hq, Hr, Z.add_0_r, days_from_civil_shift, Hz.
  reflexivity.
Qed.

Lemma unit_months u z :
  u = Year \/ u = Quarter \/ u = Month ->
  match civil_from_days z with
  | (y, m, d) =>
      let '(a, b) := monthsOf u (12 * y + (m - 1)) in
      unitStartDay u z = dayOfDate (a / 12) (a mod 12) 1 /\
      unitNextDay u z = dayOfDate (b / 12) (b mod 12) 1
  end.
Proof.
  intros Hu. pose proof (days_from_civil_from_days z) as Hrt.
  unfold unitStartDay, unitNextDay.
  destruct (civil_from_days z) as [[y m] d]. destruct Hrt as (_ & Hm & _).
  destruct Hu as [->|[->| ->]]; unfold monthsOf;
    split; unfold dayOfDate; f_equal;
    Z.to_euclidean_division_equations; lia.
Qed.

Lemma week_days z :
  unitStartDay Week z = z - weekday_of_days z /\
  unitNextDay Week z = z - weekday_of_days z + 7.
Proof.
  unfold unitStartDay, unitNextDay.
  destruct (civil_from_days z) as [[y m] d] eqn:Hc.
  replace (d - weekday_of_days z) with (d + - weekday_of_days z) by lia.
  replace (d + - weekday_of_days z + 7) with (d + (- weekday_of_days z + 7)) by lia.
  rewrite !(dayOfDate_civil z y m d _ Hc). lia.
Qed.

Lemma isoWeek_days z :
  unitStartDay IsoWeek z = z - (isoWeekday (weekday_of_days z) - 1) /\
  unitNextDay IsoWeek z = z - (isoWeekday (weekday_of_days z) - 1) + 7.
Proof.
  unfold unitStartDay, unitNextDay.
  destruct (civil_from_days z) as [[y m] d] eqn:Hc.
  set (k := isoWeekday (weekday_of_days z) - 1).
  replace (d - k) with (d + - k) by lia.
  replace (d + - k + 7) with (d + (- k + 7)) by lia.
  rewrite !(dayOfDate_civil z y m d _ Hc). lia.
Qed.

Lemma day_days u z :
  u <> Year -> u <> Quarter -> u <> Month -> u <> Week -> u <> IsoWeek ->
  unitStartDay u z = z /\ unitNextDay u z = z + 1.
Proof.
  intros H1 H2 H3 H4 H5. unfold unitStartDay, unitNextDay.
  destruct (civil_from_days z) as [[y m] d] eqn:Hc.
  pose proof (dayOfDate_civil z y m d 0 Hc) as H0. rewrite Z.add_0_r in H0.
  pose proof (dayOfDate_civil z y m d 1 Hc) as H1'.
  destruct u; try congruence; lia.
Qed.

Lemma months_units u :
  u = Year \/ u = Quarter \/ u = Month \/
  (u <> Year /\ u <> Quarter /\ u <> Month).
Proof. destruct u; auto; right; right; right; repeat split; discriminate. Qed.

(** A day lies in its unit. *)
Lemma unit_bounds u z : unitStartDay u z <= z < unitNextDay u z.
Proof.
  destruct (months_units u) as [Hu|[Hu|[Hu|(H1 & H2 & H3)]]].
  1-3: pose proof (unit_months u z ltac:(tauto)) as Hm;
       pose proof (days_from_civil_from_days z) as Hrt;
       destruct (civil_from_days z) as [[y m] d] eqn:Hc;
       destruct (monthsOf u (12 * y + (m - 1))) as [a b] eqn:Hab;
       destruct Hm as [-> ->];
       pose proof (month_window z a b) as Hw; rewrite Hc in Hw;
       apply Hw; subst u; unfold monthsOf in Hab; injection Hab as <- <-;
       Z.to_euclidean_division_equations; lia.
  assert (Hwd : 0 <= weekday_of_days z < 7)
    by (unfold weekday_of_days; apply Z.mod_pos_bound; lia).
  destruct u; try congruence.
  - destruct (week_days z) as [-> ->]. lia.
  - destruct (isoWeek_days z) as [-> ->]. unfold isoWeekday.
    destruct (Z.eqb_spec (weekday_of_days z) 0); lia.
  - destruct (day_days Day z) as [-> ->]; try discriminate; lia.
  - destruct (day_days Date z) as [-> ->]; try discriminate; lia.
  - destruct (day_days Hour z) as [-> ->]; try discriminate; lia.
  - destruct (day_days Minute z) as [-> ->]; try discriminate; lia.
  - destruct (day_days Second z) as [-> ->]; try discriminate; lia.
  - destruct (day_days Millisecond z) as [-> ->]; try discriminate; lia.
Qed.

(** Every day of a unit has the bounds of the unit. *)
Lemma unit_const u z z' :
  unitStartDay u z <= z' < unitNextDay u z ->
  unitStartDay u z' = unitStartDay u z /\ unitNextDay u z' = unitNextDay u z.
Proof.
  destruct (months_units u) as [Hu|[Hu|[Hu|(H1 & H2 & H3)]]].
  1-3: pose proof (unit_months u z ltac:(tauto)) as Hm;
       pose proof (unit_months u z' ltac:(tauto)) as Hm';
       pose proof (days_from_civil_from_days z) as Hrt;
       pose proof (days_from_civil_from_days z') as Hrt';
       destruct (civil_from_days z) as [[y m] d] eqn:Hc;
       destruct (civil_from_days z') as [[y' m'] d'] eqn:Hc';
       destruct (monthsOf u (12 * y + (m - 1))) as [a b] eqn:Hab;
       destruct (monthsOf u (12 * y' + (m' - 1))) as [a' b'] eqn:Hab';
       destruct Hm as [Hs He]; destruct Hm' as [Hs' He'];
       rewrite Hs, He, Hs', He'; intros Hz;
       pose proof (month_window z' a b) as Hw; rewrite Hc' in Hw;
       apply Hw in Hz;
       assert (a' = a /\ b' = b) as [-> ->]
         by (subst u; unfold monthsOf in Hab, Hab';
             injection Hab as <- <-; injection Hab' as <- <-;
             Z.to_euclidean_division_equations; lia);
       split; reflexivity.
  destruct u; try congruence.
  - destruct (week_days z) as [-> ->]. destruct (week_days z') as [-> ->].
    unfold weekday_of_days. intros Hz.
    split; Z.to_euclidean_division_equations; lia.
  - destruct (isoWeek_days z) as [-> ->]. destruct (isoWeek_days z') as [-> ->].
    unfold isoWeekday, weekday_of_days. intros Hz.
    destruct (Z.eqb_spec ((z + 4) mod 7) 0);
      destruct (Z.eqb_spec ((z' + 4) mod 7) 0);
      split; Z.to_euclidean_division_equations; lia.
  - destruct (day_days Day z) as [-> ->]; try discriminate.
    destruct (day_days Day z') as [-> ->]; try discriminate. lia.
  - destruct (day_days Date z) as [-> ->]; try discriminate.
    destruct (day_days Date z') as [-> ->]; try discriminate. lia.
  - destruct (day_days Hour z) as [-> ->]; try discriminate.
    destruct (day_days Hour z') as [-> ->]; try discriminate. lia.
  - destruct (day_days Minute z) as [-> ->]; try discriminate.
    destruct (day_days Minute z') as [-> ->]; try discriminate. lia.
  - destruct (day_days Second z) as [-> ->]; try discriminate.
    destruct (day_days Second z') as [-> ->]; try discriminate. lia.
  - destruct (day_days Millisecond z) as [-> ->]; try discriminate.
    destruct (day_days Millisecond z') as [-> ->]; try discriminate. lia.
Qed.

(** Truncation to a unit of days, by day number. *)
Lemma startOf_ms_days u off t :
  dateUnit u = true ->
  startOf_ms u off t
  = MS_PER_DAY * unitStartDay u (localDays off t) - off * MS_PER_MINUTE.
Proof.
  intros Hu. unfold startOf_ms, fields, unitStartDay, zoneStartOfDate, startOfDate.
  destruct (civil_from_days (localDays off t)) as [[y m] d].
  destruct u; try discriminate Hu; reflexivity.
Qed.

Lemma endOf_ms_days u off t :
  dateUnit u = true ->
  endOf_ms u off t
  = MS_PER_DAY * unitNextDay u (localDays off t) - off * MS_PER_MINUTE - 1.
Proof.
  intros Hu. unfold endOf_ms, fields, unitNextDay, zoneStartOfDate, startOfDate.
  destruct (civil_from_days (localDays off t)) as [[y m] d].
  destruct u; try discriminate Hu; reflexivity.
Qed.

Lemma localDays_bounds off t :
  MS_PER_DAY * localDays off t <= t + off * MS_PER_MINUTE
  < MS_PER_DAY * (localDays off t + 1).
Proof.
  unfold localDays, MS_PER_DAY. Z.to_euclidean_division_equations. lia.
Qed.

Lemma localDays_end off k :
  localDays off (MS_PER_DAY * k - off * MS_PER_MINUTE - 1) = k - 1.
Proof.
  unfold localDays, MS_PER_DAY. Z.to_euclidean_division_equations. lia.
Qed.

Ltac clock_unit :=
  unfold startOf_ms, endOf_ms;
  repeat match goal with
  | |- context [fields ?o ?x] => destruct (fields o x) as [[[? ?] ?] ?]
  end;
  unfold MS_PER_HOUR, MS_PER_MINUTE, MS_PER_SECOND;
  Z.to_euclidean_division_equations; lia.

(** A moment lies between the start and the end of its unit. *)
Lemma startOf_le_endOf u off t :
  startOf_ms u off t <= t <= endOf_ms u off t.
Proof.
  destruct (dateUnit u) eqn:Hu.
  - rewrite (startOf_ms_days u off t Hu), (endOf_ms_days u off t Hu).
    pose proof (unit_bounds u (localDays off t)).
    pose proof (localDays_bounds off t). unfold MS_PER_DAY in *. lia.
  - destruct u; try discriminate Hu; clock_unit.
Qed.

(** The start and the end of a unit are in the unit: truncating either
    of them again gives the same start and the same end. *)
Lemma unit_fixpoints u off t :
  startOf_ms u off (endOf_ms u off t) = startOf_ms u off t /\
  endOf_ms u off (startOf_ms u off t) = endOf_ms u off t /\
  endOf_ms u off (endOf_ms u off t) = endOf_ms u off t.
Proof.
  destruct (dateUnit u) eqn:Hu.
  - repeat (rewrite (startOf_ms_days u off _ Hu)
            || rewrite (endOf_ms_days u off _ Hu)).
    rewrite localDays_start, localDays_end.
    set (z := localDays off t).
    pose proof (unit_bounds u z) as Hb.
    destruct (unit_const u z (unitStartDay u z) ltac:(lia)) as [Hs1 He1].
    destruct (unit_const u z (unitNextDay u z - 1) ltac:(lia)) as [Hs2 He2].
    rewrite Hs2, He1, He2. repeat split; reflexivity.
  - destruct u; try discriminate Hu; repeat split; clock_unit.
Qed.

End PeriodFacts.

Import Periods Settings Outcomes PeriodFacts.

(** ** Facts about the comparisons *)

Module CompareFacts.

Lemma bool_window s e y :
  s <= e ->
  ((s <=? y) && (y <=? e) || (y <? s) = negb (e <? y)) /\
  ((s <=? y) && (y <=? e) || (e <? y) = negb (y <? s)).
Proof.
  intros H.
  destruct (Z.leb_spec s y), (Z.leb_spec y e), (Z.ltb_spec y s), (Z.ltb_spec e y);
    cbn [andb orb negb]; split; try reflexivity; exfalso; lia.
Qed.

Lemma bool_instant x y :
  ((x =? y) || (y <? x) = negb (x <? y)) /\
  ((x =? y) || (x <? y) = negb (y <? x)).
Proof.
  destruct (Z.eqb_spec x y), (Z.ltb_spec y x), (Z.ltb_spec x y);
    cbn [orb negb]; split; try reflexivity; exfalso; lia.
Qed.

(** Between two valid moments, "same or after" is "not before" and
    "same or before" is "not after", at every granularity. *)
Lemma isSameOrAfter_not_before a b u :
  isValid a = true -> isValid b = true ->
  isSameOrAfter a b u = negb (isBefore a b u).
Proof.
  unfold isValid, isSameOrAfter, isSame, isAfter, isBefore.
  destruct (valueOf a) as [x|]; [|discriminate].
  destruct (valueOf b) as [y|]; [|discriminate]. intros _ _.
  destruct u as [u|]; [|apply bool_instant].
  pose proof (startOf_le_endOf u (utcOffset a) x) as Hse.
  destruct u; try (apply bool_window; lia); apply bool_instant.
Qed.

Lemma isSameOrBefore_not_after a b u :
  isValid a = true -> isValid b = true ->
  isSameOrBefore a b u = negb (isAfter a b u).
Proof.
  unfold isValid, isSameOrBefore, isSame, isAfter, isBefore.
  destruct (valueOf a) as [x|]; [|discriminate].
  destruct (valueOf b) as [y|]; [|discriminate]. intros _ _.
  destruct u as [u|]; [|apply bool_instant].
  pose proof (startOf_le_endOf u (utcOffset a) x) as Hse.
  destruct u; try (apply bool_window; lia); apply bool_instant.
Qed.

(** A strict comparison that holds at a coarse granularity holds at the
    finest, and a lax one that holds at the finest holds at every
    coarser one. *)
Lemma isBefore_finer a b u : isBefore a b u = true -> isBefore a b None = true.
Proof.
  unfold isBefore.
  destruct (valueOf a) as [x|]; [|discriminate].
  destruct (valueOf b) as [y|]; [|discriminate].
  destruct u as [u|]; [|tauto].
  pose proof (startOf_le_endOf u (utcOffset a) x) as Hse.
  destruct u; intros H; apply Z.ltb_lt in H; apply Z.ltb_lt; lia.
Qed.

Lemma isAfter_finer a b u : isAfter a b u = true -> isAfter a b None = true.
Proof.
  unfold isAfter.
  destruct (valueOf a) as [x|]; [|discriminate].
  destruct (valueOf b) as [y|]; [|discriminate].
  destruct u as [u|]; [|tauto].
  pose proof (startOf_le_endOf u (utcOffset a) x) as Hse.
  destruct u; intros H; apply Z.ltb_lt in H; apply Z.ltb_lt; lia.
Qed.

Lemma isSameOrBefore_coarser a b u :
  isSameOrBefore a b None = true -> isSameOrBefore a b u = true.
Proof.
  intros H.
  assert (Hv : isValid a = true /\ isValid b = true).
  { unfold isSameOrBefore, isSame, isBefore, isValid in *.
    destruct (valueOf a), (valueOf b); try discriminate; auto. }
  destruct Hv as [Ha Hb].
  rewrite isSameOrBefore_not_after in * by assumption.
  destruct (isAfter a b u) eqn:Hu; [|reflexivity].
  apply isAfter_finer in Hu. rewrite Hu in H. discriminate.
Qed.

Lemma isSameOrAfter_coarser a b u :
  isSameOrAfter a b None = true -> isSameOrAfter a b u = true.
Proof.
  intros H.
  assert (Hv : isValid a = true /\ isValid b = true).
  { unfold isSameOrAfter, isSame, isAfter, isValid in *.
    destruct (valueOf a), (valueOf b); try discriminate; auto. }
  destruct Hv as [Ha Hb].
  rewrite isSameOrAfter_not_before in * by assumption.
  destruct (isBefore a b u) eqn:Hu; [|reflexivity].
  apply isBefore_finer in Hu. rewrite Hu in H. discriminate.
Qed.

(** No comparison holds when a side is invalid. *)
Lemma compare_invalid a b u :
  isValid a = false \/ isValid b = false ->
  isBefore a b u = false /\ isAfter a b u = false /\
  isSameOrBefore a b u = false /\ isSameOrAfter a b u = false.
Proof.
  unfold isValid, isSameOrBefore, isSameOrAfter, isSame, isBefore, isAfter.
  destruct (valueOf a), (valueOf b); intros [H|H]; try discriminate H; auto.
Qed.

Lemma inRange_valid m : inRange m = true -> isValid m = true.
Proof.
  unfold inRange, isValid. destruct (valueOf m); [reflexivity|discriminate].
Qed.

End CompareFacts.

(** ** Facts about the rules *)

Module RuleFacts.
Import CompareFacts.

(** What a comparison rule computes, case by case. *)
Lemma compareRule_eq E code method cmp value date precision (h : heap) :
  compareRule E code (compare E method cmp) value date precision h
  = let p := precisionOf precision in
    let '(d, h1) := dateOf E date h in
    match value with
    | JMoment lv =>
        match h1 !! lv with
        | Some V =>
            match createLocal E d h1 with
            | Return D _ =>
                Return (if cmp V D (unitOf p) then Pass value
                        else Fail {| code := code; local := Some (d, p) |}) h1
            | Throw e => Throw e
            end
        | None => Throw (Dangling lv)
        end
    | _ => Return (Pass value) h1
    end.
Proof.
  unfold compareRule, precisionOf, dateOf.
  set (p := if negb (truthy precision) then JString "milliseconds" else precision).
  assert (Hcmp : forall lv d (h1 : heap),
            (ok ← compare E method cmp (JMoment lv) d p;
             if ok : bool then mret (Pass (JMoment lv))
             else mret (Fail (helpers_error code (Some (d, p))))) h1
            = match h1 !! lv with
              | Some V =>
                  match createLocal E d h1 with
                  | Return D _ =>
                      Return (if cmp V D (unitOf p) then Pass (JMoment lv)
                              else Fail {| code := code; local := Some (d, p) |}) h1
                  | Throw e => Throw e
                  end
              | None => Throw (Dangling lv)
              end).
  { intros lv d h1. unfold compare, receiver, mbind, M_bind, mret, M_ret, load.
    destruct (h1 !! lv) as [V|]; [|reflexivity].
    destruct (createLocal E d h1) as [D h2|e] eqn:Hc; [|reflexivity].
    apply createLocal_store in Hc. subst h2.
    destruct (cmp V D (unitOf p)); reflexivity. }
  destruct date; cbn [isString];
    try (rewrite (bind_Return _ _ h _ h eq_refl);
         destruct value; cbn [isMoment negb]; try reflexivity; apply Hcmp).
  rewrite (bind_Return _ _ h (JMoment (length h))
             (h ++ [fromISO (localOffset E) s]) eq_refl).
  destruct value; cbn [isMoment negb]; try reflexivity; apply Hcmp.
Qed.

End RuleFacts.

Import CompareFacts RuleFacts.

(** *** The comparison rules *)

Lemma rules_validate_names (f : string -> option (jsval -> jsval -> jsval -> M ruled))
    (b a sb sa : jsval -> jsval -> jsval -> M ruled) (n : string) :
  (forall rule, f rule
     = if (rule =? "isBefore")%string then Some b
       else if (rule =? "isAfter")%string then Some a
       else if (rule =? "isSameOrBefore")%string then Some sb
       else if (rule =? "isSameOrAfter")%string then Some sa
       else None) ->
  (n = "isBefore"%string /\ f n = Some b) \/
  (n = "isAfter"%string /\ f n = Some a) \/
  (n = "isSameOrBefore"%string /\ f n = Some sb) \/
  (n = "isSameOrAfter"%string /\ f n = Some sa) \/
  f n = None.
Proof.
  intros Hf. rewrite Hf.
  destruct (String.eqb_spec n "isBefore"); [auto|].
  destruct (String.eqb_spec n "isAfter"); [auto|].
  destruct (String.eqb_spec n "isSameOrBefore"); [auto 6|].
  destruct (String.eqb_spec n "isSameOrAfter"); [auto 6|]. auto 6.
Qed.

(** What a comparison rule can hand back. *)
Lemma compareRule_outcome E kind method cmp value date precision
    (h : heap) res h' :
  compareRule E kind (compare E method cmp) value date precision h
  = Return res h' ->
  h' = snd (dateOf E date h) /\
  match res with
  | Pass v => v = value
  | Fail e => code e = kind /\ isMoment value = true
              /\ local e = Some (fst (dateOf E date h), precisionOf precision)
  end.
Proof.
  rewrite compareRule_eq. cbv zeta.
  destruct (dateOf E date h) as [d h1]. cbn [fst snd].
  destruct value; try (intros [= <- <-]; auto).
  destruct (h1 !! l) as [V|]; [|discriminate].
  destruct (createLocal E d h1) as [D h2|]; [|discriminate].
  destruct (cmp V D _); intros [= <- <-]; auto.
Qed.

Lemma dateOf_store E date (h : heap) :
  snd (dateOf E date h) = h \/ exists m, snd (dateOf E date h) = h ++ [m].
Proof. destruct date; cbn [dateOf snd]; eauto. Qed.

(** What evaluating a recorded rule can hand back, in both files, for
    a date that is not a reference. *)
Lemma evalRule_outcome (E : env) (state : gmap string jsval) (r : rule)
    (value : jsval) (h : heap) (res : ruled) (h' : heap) :
  isRef (args_date r) = false ->
  evalRule (Index.rules_validate E) state r value h = Return res h' \/
  evalRule (Part000.rules_validate E) state r value h = Return res h' ->
  (h' = h \/ exists m, h' = h ++ [m]) /\
  match res with
  | Pass v => v = value
  | Fail e =>
      code e = ("moment." ++ name r)%string /\
      isMoment value = true /\
      exists d, local e = Some (d, precisionOf (args_precision r))
  end.
Proof.
  assert (Hgen : forall kind method cmp d,
            compareRule E kind (compare E method cmp) value d
              (args_precision r) h = Return res h' ->
            kind = ("moment." ++ name r)%string ->
            (h' = h \/ exists m, h' = h ++ [m]) /\
            match res with
            | Pass v => v = value
            | Fail e =>
                code e = ("moment." ++ name r)%string /\
                isMoment value = true /\
                exists d, local e = Some (d, precisionOf (args_precision r))
            end).
  { intros kind method cmp d Hr Hkind.
    apply compareRule_outcome in Hr. destruct Hr as [-> Hres].
    split; [apply dateOf_store|].
    destruct res; [exact Hres|].
    destruct Hres as (? & ? & ?). subst kind. eauto. }
  unfold evalRule. intros _ [H|H].
  - destruct (rules_validate_names (Index.rules_validate E)
                (Index.isBefore_validate E) (Index.isAfter_validate E)
                (Index.isSameOrBefore_validate E) (Index.isSameOrAfter_validate E)
                (name r) ltac:(reflexivity))
      as [[Hn Hf]|[[Hn Hf]|[[Hn Hf]|[[Hn Hf]|Hf]]]];
      rewrite Hf in H; try discriminate H;
      (eapply Hgen; [exact H | rewrite Hn; reflexivity]).
  - destruct (rules_validate_names (Part000.rules_validate E)
                (Part000.isBefore_validate E) (Part000.isAfter_validate E)
                (Part000.isSameOrBefore_validate E)
                (Part000.isSameOrAfter_validate E)
                (name r) ltac:(reflexivity))
      as [[Hn Hf]|[[Hn Hf]|[[Hn Hf]|[[Hn Hf]|Hf]]]];
      rewrite Hf in H; try discriminate H;
      unfold Part000.isBefore_validate, Part000.isAfter_validate,
        Part000.isSameOrBefore_validate, Part000.isSameOrAfter_validate,
        Part000.guarded in H;
      (destruct (truthy (ref_resolve state (args_date r)));
       cbn [negb] in H;
       [ eapply Hgen; [exact H | rewrite Hn; reflexivity]
       | injection H as <- <-; auto ]).
Qed.

(** X2.  What evaluating a recorded rule can do, in both files, when
    the date of the rule is not a reference (a date that the host
    resolves from a reference is first put to the assertion of the
    argument, which is not part of this).  If the rule returns, the
    store is the old one, or the old one with one new moment after it
    (the parsed date): no object that was there is written.  A passing
    rule hands back the value it was given; a failing rule was given a
    moment, and its error has the kind "moment." followed by the name
    the rule was recorded under, with the precision the rule compared
    at. *)
Theorem rule_outcomes (E : env) (state : gmap string jsval) (r : rule)
    (value : jsval) (h : heap) (res : ruled) (h' : heap) :
  isRef (args_date r) = false ->
  evalRule (Index.rules_validate E) state r value h = Return res h' \/
  evalRule (Part000.rules_validate E) state r value h = Return res h' ->
  (h' = h \/ exists m, h' = h ++ [m]) /\
  match res with
  | Pass v => v = value
  | Fail e =>
      code e = ("moment." ++ name r)%string /\
      isMoment value = true /\
      exists d, local e = Some (d, precisionOf (args_precision r))
  end.
Proof. apply evalRule_outcome. Qed.

Lemma rule_outcomes_witness :
  evalRule (Part000.rules_validate env0) ∅
    {| name := "isAfter"; args_date := JString "2024-06-01";
       args_precision := JString "day" |} (JMoment 0) [january1]
  = Return (Fail {| code := "moment.isAfter";
                    local := Some (JMoment 1, JString "day") |})
      [january1; june1] /\
  ([january1; june1] = [january1] \/
   exists m, [january1; june1] = [january1] ++ [m]) /\
  "moment.isAfter"%string = ("moment." ++ "isAfter")%string /\
  isMoment (JMoment 0) = true /\
  exists d, Some (JMoment 1, JString "day")
            = Some (d, precisionOf (JString "day")).
Proof.
  split; [vm_compute; reflexivity|].
  apply (rule_outcomes env0 ∅
           {| name := "isAfter"; args_date := JString "2024-06-01";
              args_precision := JString "day" |} (JMoment 0) [january1]
           (Fail {| code := "moment.isAfter";
                    local := Some (JMoment 1, JString "day") |})
           [january1; june1] eq_refl).
  right. vm_compute. reflexivity.
Defined.

(** X3.  A value that is not a moment object passes every comparison
    rule of both files, whatever the date and the precision: the rules
    leave such values to [validate].  A string date is still parsed
    into a new moment first (in the revision, when the date is not
    falsy). *)
Theorem rules_pass_other_values (E : env) (value date precision : jsval)
    (h : heap) :
  isMoment value = false ->
  let h1 := snd (dateOf E date h) in
  let h2 := if truthy date then h1 else h in
  Index.isBefore_validate E value date precision h = Return (Pass value) h1 /\
  Index.isAfter_validate E value date precision h = Return (Pass value) h1 /\
  Index.isSameOrBefore_validate E value date precision h = Return (Pass value) h1 /\
  Index.isSameOrAfter_validate E value date precision h = Return (Pass value) h1 /\
  Part000.isBefore_validate E value date precision h = Return (Pass value) h2 /\
  Part000.isAfter_validate E value date precision h = Return (Pass value) h2 /\
  Part000.isSameOrBefore_validate E value date precision h = Return (Pass value) h2 /\
  Part000.isSameOrAfter_validate E value date precision h = Return (Pass value) h2.
Proof.
  intros Hv h1 h2.
  assert (Hgen : forall kind method cmp,
            compareRule E kind (compare E method cmp) value date precision h
            = Return (Pass value) h1).
  { intros kind method cmp. rewrite compareRule_eq. cbv zeta. unfold h1.
    destruct (dateOf E date h) as [d hd]. cbn [snd].
    destruct value; try reflexivity. discriminate Hv. }
  unfold Index.isBefore_validate, Index.isAfter_validate,
    Index.isSameOrBefore_validate, Index.isSameOrAfter_validate,
    Part000.isBefore_validate, Part000.isAfter_validate,
    Part000.isSameOrBefore_validate, Part000.isSameOrAfter_validate,
    Part000.guarded, call_isBefore, call_isAfter, call_isSameOrBefore,
    call_isSameOrAfter, h2.
  destruct (truthy date); cbn [negb]; repeat split; try apply Hgen; reflexivity.
Qed.

Lemma rules_pass_other_values_witness :
  isMoment (JString "2024-01-01") = false /\
  Index.isBefore_validate env0 (JString "2024-01-01") (JString "2024-06-01")
    (JString "day") []
  = Return (Pass (JString "2024-01-01")) [june1] /\
  Part000.isSameOrAfter_validate env0 (JString "2024-01-01") JNull
    (JString "day") []
  = Return (Pass (JString "2024-01-01")) [].
Proof.
  split; [reflexivity|]. split.
  - pose proof (rules_pass_other_values env0 (JString "2024-01-01")
                  (JString "2024-06-01") (JString "day") [] eq_refl) as H.
    destruct H as (H & _). rewrite H. vm_compute. reflexivity.
  - pose proof (rules_pass_other_values env0 (JString "2024-01-01")
                  JNull (JString "day") [] eq_refl) as H.
    destruct H as (_ & _ & _ & _ & _ & _ & _ & H). exact H.
Defined.

Lemma Forall_kept {A} (P : A -> Prop) (f : A -> bool) l :
  Forall P l -> Forall P (List.filter f l).
Proof.
  induction 1 as [|x l Hx _ IH]; cbn [List.filter]; [constructor|].
  destruct (f x); [constructor|]; assumption.
Qed.

(** Every rule that the methods of [index.js] record is named isBefore
    or isAfter. *)
Lemma index_rule_names s :
  Index.configured s ->
  Forall (fun r => name r = "isBefore"%string \/ name r = "isAfter"%string)
    (rules s).
Proof.
  induction 1; cbn [rules Index.tz_method Index.startOf_method
    Index.endOf_method Index.maxDate_method Index.minDate_method
    Index.isBefore_method Index.isAfter_method Index.isSameOrBefore_method
    Index.isSameOrAfter_method setFlag addRule];
    try assumption; try constructor;
    apply Forall_app; split; try (apply Forall_kept; assumption);
    (constructor; [cbn [name]; auto | constructor]).
Qed.

(** X4.  No rule of a schema built with the configuration methods of
    [index.js] ever fails with an error of kind moment.isSameOrBefore
    or moment.isSameOrAfter: isSameOrBefore and isSameOrAfter record
    their rules under the names isBefore and isAfter, so every failure
    of a recorded rule whose date is not a reference has the kind
    moment.isBefore or moment.isAfter. *)
Theorem index_reports_only_before_and_after (E : env) (s : schema)
    (state : gmap string jsval) (r : rule) (value : jsval) (h : heap)
    (e : error) (h' : heap) :
  Index.configured s ->
  r ∈ rules s ->
  isRef (args_date r) = false ->
  evalRule (Index.rules_validate E) state r value h = Return (Fail e) h' ->
  code e = "moment.isBefore"%string \/ code e = "moment.isAfter"%string.
Proof.
  intros Hs Hr Href He.
  pose proof (index_rule_names s Hs) as Hnames.
  rewrite Forall_forall in Hnames. specialize (Hnames r Hr).
  destruct (evalRule_outcome E state r value h (Fail e) h' Href (or_introl He))
    as (_ & Hcode & _).
  rewrite Hcode. destruct Hnames as [-> | ->]; auto.
Qed.

Lemma index_reports_only_before_and_after_witness :
  Index.configured
    (Index.isSameOrBefore_method (JString "2024-06-01") (JString "day") schema0) /\
  {| name := "isBefore"; args_date := JString "2024-06-01";
     args_precision := JString "day" |}
  ∈ rules (Index.isSameOrBefore_method (JString "2024-06-01") (JString "day")
             schema0) /\
  evalRule (Index.rules_validate env0) ∅
    {| name := "isBefore"; args_date := JString "2024-06-01";
       args_precision := JString "day" |} (JMoment 0) [june1noon]
  = Return (Fail {| code := "moment.isBefore";
                    local := Some (JMoment 1, JString "day") |})
      [june1noon; june1] /\
  ("moment.isBefore"%string = "moment.isBefore"%string \/
   "moment.isBefore"%string = "moment.isAfter"%string).
Proof.
  assert (Hs : Index.configured
                 (Index.isSameOrBefore_method (JString "2024-06-01")
                    (JString "day") schema0))
    by (apply Index.configured_isSameOrBefore, Index.configured_new).
  assert (Hr : {| name := "isBefore"; args_date := JString "2024-06-01";
                  args_precision := JString "day" |}
               ∈ rules (Index.isSameOrBefore_method (JString "2024-06-01")
                          (JString "day") schema0))
    by (cbn; apply list_elem_of_here).
  assert (He : evalRule (Index.rules_validate env0) ∅
                 {| name := "isBefore"; args_date := JString "2024-06-01";
                    args_precision := JString "day" |} (JMoment 0) [june1noon]
               = Return (Fail {| code := "moment.isBefore";
                                 local := Some (JMoment 1, JString "day") |})
                   [june1noon; june1])
    by (vm_compute; reflexivity).
  split; [exact Hs|]. split; [exact Hr|]. split; [exact He|].
  exact (index_reports_only_before_and_after env0 _ ∅ _ (JMoment 0) [june1noon]
           _ [june1noon; june1] Hs Hr eq_refl He).
Defined.

(** Every rule that the methods of the revision record has a validator
    under its name. *)
Lemma part000_rule_names E s :
  Part000.configured s ->
  Forall (fun r => Part000.rules_validate E (name r) <> None) (rules s).
Proof.
  induction 1; cbn [rules Part000.tz_method Part000.startOf_method
    Part000.endOf_method Part000.maxDate_method Part000.minDate_method
    Part000.isBefore_method Part000.isAfter_method
    Part000.isSameOrBefore_method Part000.isSameOrAfter_method setFlag addRule];
    try assumption; try constructor;
    apply Forall_app; split; try (apply Forall_kept; assumption);
    (constructor; [cbn [name]; discriminate | constructor]).
Qed.

(** X5.  Every kind of error that a rule whose date is not a reference
    can fail with has a message template in the file of the rule; and
    every rule that the configuration methods of a file record has a
    validator, so that its evaluation never stops at an unknown
    rule. *)
Theorem rule_errors_have_templates (E : env) (state : gmap string jsval)
    (r : rule) (value : jsval) (h : heap) :
  (isRef (args_date r) = false ->
   forall e h',
     evalRule (Index.rules_validate E) state r value h = Return (Fail e) h' ->
     is_Some (Index.messages !! code e)) /\
  (isRef (args_date r) = false ->
   forall e h',
     evalRule (Part000.rules_validate E) state r value h = Return (Fail e) h' ->
     is_Some (Part000.messages !! code e)) /\
  (forall s, Part000.configured s -> r ∈ rules s ->
     evalRule (Part000.rules_validate E) state r value h
     <> Throw (Error "Unknown rule")) /\
  (forall s, Index.configured s -> r ∈ rules s ->
     evalRule (Index.rules_validate E) state r value h
     <> Throw (Error "Unknown rule")).
Proof.
  assert (Hmsg : forall n,
            n = "isBefore"%string \/ n = "isAfter"%string \/
            n = "isSameOrBefore"%string \/ n = "isSameOrAfter"%string ->
            is_Some (Index.messages !! ("moment." ++ n)%string) /\
            is_Some (Part000.messages !! ("moment." ++ n)%string)).
  { intros n [->|[->|[->| ->]]]; split; vm_compute; eauto. }
  assert (Hname : forall f b a sb sa,
            (forall rule, f rule
               = if (rule =? "isBefore")%string then Some b
                 else if (rule =? "isAfter")%string then Some a
                 else if (rule =? "isSameOrBefore")%string then Some sb
                 else if (rule =? "isSameOrAfter")%string then Some sa
                 else None) ->
            forall e h', evalRule f state r value h = Return (Fail e) h' ->
            name r = "isBefore"%string \/ name r = "isAfter"%string \/
            name r = "isSameOrBefore"%string \/ name r = "isSameOrAfter"%string).
  { intros f b a sb sa Hf e h' He. unfold evalRule in He.
    destruct (rules_validate_names f b a sb sa (name r) Hf)
      as [[Hn _]|[[Hn _]|[[Hn _]|[[Hn _]|Hnone]]]]; auto.
    rewrite Hnone in He. discriminate He. }
  assert (Hthrow : forall f : string -> option (jsval -> jsval -> jsval -> M ruled),
            f (name r) <> None ->
            (forall g v d p, f (name r) = Some g ->
               g v d p h <> Throw (Error "Unknown rule")) ->
            evalRule f state r value h <> Throw (Error "Unknown rule")).
  { intros f Hf Hg. unfold evalRule.
    destruct (f (name r)) as [g|] eqn:Hfn; [|congruence].
    apply (Hg g); reflexivity. }
  assert (Hcr : forall kind method cmp v d p,
            compareRule E kind (compare E method cmp) v d p h
            <> Throw (Error "Unknown rule")).
  { intros kind method cmp v d p. rewrite compareRule_eq. cbv zeta.
    destruct (dateOf E d h) as [d' h1].
    destruct v; try discriminate.
    destruct (h1 !! l); [|discriminate].
    destruct d'; cbn [createLocal]; unfold mret, M_ret, load;
      try (destruct (cmp _ _ _); discriminate).
    destruct (h1 !! l0); [destruct (cmp _ _ _)|]; discriminate. }
  repeat split.
  - intros Href e h' He.
    destruct (evalRule_outcome E state r value h (Fail e) h' Href
                (or_introl He)) as (_ & Hcode & _).
    rewrite Hcode.
    refine (proj1 (Hmsg (name r) _)). eapply Hname; [|exact He]. reflexivity.
  - intros Href e h' He.
    destruct (evalRule_outcome E state r value h (Fail e) h' Href
                (or_intror He)) as (_ & Hcode & _).
    rewrite Hcode.
    refine (proj2 (Hmsg (name r) _)). eapply Hname; [|exact He]. reflexivity.
  - intros s Hs Hr. apply Hthrow.
    + pose proof (part000_rule_names E s Hs) as Hn.
      rewrite Forall_forall in Hn. exact (Hn r Hr).
    + intros g v d p Hg. unfold Part000.rules_validate in Hg.
      repeat match type of Hg with
      | (if ?c then _ else _) = _ => destruct c
      end; try discriminate Hg; injection Hg as <-;
      unfold Part000.isBefore_validate, Part000.isAfter_validate,
        Part000.isSameOrBefore_validate, Part000.isSameOrAfter_validate,
        Part000.guarded;
      (destruct (negb (truthy d)); [discriminate | apply Hcr]).
  - intros s Hs Hr. apply Hthrow.
    + pose proof (index_rule_names s Hs) as Hn.
      rewrite Forall_forall in Hn. destruct (Hn r Hr) as [-> | ->]; discriminate.
    + intros g v d p Hg. unfold Index.rules_validate in Hg.
      repeat match type of Hg with
      | (if ?c then _ else _) = _ => destruct c
      end; try discriminate Hg; injection Hg as <-; apply Hcr.
Qed.

(** A comparison rule on a moment value and a moment date. *)
Lemma compareRule_moments E kind method cmp lv ld V D precision (h : heap) :
  h !! lv = Some V -> h !! ld = Some D ->
  compareRule E kind (compare E method cmp) (JMoment lv) (JMoment ld) precision h
  = Return (if cmp V D (unitOf (precisionOf precision)) then Pass (JMoment lv)
            else Fail {| code := kind;
                         local := Some (JMoment ld, precisionOf precision) |}) h.
Proof.
  intros Hv Hd. rewrite compareRule_eq. cbv zeta. cbn [dateOf createLocal].
  rewrite Hv. unfold load. rewrite Hd. reflexivity.
Qed.

(** A comparison rule on a moment value and a string date. *)
Lemma compareRule_string E kind method cmp lv V s precision (h : heap) :
  h !! lv = Some V ->
  compareRule E kind (compare E method cmp) (JMoment lv) (JString s) precision h
  = Return (if cmp V (fromISO (localOffset E) s) (unitOf (precisionOf precision))
            then Pass (JMoment lv)
            else Fail {| code := kind;
                         local := Some (JMoment (length h), precisionOf precision) |})
      (h ++ [fromISO (localOffset E) s]).
Proof.
  intros Hv. rewrite compareRule_eq. cbv zeta. cbn [dateOf createLocal].
  rewrite (lookup_app_l_Some _ _ _ _ Hv). unfold load.
  rewrite lookup_snoc. reflexivity.
Qed.

Ltac unfold_validators :=
  unfold Index.isBefore_validate, Index.isAfter_validate,
    Index.isSameOrBefore_validate, Index.isSameOrAfter_validate,
    Part000.isBefore_validate, Part000.isAfter_validate,
    Part000.isSameOrBefore_validate, Part000.isSameOrAfter_validate,
    Part000.guarded, call_isBefore, call_isAfter, call_isSameOrBefore,
    call_isSameOrAfter.

(** X6.  At the default precision (the precision argument unset or
    empty), the four rules of both files compare the instants of two
    valid moments: isBefore is [<], isAfter is [>], isSameOrBefore is
    [<=] and isSameOrAfter is [>=]; the display zones play no part, and
    a failure reports the date with the precision "milliseconds". *)
Theorem default_precision_compares_instants (E : env) (lv ld : loc)
    (V D : moment) (v d : Z) (precision : jsval) (h : heap) :
  h !! lv = Some V -> h !! ld = Some D ->
  valueOf V = Some v -> valueOf D = Some d ->
  truthy precision = false ->
  let verdict (ok : bool) (kind : string) :=
    Return (if ok then Pass (JMoment lv)
            else Fail {| code := kind;
                         local := Some (JMoment ld, JString "milliseconds") |}) h in
  Index.isBefore_validate E (JMoment lv) (JMoment ld) precision h
  = verdict (v <? d) "moment.isBefore"%string /\
  Index.isAfter_validate E (JMoment lv) (JMoment ld) precision h
  = verdict (d <? v) "moment.isAfter"%string /\
  Index.isSameOrBefore_validate E (JMoment lv) (JMoment ld) precision h
  = verdict (v <=? d) "moment.isSameOrBefore"%string /\
  Index.isSameOrAfter_validate E (JMoment lv) (JMoment ld) precision h
  = verdict (d <=? v) "moment.isSameOrAfter"%string /\
  Part000.isBefore_validate E (JMoment lv) (JMoment ld) precision h
  = verdict (v <? d) "moment.isBefore"%string /\
  Part000.isAfter_validate E (JMoment lv) (JMoment ld) precision h
  = verdict (d <? v) "moment.isAfter"%string /\
  Part000.isSameOrBefore_validate E (JMoment lv) (JMoment ld) precision h
  = verdict (v <=? d) "moment.isSameOrBefore"%string /\
  Part000.isSameOrAfter_validate E (JMoment lv) (JMoment ld) precision h
  = verdict (d <=? v) "moment.isSameOrAfter"%string.
Proof.
  intros Hv Hd HV HD Hp verdict.
  assert (Hprec : precisionOf precision = JString "milliseconds")
    by (unfold precisionOf; rewrite Hp; reflexivity).
  assert (Hunit : unitOf (JString "milliseconds") = Some Millisecond)
    by reflexivity.
  assert (Hb : isBefore V D (Some Millisecond) = (v <? d))
    by (unfold isBefore; rewrite HV, HD; reflexivity).
  assert (Ha : isAfter V D (Some Millisecond) = (d <? v))
    by (unfold isAfter; rewrite HV, HD; reflexivity).
  assert (Hsb : isSameOrBefore V D (Some Millisecond) = (v <=? d)).
  { unfold isSameOrBefore, isSame, isBefore. rewrite HV, HD.
    destruct (Z.eqb_spec v d), (Z.ltb_spec v d), (Z.leb_spec v d);
      cbn [orb]; try reflexivity; exfalso; lia. }
  assert (Hsa : isSameOrAfter V D (Some Millisecond) = (d <=? v)).
  { unfold isSameOrAfter, isSame, isAfter. rewrite HV, HD.
    destruct (Z.eqb_spec v d), (Z.ltb_spec d v), (Z.leb_spec d v);
      cbn [orb]; try reflexivity; exfalso; lia. }
  unfold_validators. cbn [truthy negb].
  rewrite !(compareRule_moments E _ _ _ lv ld V D precision h Hv Hd).
  rewrite Hprec, Hunit, Hb, Ha, Hsb, Hsa. repeat split; reflexivity.
Qed.

Lemma default_precision_compares_instants_witness :
  [january1; june1] !! 0%nat = Some january1 /\
  [january1; june1] !! 1%nat = Some june1 /\
  valueOf january1 = Some 1704063600000 /\
  valueOf june1 = Some 1717196400000 /\
  truthy JUndefined = false /\
  Index.isAfter_validate env0 (JMoment 0) (JMoment 1) JUndefined
    [january1; june1]
  = Return (Fail {| code := "moment.isAfter";
                    local := Some (JMoment 1, JString "milliseconds") |})
      [january1; june1] /\
  Part000.isSameOrBefore_validate env0 (JMoment 0) (JMoment 1) JUndefined
    [january1; june1]
  = Return (Pass (JMoment 0)) [january1; june1].
Proof.
  do 5 (split; [reflexivity|]).
  pose proof (default_precision_compares_instants env0 0%nat 1%nat january1
                june1 1704063600000 1717196400000 JUndefined [january1; june1]
                eq_refl eq_refl eq_refl eq_refl eq_refl) as H.
  destruct H as (_ & Ha & _ & _ & _ & _ & Hsb & _).
  split; [exact Ha | exact Hsb].
Defined.

(** X7.  On two valid moments, the value in range, and at a precision
    that is unset or names one of the units year to millisecond, the
    strict rules
    and the lax rules of both files are complementary: isBefore passes
    exactly when isSameOrAfter fails, and isAfter passes exactly when
    isSameOrBefore fails. *)
Theorem strict_and_lax_rules_complement (E : env) (lv ld : loc)
    (V D : moment) (precision : jsval) (h : heap) :
  h !! lv = Some V -> h !! ld = Some D ->
  inRange V = true -> isValid D = true ->
  unitArg precision = true ->
  let verdict (ok : bool) (kind : string) :=
    Return (if ok then Pass (JMoment lv)
            else Fail {| code := kind;
                         local := Some (JMoment ld, precisionOf precision) |}) h in
  exists before after : bool,
    Index.isBefore_validate E (JMoment lv) (JMoment ld) precision h
    = verdict before "moment.isBefore"%string /\
    Index.isSameOrAfter_validate E (JMoment lv) (JMoment ld) precision h
    = verdict (negb before) "moment.isSameOrAfter"%string /\
    Index.isAfter_validate E (JMoment lv) (JMoment ld) precision h
    = verdict after "moment.isAfter"%string /\
    Index.isSameOrBefore_validate E (JMoment lv) (JMoment ld) precision h
    = verdict (negb after) "moment.isSameOrBefore"%string /\
    Part000.isBefore_validate E (JMoment lv) (JMoment ld) precision h
    = verdict before "moment.isBefore"%string /\
    Part000.isSameOrAfter_validate E (JMoment lv) (JMoment ld) precision h
    = verdict (negb before) "moment.isSameOrAfter"%string /\
    Part000.isAfter_validate E (JMoment lv) (JMoment ld) precision h
    = verdict after "moment.isAfter"%string /\
    Part000.isSameOrBefore_validate E (JMoment lv) (JMoment ld) precision h
    = verdict (negb after) "moment.isSameOrBefore"%string.
Proof.
  intros Hv Hd HV HD _ verdict. apply inRange_valid in HV.
  exists (isBefore V D (unitOf (precisionOf precision))),
         (isAfter V D (unitOf (precisionOf precision))).
  unfold_validators. cbn [truthy negb].
  rewrite !(compareRule_moments E _ _ _ lv ld V D precision h Hv Hd).
  rewrite (isSameOrAfter_not_before V D _ HV HD),
    (isSameOrBefore_not_after V D _ HV HD).
  repeat split; reflexivity.
Qed.

Lemma strict_and_lax_rules_complement_witness :
  [june1noon; june1] !! 0%nat = Some june1noon /\
  [june1noon; june1] !! 1%nat = Some june1 /\
  inRange june1noon = true /\ isValid june1 = true /\
  unitArg (JString "day") = true /\
  exists before : bool,
    Part000.isBefore_validate env0 (JMoment 0) (JMoment 1) (JString "day")
      [june1noon; june1]
    = Return (if before then Pass (JMoment 0)
              else Fail {| code := "moment.isBefore";
                           local := Some (JMoment 1, JString "day") |})
        [june1noon; june1] /\
    Part000.isSameOrAfter_validate env0 (JMoment 0) (JMoment 1) (JString "day")
      [june1noon; june1]
    = Return (if negb before then Pass (JMoment 0)
              else Fail {| code := "moment.isSameOrAfter";
                           local := Some (JMoment 1, JString "day") |})
        [june1noon; june1].
Proof.
  do 5 (split; [reflexivity|]).
  pose proof (strict_and_lax_rules_complement env0 0%nat 1%nat june1noon june1
                (JString "day") [june1noon; june1]
                eq_refl eq_refl eq_refl eq_refl eq_refl) as H.
  destruct H as (before & after & _ & _ & _ & _ & Hb & Hsa & _).
  exists before. split; [exact Hb | exact Hsa].
Defined.

(** X8.  The precision works in one direction for each kind of rule,
    in both files, for a value in range and a precision that is unset
    or names one of the units year to millisecond: if isBefore or isAfter passes at that
    precision, it passes at the default precision; if isSameOrBefore
    or isSameOrAfter passes at the default precision, it passes at
    that precision. *)
Theorem precision_tightens_strict_rules (E : env) (lv ld : loc)
    (V D : moment) (precision : jsval) (h : heap) :
  h !! lv = Some V -> h !! ld = Some D ->
  inRange V = true ->
  unitArg precision = true ->
  let passes (r : M ruled) := r h = Return (Pass (JMoment lv)) h in
  (passes (Index.isBefore_validate E (JMoment lv) (JMoment ld) precision) ->
   passes (Index.isBefore_validate E (JMoment lv) (JMoment ld) JUndefined)) /\
  (passes (Index.isAfter_validate E (JMoment lv) (JMoment ld) precision) ->
   passes (Index.isAfter_validate E (JMoment lv) (JMoment ld) JUndefined)) /\
  (passes (Index.isSameOrBefore_validate E (JMoment lv) (JMoment ld) JUndefined) ->
   passes (Index.isSameOrBefore_validate E (JMoment lv) (JMoment ld) precision)) /\
  (passes (Index.isSameOrAfter_validate E (JMoment lv) (JMoment ld) JUndefined) ->
   passes (Index.isSameOrAfter_validate E (JMoment lv) (JMoment ld) precision)) /\
  (passes (Part000.isBefore_validate E (JMoment lv) (JMoment ld) precision) ->
   passes (Part000.isBefore_validate E (JMoment lv) (JMoment ld) JUndefined)) /\
  (passes (Part000.isAfter_validate E (JMoment lv) (JMoment ld) precision) ->
   passes (Part000.isAfter_validate E (JMoment lv) (JMoment ld) JUndefined)) /\
  (passes (Part000.isSameOrBefore_validate E (JMoment lv) (JMoment ld) JUndefined) ->
   passes (Part000.isSameOrBefore_validate E (JMoment lv) (JMoment ld) precision)) /\
  (passes (Part000.isSameOrAfter_validate E (JMoment lv) (JMoment ld) JUndefined) ->
   passes (Part000.isSameOrAfter_validate E (JMoment lv) (JMoment ld) precision)).
Proof.
  intros Hv Hd _ _ passes. unfold passes. unfold_validators. cbn [truthy negb].
  rewrite !(compareRule_moments E _ _ _ lv ld V D _ h Hv Hd).
  replace (unitOf (precisionOf JUndefined)) with (Some Millisecond) by reflexivity.
  assert (Hms : forall cmp : moment -> moment -> option units -> bool,
            (cmp = isBefore \/ cmp = isAfter \/ cmp = isSameOrBefore
             \/ cmp = isSameOrAfter) ->
            cmp V D (Some Millisecond) = cmp V D None).
  { intros cmp [->|[->|[->| ->]]];
      unfold isSameOrBefore, isSameOrAfter, isSame, isBefore, isAfter;
      destruct (valueOf V), (valueOf D); reflexivity. }
  rewrite !Hms by tauto.
  set (u := unitOf (precisionOf precision)).
  pose proof (isBefore_finer V D u) as H1.
  pose proof (isAfter_finer V D u) as H2.
  pose proof (isSameOrBefore_coarser V D u) as H3.
  pose proof (isSameOrAfter_coarser V D u) as H4.
  repeat split; intros H;
    repeat match goal with
    | H : Return (if ?c then _ else _) _ = _ |- _ =>
        destruct c eqn:?; [clear H | discriminate H]
    end;
    try rewrite H1 by reflexivity; try rewrite H2 by reflexivity;
    try rewrite H3 by reflexivity; try rewrite H4 by reflexivity; reflexivity.
Qed.

Lemma precision_tightens_strict_rules_witness :
  [january1; june1] !! 0%nat = Some january1 /\
  [january1; june1] !! 1%nat = Some june1 /\
  inRange january1 = true /\
  unitArg (JString "month") = true /\
  (Index.isBefore_validate env0 (JMoment 0) (JMoment 1) (JString "month")
     [january1; june1]
   = Return (Pass (JMoment 0)) [january1; june1] ->
   Index.isBefore_validate env0 (JMoment 0) (JMoment 1) JUndefined
     [january1; june1]
   = Return (Pass (JMoment 0)) [january1; june1]).
Proof.
  do 4 (split; [reflexivity|]).
  pose proof (precision_tightens_strict_rules env0 0%nat 1%nat january1 june1
                (JString "month") [january1; june1] eq_refl eq_refl eq_refl
                eq_refl) as H.
  destruct H as (H & _). exact H.
Defined.

(** X9.  A date string without a digit, which no ISO-8601 format
    admits, makes every rule of both files fail on every moment value,
    at any precision: the date is parsed into an invalid moment, with
    which no comparison holds, and that invalid moment is the date of
    the error.  (In the revision the empty string is the exception: it
    is falsy and lets the value through.) *)
Theorem unparseable_date_fails_every_rule (E : env) (lv : loc) (V : moment)
    (s : string) (precision : jsval) (h : heap) :
  h !! lv = Some V ->
  s <> ""%string ->
  Forall (fun c => digit c = None) (list_ascii_of_string s) ->
  let failure (kind : string) :=
    Return (Fail {| code := kind;
                    local := Some (JMoment (length h), precisionOf precision) |})
      (h ++ [invalid (localOffset E)]) in
  Index.isBefore_validate E (JMoment lv) (JString s) precision h
  = failure "moment.isBefore"%string /\
  Index.isAfter_validate E (JMoment lv) (JString s) precision h
  = failure "moment.isAfter"%string /\
  Index.isSameOrBefore_validate E (JMoment lv) (JString s) precision h
  = failure "moment.isSameOrBefore"%string /\
  Index.isSameOrAfter_validate E (JMoment lv) (JString s) precision h
  = failure "moment.isSameOrAfter"%string /\
  Part000.isBefore_validate E (JMoment lv) (JString s) precision h
  = failure "moment.isBefore"%string /\
  Part000.isAfter_validate E (JMoment lv) (JString s) precision h
  = failure "moment.isAfter"%string /\
  Part000.isSameOrBefore_validate E (JMoment lv) (JString s) precision h
  = failure "moment.isSameOrBefore"%string /\
  Part000.isSameOrAfter_validate E (JMoment lv) (JString s) precision h
  = failure "moment.isSameOrAfter"%string.
Proof.
  intros Hv Hne Hparse failure. apply parseISO_no_digit in Hparse.
  assert (Ht : truthy (JString s) = true).
  { cbn [truthy]. destruct (String.eqb_spec s ""); [contradiction|reflexivity]. }
  assert (Hinv : fromISO (localOffset E) s = invalid (localOffset E))
    by (unfold fromISO; rewrite Hparse; reflexivity).
  destruct (compare_invalid V (invalid (localOffset E))
              (unitOf (precisionOf precision)) (or_intror eq_refl))
    as (Hb & Ha & Hsb & Hsa).
  unfold_validators. rewrite Ht. cbn [negb].
  rewrite !(compareRule_string E _ _ _ lv V s precision h Hv).
  rewrite Hinv, Hb, Ha, Hsb, Hsa. repeat split; reflexivity.
Qed.

Lemma unparseable_date_fails_every_rule_witness :
  [march15] !! 0%nat = Some march15 /\
  "not-a-date"%string <> ""%string /\
  Forall (fun c => digit c = None) (list_ascii_of_string "not-a-date") /\
  Index.isSameOrBefore_validate env0 (JMoment 0) (JString "not-a-date")
    (JString "day") [march15]
  = Return (Fail {| code := "moment.isSameOrBefore";
                    local := Some (JMoment 1, JString "day") |})
      [march15; invalid 60].
Proof.
  assert (Hd : Forall (fun c => digit c = None)
                 (list_ascii_of_string "not-a-date"))
    by (repeat constructor).
  split; [reflexivity|]. split; [discriminate|]. split; [exact Hd|].
  pose proof (unparseable_date_fails_every_rule env0 0%nat march15
                "not-a-date" (JString "day") [march15] eq_refl
                ltac:(discriminate) Hd) as H.
  destruct H as (_ & _ & H & _). exact H.
Defined.

(** ** Facts about [coerce] *)

Module CoerceFacts.

Lemma insert_snoc (h : heap) m m' : <[length h := m']> (h ++ [m]) = h ++ [m'].
Proof.
  rewrite insert_app_r_alt by reflexivity. rewrite Nat.sub_diag. reflexivity.
Qed.

Lemma isValid_startOf u m : isValid (startOf u m) = isValid m.
Proof. destruct u as [u|], m as [[t|] off zn]; reflexivity. Qed.

Lemma isValid_endOf u m : isValid (endOf u m) = isValid m.
Proof. destruct u as [u|], m as [[t|] off zn]; reflexivity. Qed.

(** Units within [unitArg] keep a moment valid. *)
Lemma isValid_rounded s e m :
  unitArg s = true -> unitArg e = true ->
  isValid (rounded s e m) = isValid m.
Proof.
  intros _ _. unfold rounded. destruct (truthy s), (truthy e);
    rewrite ?isValid_endOf, ?isValid_startOf; reflexivity.
Qed.

Lemma compared_valid a b u :
  isBefore a b u = true \/ isAfter a b u = true ->
  isValid a = true /\ isValid b = true.
Proof.
  intros H. destruct (isValid a) eqn:Ha, (isValid b) eqn:Hb; auto;
    exfalso;
    (destruct (compare_invalid a b u) as (H1 & H2 & _); [auto|];
     rewrite H1, H2 in H; destruct H; discriminate).
Qed.

Lemma moment_ISO_inv E v (h : heap) r h1 :
  moment_ISO E v h = Return r h1 ->
  exists m0, r = JMoment (length h) /\ h1 = h ++ [m0].
Proof.
  destruct v; cbv [moment_ISO mbind M_bind alloc load mret M_ret];
    try (intros [= <- <-]; eauto).
  destruct (h !! l); [intros [= <- <-]; eauto | discriminate].
Qed.

(** One bound: the store is left alone, and a moment that comes out is
    a valid moment of the store. *)
Lemma clamp_valid E method (cmp : moment -> moment -> option units -> bool)
    bound value (h : heap) (r : jsval) h' :
  (forall a b u, cmp a b u = true -> isValid b = true) ->
  (forall l, value = JMoment l -> exists R, h !! l = Some R /\ isValid R = true) ->
  (b ← compare E method cmp value bound JUndefined;
   mret (if b : bool then bound else value)) h = Return r h' ->
  h' = h /\
  (r = value \/ r = bound) /\
  forall l, r = JMoment l -> exists R, h !! l = Some R /\ isValid R = true.
Proof.
  intros Hc Hv H. apply bind_inv in H as (b & h1 & Hb & H).
  injection H as <- <-.
  unfold compare in Hb. apply bind_inv in Hb as (l0 & h2 & Hr & Hb).
  destruct value; try discriminate Hr. injection Hr as <- <-.
  apply bind_inv in Hb as (a & h3 & Ha & Hb).
  unfold load in Ha. destruct (h !! l) eqn:Hl; [|discriminate].
  injection Ha as <- <-.
  apply bind_inv in Hb as (d & h4 & Hd & Hb).
  pose proof (createLocal_store _ _ _ _ _ Hd) as ->.
  injection Hb as <- <-. split; [reflexivity|].
  destruct (cmp m d _) eqn:Hcmp; (split; [auto|]); [|exact Hv].
  intros lb ->. cbn [createLocal] in Hd. unfold load in Hd.
  destruct (h !! lb); [|discriminate]. injection Hd as ->.
  eexists; split; [reflexivity|]. eapply Hc, Hcmp.
Qed.

Lemma minMax_valid E minDate maxDate lv V (h : heap) v h' :
  h !! lv = Some V -> isValid V = true ->
  minMax E minDate maxDate (JMoment lv) h = Return v h' ->
  forall l, v = JMoment l -> exists R, h !! l = Some R /\ isValid R = true.
Proof.
  intros Hl HV H. unfold minMax in H.
  apply bind_inv in H as (v1 & h1 & H1 & H2).
  assert (Hv1 : h1 = h /\ forall l, v1 = JMoment l ->
                            exists R, h !! l = Some R /\ isValid R = true).
  { destruct (truthy minDate).
    - unfold call_isBefore in H1.
      apply clamp_valid in H1 as (-> & _ & H1); [auto| |].
      + intros a b u Hab. apply (compared_valid a b u). auto.
      + intros l [= <-]. eauto.
    - injection H1 as <- <-. split; [reflexivity|]. intros l [= <-]. eauto. }
  destruct Hv1 as [-> Hv1].
  destruct (truthy maxDate).
  - unfold call_isAfter in H2.
    apply clamp_valid in H2 as (-> & _ & H2); [exact H2| |exact Hv1].
    intros a b u Hab. apply (compared_valid a b u). auto.
  - injection H2 as <- <-. exact Hv1.
Qed.

(** What [coerce] does after the validity check, for any way of setting
    the zone that writes the one object. *)
Lemma coerce_tail E (tzc : M ()) startOf endOf minDate maxDate lv V
    (h : heap) res h' :
  h !! lv = Some V ->
  (forall h2, tzc h = Return () h2 ->
     exists m', h2 = <[lv := m']> h /\ isValid m' = isValid V) ->
  (_ ← tzc; _ ← period startOf endOf (JMoment lv);
   value ← minMax E minDate maxDate (JMoment lv); mret (Some value)) h
  = Return res h' ->
  exists m' v,
    h' = <[lv := m']> h /\ res = Some v /\
    (v = JMoment lv \/ v = minDate \/ v = maxDate) /\
    (isValid V = true -> unitArg startOf = true -> unitArg endOf = true ->
     forall l, v = JMoment l -> exists R, h' !! l = Some R /\ isValid R = true).
Proof.
  intros Hl Htz H.
  apply bind_inv in H as ([] & h2 & H1 & H).
  destruct (Htz h2 H1) as (m1 & -> & Hm1).
  apply bind_inv in H as ([] & h3 & H2 & H).
  rewrite (period_eq startOf endOf lv m1 _ (lookup_modified lv h V m1 Hl)) in H2.
  injection H2 as <-. rewrite list_insert_insert_eq in H.
  apply bind_inv in H as (v & h4 & H3 & H).
  injection H as <- <-.
  pose proof (minMax_store _ _ _ _ _ _ _ H3) as [-> Hv].
  exists (rounded startOf endOf m1), v.
  split; [reflexivity|]. split; [reflexivity|]. split; [exact Hv|].
  intros HV Hs He.
  eapply minMax_valid; [eapply lookup_modified, Hl | | exact H3].
  rewrite (isValid_rounded _ _ _ Hs He), Hm1. exact HV.
Qed.

(** What [coerce] of [index.js] can return. *)
Lemma index_coerce_inv E value hp (h : heap) res h' :
  Index.coerce E value hp h = Return res h' ->
  (res = None /\ h' = h /\ truthy value = false) \/
  (exists m0, res = None /\ h' = h ++ [m0] /\ isValid m0 = false) \/
  (exists m' v,
     h' = h ++ [m'] /\ res = Some v /\
     (v = JMoment (length h) \/ v = getFlag (h_schema hp) "min"
      \/ v = getFlag (h_schema hp) "max") /\
     (unitArg (getFlag (h_schema hp) "startOf") = true ->
      unitArg (getFlag (h_schema hp) "endOf") = true ->
      forall l, v = JMoment l ->
        exists R, h' !! l = Some R /\ isValid R = true)).
Proof.
  unfold Index.coerce. destruct (truthy value); cbn [negb].
  2:{ intros [= <- <-]. auto. }
  intros H. right.
  apply bind_inv in H as (v0 & h1 & H0 & H).
  apply moment_ISO_inv in H0 as (m0 & -> & ->).
  apply bind_inv in H as (valid & h2 & Hv & H).
  rewrite (call_isValid_eq _ m0 _ (lookup_snoc h m0)) in Hv.
  injection Hv as <- <-.
  destruct (isValid m0) eqn:Hm0; cbn [negb] in H.
  2:{ injection H as <- <-. left. eauto. }
  right. cbv zeta in H.
  eapply coerce_tail in H; [| apply lookup_snoc |].
  - destruct H as (m' & v & -> & -> & Hv & Hl).
    exists m', v. rewrite insert_snoc in Hl |- *.
    split; [reflexivity|]. split; [reflexivity|]. split; [exact Hv|].
    intros Hs He. apply Hl; [exact Hm0 | exact Hs | exact He].
  - intros h2 Htz.
    exact (index_timezone_inv _ _ _ _ _ _ (lookup_snoc h m0) Htz).
Qed.

(** A moment that [coerce] of the revision returns is a valid moment of
    the store, for units within [unitArg]. *)
Lemma part000_coerce_valid E value hp (h : heap) l h' :
  unitArg (getFlag (h_schema hp) "startOf") = true ->
  unitArg (getFlag (h_schema hp) "endOf") = true ->
  Part000.coerce E value hp h = Return (Some (JMoment l)) h' ->
  exists R, h' !! l = Some R /\ isValid R = true.
Proof.
  intros Hs He.
  unfold Part000.coerce. destruct (truthy value); cbn [negb]; [|discriminate].
  intros H. cbv zeta in H.
  apply bind_inv in H as (v0 & h1 & H0 & H).
  assert (Hv0 : exists l0 m0, v0 = JMoment l0 /\ h1 !! l0 = Some m0).
  { destruct (isMoment value) eqn:Hm; cbn [negb] in H0.
    - injection H0 as <- <-. destruct value; try discriminate Hm.
      apply bind_inv in H as (valid & h2 & Hv & _).
      unfold call_isValid in Hv. apply bind_inv in Hv as (l1 & h3 & Hr & Hv).
      injection Hr as <- <-. apply bind_inv in Hv as (m & h4 & Hv & _).
      unfold load in Hv. destruct (h !! l0) eqn:Hl; [eauto|discriminate].
    - apply moment_ISO_inv in H0 as (m0 & -> & ->).
      exists (length h), m0. split; [reflexivity|apply lookup_snoc]. }
  destruct Hv0 as (l0 & m0 & -> & Hl0).
  apply bind_inv in H as (valid & h2 & Hv & H).
  rewrite (call_isValid_eq _ m0 _ Hl0) in Hv. injection Hv as <- <-.
  destruct (isValid m0) eqn:Hm0; cbn [negb] in H; [|discriminate].
  eapply coerce_tail in H; [| exact Hl0 |].
  - destruct H as (m' & v & -> & [= <-] & _ & Hl).
    apply Hl; [exact Hm0 | exact Hs | exact He | reflexivity].
  - intros h2 Htz. exact (part000_zone_inv _ _ _ _ _ _ _ Hl0 Htz).
Qed.

End CoerceFacts.
Import CoerceFacts.

(** *** What [coerce] hands on *)



(** X11.  In both files, for a value that stands for a moment in range,
    and when startOf and endOf are unset or name units from year to
    millisecond, a moment object that [coerce] returns is a valid
    moment of the store, so [validate] raises nothing on it.  This
    holds for every zone and bound, a bound that replaced the value
    included. *)
Theorem coerced_moment_passes_validate (E : env) (value : jsval)
    (hp : helpers) (h : heap) (m0 : moment) (l : loc) (h' : heap) :
  momentOf E value h = Some m0 ->
  inRange m0 = true ->
  unitArg (getFlag (h_schema hp) "startOf") = true ->
  unitArg (getFlag (h_schema hp) "endOf") = true ->
  Index.coerce E value hp h = Return (Some (JMoment l)) h' \/
  Part000.coerce E value hp h = Return (Some (JMoment l)) h' ->
  (exists m, h' !! l = Some m /\ isValid m = true) /\
  Index.validate (JMoment l) h' = Return VNothing h' /\
  Part000.validate (JMoment l) h' = Return VNothing h'.
Proof.
  intros _ _ Hs He H.
  assert (Hm : exists m, h' !! l = Some m /\ isValid m = true).
  { destruct H as [H|H].
    - apply index_coerce_inv in H.
      destruct H as [(H & _)|[(mi & H & _)|(m' & v & _ & H & _ & Hl)]];
        try discriminate H.
      injection H as <-. apply Hl; [exact Hs | exact He | reflexivity].
    - eapply part000_coerce_valid; [exact Hs | exact He | exact H]. }
  split; [exact Hm|]. destruct Hm as (m & Hl & Hm).
  unfold Part000.validate, Index.validate, Stages.validate. cbn [truthy negb].
  rewrite (bind_Return _ _ h' _ h' (call_isValid_eq l m h' Hl)).
  rewrite Hm. auto.
Qed.

Lemma coerced_moment_passes_validate_witness :
  momentOf env0 (JString "2024-01-01") [] = Some january1 /\
  inRange january1 = true /\
  unitArg (getFlag (h_schema helpers0) "startOf") = true /\
  unitArg (getFlag (h_schema helpers0) "endOf") = true /\
  Part000.coerce env0 (JString "2024-01-01") helpers0 []
  = Return (Some (JMoment 0)) [january1] /\
  Part000.validate (JMoment 0) [january1] = Return VNothing [january1].
Proof.
  assert (H : Part000.coerce env0 (JString "2024-01-01") helpers0 []
              = Return (Some (JMoment 0)) [january1])
    by (vm_compute; reflexivity).
  assert (Hm : momentOf env0 (JString "2024-01-01") [] = Some january1)
    by (vm_compute; reflexivity).
  split; [exact Hm|]. split; [reflexivity|].
  split; [reflexivity|]. split; [reflexivity|]. split; [exact H|].
  apply (coerced_moment_passes_validate env0 (JString "2024-01-01") helpers0
           [] january1 0%nat [january1] Hm eq_refl eq_refl eq_refl
           (or_intror H)).
Defined.

(** X20.  The revision under the host's default context.  When the
    schema sets no zone and the context is [null], [coerce] of the
    revision never returns a value: it returns nothing for a value that
    is falsy or does not stand for a valid moment, and for one that
    does, it throws a type error on reading the zone of the context,
    where [coerce] of [index.js] returns. *)
Theorem null_context_never_coerces (E : env) (value : jsval) (hp : helpers)
    (h : heap) :
  truthy (getFlag (h_schema hp) "tz") = false ->
  context (h_prefs hp) = None ->
  (forall r h', Part000.coerce E value hp h = Return r h' -> r = None) /\
  (forall l m, value = JMoment l -> h !! l = Some m -> isValid m = true ->
     exists msg, Part000.coerce E value hp h = Throw (TypeError msg)) /\
  (forall s, value = JString s -> s <> ""%string ->
     isValid (fromISO (localOffset E) s) = true ->
     exists msg, Part000.coerce E value hp h = Throw (TypeError msg)).
Proof.
  intros Htz Hctx.
  assert (Hgo : forall v0 h1 m0,
            (if negb (isMoment value) then moment_ISO E value else mret value) h
            = Return v0 h1 ->
            call_isValid v0 h1 = Return (isValid m0) h1 ->
            Part000.coerce E value hp h
            = if truthy value
              then if isValid m0
                   then Throw (TypeError
                          "Cannot read properties of null (reading 'timezone')")
                   else Return None h1
              else Return None h).
  { intros v0 h1 m0 H0 Hv. unfold Part000.coerce.
    destruct (truthy value); cbn [negb]; [|reflexivity].
    rewrite (bind_Return _ _ _ _ _ H0), (bind_Return _ _ _ _ _ Hv).
    destruct (isValid m0); cbn [negb]; [|reflexivity].
    rewrite Htz. unfold Part000.contextTimezone. rewrite Hctx. reflexivity. }
  split; [|split].
  - intros r h'. unfold Part000.coerce.
    destruct (truthy value); cbn [negb]; [|intros [= <- _]; reflexivity].
    intros H. apply bind_inv in H as (v0 & h1 & _ & H).
    apply bind_inv in H as (valid & h2 & _ & H).
    destruct valid; cbn [negb] in H; [|injection H as <- _; reflexivity].
    cbv zeta in H. rewrite Htz in H.
    unfold Part000.contextTimezone in H. rewrite Hctx in H. discriminate H.
  - intros l m -> Hl Hm.
    rewrite (Hgo (JMoment l) h m eq_refl (call_isValid_eq l m h Hl)).
    cbn [truthy]. rewrite Hm. eexists. reflexivity.
  - intros s -> Hs Hm.
    assert (Ht : truthy (JString s) = true).
    { cbn [truthy]. destruct (String.eqb_spec s "");
        [contradiction|reflexivity]. }
    rewrite (Hgo (JMoment (length h)) (h ++ [fromISO (localOffset E) s])
               (fromISO (localOffset E) s) eq_refl
               (call_isValid_eq _ _ _ (lookup_snoc h _))).
    rewrite Ht, Hm. eexists. reflexivity.
Qed.

Lemma null_context_never_coerces_witness :
  truthy (getFlag schema0 "tz") = false /\
  isValid (fromISO (localOffset env0) "2024-01-01") = true /\
  (exists msg,
     Part000.coerce env0 (JString "2024-01-01")
       (Build_helpers schema0 ∅ (Build_prefs None)) []
     = Throw (TypeError msg)) /\
  Index.coerce env0 (JString "2024-01-01")
    (Build_helpers schema0 ∅ (Build_prefs None)) []
  = Return (Some (JMoment 0)) [january1].
Proof.
  assert (Hv : isValid (fromISO (localOffset env0) "2024-01-01") = true)
    by (vm_compute; reflexivity).
  split; [reflexivity|]. split; [exact Hv|]. split.
  - destruct (null_context_never_coerces env0 (JString "2024-01-01")
                (Build_helpers schema0 ∅ (Build_prefs None)) []
                eq_refl eq_refl) as (_ & _ & H).
    apply (H "2024-01-01"%string eq_refl); [discriminate | exact Hv].
  - vm_compute. reflexivity.
Defined.

(** *** The bounds *)

(** X12.  A bound given as a date string is compared as the date it
    names, but it is the string itself that replaces the value.  A
    string minimum that the value is before makes the comparison with
    a maximum throw, as a string has no method isAfter; without a
    maximum, and for a string maximum that the value is after, the
    string is what the bounds hand on, and [validate] throws on it. *)
Theorem string_bound_replaces_value_as_string (E : env) (s : string)
    (lv : loc) (V : moment) (h : heap) :
  h !! lv = Some V ->
  s <> ""%string ->
  (isBefore V (fromISO (localOffset E) s) None = true ->
   forall maxDate,
     minMax E (JString s) maxDate (JMoment lv) h
     = if truthy maxDate
       then Throw (TypeError "value.isAfter is not a function")
       else Return (JString s) h) /\
  (isAfter V (fromISO (localOffset E) s) None = true ->
   forall minDate, truthy minDate = false ->
     minMax E minDate (JString s) (JMoment lv) h = Return (JString s) h) /\
  Index.validate (JString s) h
  = Throw (TypeError "value.isValid is not a function") /\
  Part000.validate (JString s) h
  = Throw (TypeError "value.isValid is not a function").
Proof.
  intros Hl Hs.
  assert (Ht : truthy (JString s) = true).
  { cbn [truthy]. destruct (String.eqb_spec s ""); [contradiction|reflexivity]. }
  split; [|split; [|split]].
  - intros Hb maxDate. unfold minMax. rewrite Ht. unfold call_isBefore.
    rewrite (bind_Return _ _ h (JString s) h).
    + destruct (truthy maxDate); reflexivity.
    + rewrite (bind_Return _ _ h true h); [reflexivity|].
      rewrite (compare_eq E _ _ lv V (JString s)
                 (fromISO (localOffset E) s) JUndefined h Hl eq_refl).
      cbn [unitOf]. rewrite Hb. reflexivity.
  - intros Ha minDate Hmin. unfold minMax. rewrite Hmin, Ht.
    rewrite (bind_Return _ _ h (JMoment lv) h) by reflexivity.
    unfold call_isAfter.
    rewrite (bind_Return _ _ h true h); [reflexivity|].
    rewrite (compare_eq E _ _ lv V (JString s)
               (fromISO (localOffset E) s) JUndefined h Hl eq_refl).
    cbn [unitOf]. rewrite Ha. reflexivity.
  - unfold Index.validate, Stages.validate. rewrite Ht. reflexivity.
  - unfold Part000.validate, Stages.validate. rewrite Ht. reflexivity.
Qed.

Lemma string_bound_replaces_value_as_string_witness :
  [january1] !! 0%nat = Some january1 /\
  "2024-06-01"%string <> ""%string /\
  isBefore january1 (fromISO (localOffset env0) "2024-06-01") None = true /\
  minMax env0 (JString "2024-06-01") JUndefined (JMoment 0) [january1]
  = Return (JString "2024-06-01") [january1] /\
  minMax env0 (JString "2024-06-01") (JString "2024-12-31") (JMoment 0)
    [january1]
  = Throw (TypeError "value.isAfter is not a function").
Proof.
  split; [reflexivity|]. split; [discriminate|].
  assert (Hb : isBefore january1 (fromISO (localOffset env0) "2024-06-01") None
               = true) by (vm_compute; reflexivity).
  split; [exact Hb|].
  pose proof (string_bound_replaces_value_as_string env0 "2024-06-01" 0%nat
                january1 [january1] eq_refl ltac:(discriminate)) as (H & _).
  split; [exact (H Hb JUndefined) | exact (H Hb (JString "2024-12-31"))].
Defined.

(** X13.  Bounds the wrong way round: when the maximum is before the
    minimum, every valid value is replaced by the maximum. *)
Theorem crossed_bounds_give_the_maximum (E : env) (h : heap)
    (lv lmin lmax : loc) (V Dmin Dmax : moment) (v a b : Z) :
  h !! lv = Some V -> h !! lmin = Some Dmin -> h !! lmax = Some Dmax ->
  valueOf V = Some v -> valueOf Dmin = Some a -> valueOf Dmax = Some b ->
  b < a ->
  minMax E (JMoment lmin) (JMoment lmax) (JMoment lv) h
  = Return (JMoment lmax) h.
Proof.
  intros Hv Hmin Hmax HV Ha Hb Hlt.
  rewrite (minMax_moments E h lv lmin lmax V Dmin Dmax Hv Hmin Hmax).
  unfold isBefore, isAfter. rewrite HV, Ha, Hb.
  destruct (Z.ltb_spec v a), (Z.ltb_spec b a), (Z.ltb_spec b v);
    try reflexivity; exfalso; lia.
Qed.

Lemma crossed_bounds_give_the_maximum_witness :
  [march15; june1; january1] !! 0%nat = Some march15 /\
  [march15; june1; january1] !! 1%nat = Some june1 /\
  [march15; june1; january1] !! 2%nat = Some january1 /\
  valueOf march15 = Some 1710496800000 /\
  valueOf june1 = Some 1717196400000 /\
  valueOf january1 = Some 1704063600000 /\
  1704063600000 < 1717196400000 /\
  minMax env0 (JMoment 1) (JMoment 2) (JMoment 0) [march15; june1; january1]
  = Return (JMoment 2) [march15; june1; january1].
Proof.
  do 6 (split; [reflexivity|]). split; [lia|].
  apply (crossed_bounds_give_the_maximum env0 [march15; june1; january1]
           0%nat 1%nat 2%nat march15 june1 january1
           1710496800000 1717196400000 1704063600000);
    try reflexivity; lia.
Defined.

(** X14.  A bound that is unset, or that is an invalid moment of the
    store, never replaces the value: no comparison with an invalid
    moment holds. *)
Theorem invalid_bounds_are_ignored (E : env) (minDate maxDate : jsval)
    (lv : loc) (V : moment) (h : heap) :
  h !! lv = Some V ->
  (truthy minDate = false \/
   exists l D, minDate = JMoment l /\ h !! l = Some D /\ isValid D = false) ->
  (truthy maxDate = false \/
   exists l D, maxDate = JMoment l /\ h !! l = Some D /\ isValid D = false) ->
  minMax E minDate maxDate (JMoment lv) h = Return (JMoment lv) h.
Proof.
  intros Hl Hmin Hmax. unfold minMax.
  assert (H1 : (if truthy minDate
                then b ← call_isBefore E (JMoment lv) minDate JUndefined;
                     mret (if b : bool then minDate else JMoment lv)
                else mret (JMoment lv)) h = Return (JMoment lv) h).
  { destruct (truthy minDate); [|reflexivity].
    destruct Hmin as [Hmin|(l & D & -> & HD & Hinv)]; [discriminate|].
    unfold call_isBefore.
    rewrite (bind_Return _ _ h false h); [reflexivity|].
    rewrite (compare_eq E _ _ lv V (JMoment l) D JUndefined h Hl
               (createLocal_moment E l D h HD)).
    destruct (compare_invalid V D (unitOf JUndefined) (or_intror Hinv))
      as (-> & _). reflexivity. }
  rewrite (bind_Return _ _ h _ h H1).
  destruct (truthy maxDate); [|reflexivity].
  destruct Hmax as [Hmax|(l & D & -> & HD & Hinv)]; [discriminate|].
  unfold call_isAfter.
  rewrite (bind_Return _ _ h false h); [reflexivity|].
  rewrite (compare_eq E _ _ lv V (JMoment l) D JUndefined h Hl
             (createLocal_moment E l D h HD)).
  destruct (compare_invalid V D (unitOf JUndefined) (or_intror Hinv))
    as (_ & -> & _). reflexivity.
Qed.

Lemma invalid_bounds_are_ignored_witness :
  [march15; invalid 0] !! 0%nat = Some march15 /\
  (exists l D, JMoment 1 = JMoment l /\ [march15; invalid 0] !! l = Some D
               /\ isValid D = false) /\
  truthy JNull = false /\
  minMax env0 (JMoment 1) JNull (JMoment 0) [march15; invalid 0]
  = Return (JMoment 0) [march15; invalid 0].
Proof.
  assert (H1 : exists l D, JMoment 1 = JMoment l
                           /\ [march15; invalid 0] !! l = Some D
                           /\ isValid D = false)
    by (exists 1%nat, (invalid 0); repeat split; reflexivity).
  split; [reflexivity|]. split; [exact H1|]. split; [reflexivity|].
  apply (invalid_bounds_are_ignored env0 (JMoment 1) JNull 0%nat
           march15 [march15; invalid 0] eq_refl (or_intror H1)
           (or_introl eq_refl)).
Defined.

(** *** The two files side by side *)

(** On a value that is not a moment object, [coerce] of the revision
    does what [coerce] of [index.js] does when the flags that they
    read hold the same settings and the context is an object that
    names no zone, unless the schema sets a zone. *)
Lemma coerce_agree (E : env) (value : jsval)
    (hi hp : helpers) (h : heap) :
  isMoment value = false ->
  getFlag (h_schema hp) "tz" = getFlag (h_schema hi) "tz" ->
  getFlag (h_schema hp) "startOf" = getFlag (h_schema hi) "startOf" ->
  getFlag (h_schema hp) "endOf" = getFlag (h_schema hi) "endOf" ->
  getFlag (h_schema hp) "minDate" = getFlag (h_schema hi) "min" ->
  getFlag (h_schema hp) "maxDate" = getFlag (h_schema hi) "max" ->
  isRef (getFlag (h_schema hi) "min") = false ->
  isRef (getFlag (h_schema hi) "max") = false ->
  (truthy (getFlag (h_schema hi) "tz") = false ->
   exists c, context (h_prefs hp) = Some c /\
             truthy (default JUndefined (c !! "timezone")) = false) ->
  Part000.coerce E value hp h = Index.coerce E value hi h.
Proof.
  intros Hv Htz Hs He Hmin Hmax Hrmin Hrmax Hctx.
  unfold Part000.coerce, Index.coerce. cbv zeta.
  rewrite Hv, Htz, Hs, He, Hmin, Hmax, Hrmin, Hrmax.
  destruct (truthy value); cbn [negb]; [|reflexivity].
  apply bind_ext. intros v0 h1. apply bind_ext. intros valid h2.
  destruct valid; cbn [negb]; [|reflexivity].
  apply bind_eq.
  destruct (truthy (getFlag (h_schema hi) "tz")) eqn:Ht.
  - rewrite part000_timezone_index, Ht. reflexivity.
  - destruct (Hctx eq_refl) as (c & Hc & Hzone).
    unfold Part000.contextTimezone. rewrite Hc.
    rewrite (bind_Return _ _ h2 (default JUndefined (c !! "timezone")) h2)
      by reflexivity.
    rewrite part000_timezone_index, Ht.
    unfold Index.timezone. rewrite Ht, Hzone. reflexivity.
Qed.

Lemma getFlag_setFlag flag v s f :
  getFlag (setFlag flag v s) f = if decide (flag = f) then v else getFlag s f.
Proof.
  unfold getFlag, setFlag. cbn [flags].
  destruct (decide (flag = f)) as [->|Hne].
  - rewrite lookup_insert_eq. reflexivity.
  - rewrite lookup_insert_ne by exact Hne. reflexivity.
Qed.

(** The same calls leave the same settings, the bounds under the flag
    names of each file. *)
Lemma sameCalls_flags si sp :
  sameCalls si sp ->
  getFlag sp "tz" = getFlag si "tz" /\
  getFlag sp "startOf" = getFlag si "startOf" /\
  getFlag sp "endOf" = getFlag si "endOf" /\
  getFlag sp "minDate" = getFlag si "min" /\
  getFlag sp "maxDate" = getFlag si "max".
Proof.
  induction 1 as [|v si sp _ IH|v si sp _ IH|v si sp _ IH|v si sp _ IH
                 |v si sp _ IH|d p si sp _ IH|d p si sp _ IH|d p si sp _ IH
                 |d p si sp _ IH];
    try exact IH;
    try (destruct IH as (H1 & H2 & H3 & H4 & H5);
         unfold Index.tz_method, Part000.tz_method, Index.startOf_method,
           Part000.startOf_method, Index.endOf_method, Part000.endOf_method,
           Index.maxDate_method, Part000.maxDate_method, Index.minDate_method,
           Part000.minDate_method;
         rewrite !getFlag_setFlag;
         repeat match goal with
                | |- context [decide (?a = ?b)] =>
                    destruct (decide (a = b)) as [?|?]; try discriminate
                end;
         try congruence; auto).
  repeat split; reflexivity.
Qed.

(** X15.  The revision against [index.js], on values that are not
    moment objects: for two schemas built by the same calls, one with
    the methods of each file, [coerce] of the revision returns what
    [coerce] of [index.js] returns, with the same store, or throws as
    it does, provided that no bound is a reference and that, unless
    the schema sets a zone, the context is an object that names none.
    The bounds travel under the flags max and min in the one file and
    maxDate and minDate in the other. *)
Theorem same_calls_same_coercion (E : env) (value : jsval)
    (hi hp : helpers) (h : heap) :
  sameCalls (h_schema hi) (h_schema hp) ->
  isMoment value = false ->
  isRef (getFlag (h_schema hi) "min") = false ->
  isRef (getFlag (h_schema hi) "max") = false ->
  (truthy (getFlag (h_schema hi) "tz") = false ->
   exists c, context (h_prefs hp) = Some c /\
             truthy (default JUndefined (c !! "timezone")) = false) ->
  Part000.coerce E value hp h = Index.coerce E value hi h.
Proof.
  intros Hs Hv Hmin Hmax Hctx.
  destruct (sameCalls_flags _ _ Hs) as (H1 & H2 & H3 & H4 & H5).
  apply coerce_agree; assumption.
Qed.

Lemma same_calls_same_coercion_witness :
  sameCalls
    (Index.maxDate_method (JString "2024-01-01")
       (Index.startOf_method (JString "day") schema0))
    (Part000.maxDate_method (JString "2024-01-01")
       (Part000.startOf_method (JString "day") schema0)) /\
  isMoment (JString "2024-03-15T10:00:00Z") = false /\
  Part000.coerce env0 (JString "2024-03-15T10:00:00Z")
    (Build_helpers
       (Part000.maxDate_method (JString "2024-01-01")
          (Part000.startOf_method (JString "day") schema0)) ∅
       (Build_prefs (Some ∅))) []
  = Index.coerce env0 (JString "2024-03-15T10:00:00Z")
      (Build_helpers
         (Index.maxDate_method (JString "2024-01-01")
            (Index.startOf_method (JString "day") schema0)) ∅
         (Build_prefs None)) [].
Proof.
  assert (Hs : sameCalls
                 (Index.maxDate_method (JString "2024-01-01")
                    (Index.startOf_method (JString "day") schema0))
                 (Part000.maxDate_method (JString "2024-01-01")
                    (Part000.startOf_method (JString "day") schema0)))
    by (apply same_maxDate, same_startOf, same_new).
  split; [exact Hs|]. split; [reflexivity|].
  apply (same_calls_same_coercion env0 (JString "2024-03-15T10:00:00Z")
           (Build_helpers
              (Index.maxDate_method (JString "2024-01-01")
                 (Index.startOf_method (JString "day") schema0)) ∅
              (Build_prefs None))
           (Build_helpers
              (Part000.maxDate_method (JString "2024-01-01")
                 (Part000.startOf_method (JString "day") schema0)) ∅
              (Build_prefs (Some ∅)))
           [] Hs eq_refl); try reflexivity.
  intros _. exists ∅. split; reflexivity.
Defined.

(** X17.  The bounds and the lax rules fit together.  With a minimum
    that is not after the maximum, both moments of the store in range,
    what the bounds hand on for a value in range passes isSameOrAfter
    against the minimum and isSameOrBefore against the maximum, with
    the validators of both files and at every precision that is unset
    or names one of the units year to millisecond. *)
Theorem clamped_value_passes_lax_rules (E : env) (h : heap)
    (lv lmin lmax : loc) (V Dmin Dmax : moment) (precision : jsval) :
  h !! lv = Some V -> h !! lmin = Some Dmin -> h !! lmax = Some Dmax ->
  inRange V = true -> inRange Dmin = true -> inRange Dmax = true ->
  le Dmin Dmax ->
  unitArg precision = true ->
  exists lr : loc,
    minMax E (JMoment lmin) (JMoment lmax) (JMoment lv) h
    = Return (JMoment lr) h /\
    Index.isSameOrAfter_validate E (JMoment lr) (JMoment lmin) precision h
    = Return (Pass (JMoment lr)) h /\
    Index.isSameOrBefore_validate E (JMoment lr) (JMoment lmax) precision h
    = Return (Pass (JMoment lr)) h /\
    Part000.isSameOrAfter_validate E (JMoment lr) (JMoment lmin) precision h
    = Return (Pass (JMoment lr)) h /\
    Part000.isSameOrBefore_validate E (JMoment lr) (JMoment lmax) precision h
    = Return (Pass (JMoment lr)) h.
Proof.
  intros Hv Hmin Hmax HV _ _ Hle _. apply inRange_valid in HV.
  unfold isValid in HV. unfold le in Hle.
  destruct (valueOf V) as [v|] eqn:EV; [|discriminate].
  destruct (valueOf Dmin) as [a|] eqn:Ea; [|contradiction].
  destruct (valueOf Dmax) as [b|] eqn:Eb; [|contradiction].
  assert (Hin : forall R r, valueOf R = Some r -> a <= r <= b ->
                  isSameOrAfter R Dmin (unitOf (precisionOf precision)) = true /\
                  isSameOrBefore R Dmax (unitOf (precisionOf precision)) = true).
  { intros R r ER Hr. split.
    - apply isSameOrAfter_coarser.
      unfold isSameOrAfter, isSame, isAfter. rewrite ER, Ea.
      destruct (Z.eqb_spec r a), (Z.ltb_spec a r); try reflexivity; lia.
    - apply isSameOrBefore_coarser.
      unfold isSameOrBefore, isSame, isBefore. rewrite ER, Eb.
      destruct (Z.eqb_spec r b), (Z.ltb_spec r b); try reflexivity; lia. }
  assert (Hres : exists lr R r,
             minMax E (JMoment lmin) (JMoment lmax) (JMoment lv) h
             = Return (JMoment lr) h /\
             h !! lr = Some R /\ valueOf R = Some r /\ a <= r <= b).
  { rewrite (minMax_moments E h lv lmin lmax V Dmin Dmax Hv Hmin Hmax).
    unfold isBefore, isAfter. rewrite EV, Ea, Eb.
    destruct (Z.ltb_spec v a).
    - destruct (Z.ltb_spec b a); [lia|].
      exists lmin, Dmin, a. repeat split; auto; lia.
    - destruct (Z.ltb_spec b v).
      + exists lmax, Dmax, b. repeat split; auto; lia.
      + exists lv, V, v. repeat split; auto; lia. }
  destruct Hres as (lr & R & r & Hmm & Hr & ER & Hbounds).
  destruct (Hin R r ER Hbounds) as [Hsa Hsb].
  exists lr. split; [exact Hmm|].
  unfold_validators. cbn [truthy negb].
  rewrite (compareRule_moments E _ _ _ lr lmin R Dmin precision h Hr Hmin).
  rewrite (compareRule_moments E _ _ _ lr lmax R Dmax precision h Hr Hmax).
  rewrite Hsa, Hsb. auto.
Qed.

Lemma clamped_value_passes_lax_rules_witness :
  [june1noon; january1; june1] !! 0%nat = Some june1noon /\
  [june1noon; january1; june1] !! 1%nat = Some january1 /\
  [june1noon; january1; june1] !! 2%nat = Some june1 /\
  inRange june1noon = true /\ inRange january1 = true /\
  inRange june1 = true /\
  le january1 june1 /\
  unitArg (JString "hour") = true /\
  exists lr : loc,
    minMax env0 (JMoment 1) (JMoment 2) (JMoment 0) [june1noon; january1; june1]
    = Return (JMoment lr) [june1noon; january1; june1] /\
    Part000.isSameOrBefore_validate env0 (JMoment lr) (JMoment 2)
      (JString "hour") [june1noon; january1; june1]
    = Return (Pass (JMoment lr)) [june1noon; january1; june1].
Proof.
  do 6 (split; [reflexivity|]).
  assert (Hle : le january1 june1) by (unfold le; simpl; lia).
  split; [exact Hle|]. split; [reflexivity|].
  destruct (clamped_value_passes_lax_rules env0 [june1noon; january1; june1]
              0%nat 1%nat 2%nat june1noon january1 june1 (JString "hour")
              eq_refl eq_refl eq_refl eq_refl eq_refl eq_refl Hle eq_refl)
    as (lr & H1 & _ & _ & _ & H2).
  exists lr. split; [exact H1 | exact H2].
Defined.

(** *** Rules under one name *)

Lemma kept_twice {A} (f : A -> bool) l :
  List.filter f (List.filter f l) = List.filter f l.
Proof.
  induction l as [|x l IH]; [reflexivity|]. cbn [List.filter].
  destruct (f x) eqn:Hx; [|exact IH]. cbn [List.filter]. rewrite Hx, IH.
  reflexivity.
Qed.

(** X21.  In [index.js] the lax rules take the place of the strict
    ones.  Rules are unique by name and isSameOrBefore records its rule
    under the name isBefore, so a schema that calls isBefore and then
    isSameOrBefore is the schema that calls isBefore alone with the
    later arguments: the earlier rule is gone.  The same holds of
    isAfter and isSameOrAfter.  In the revision both rules are kept. *)
Theorem index_lax_rule_replaces_strict (d1 p1 d2 p2 : jsval) (s : schema) :
  Index.isSameOrBefore_method d2 p2 (Index.isBefore_method d1 p1 s)
  = Index.isBefore_method d2 p2 s /\
  Index.isSameOrAfter_method d2 p2 (Index.isAfter_method d1 p1 s)
  = Index.isAfter_method d2 p2 s /\
  {| name := "isBefore"; args_date := d1; args_precision := p1 |}
  ∈ rules (Part000.isSameOrBefore_method d2 p2
             (Part000.isBefore_method d1 p1 s)) /\
  {| name := "isAfter"; args_date := d1; args_precision := p1 |}
  ∈ rules (Part000.isSameOrAfter_method d2 p2
             (Part000.isAfter_method d1 p1 s)).
Proof.
  assert (Hrep : forall r1 r2 : rule,
            name r1 = name r2 ->
            addRule r2 (addRule r1 s) = addRule r2 s).
  { intros r1 r2 Hn. unfold addRule. cbn [flags rules]. f_equal. f_equal.
    rewrite List.filter_app. cbn [List.filter].
    rewrite Hn, String.eqb_refl, kept_twice. cbn [negb]. apply app_nil_r. }
  assert (Hkeep : forall r1 r2 : rule,
            (name r1 =? name r2)%string = false ->
            r1 ∈ rules (addRule r2 (addRule r1 s))).
  { intros r1 r2 Hn. unfold addRule. cbn [flags rules].
    rewrite List.filter_app. cbn [List.filter]. rewrite Hn. cbn [negb].
    apply elem_of_app. left. apply elem_of_app. right. apply list_elem_of_here. }
  split; [|split; [|split]].
  - apply (Hrep (Build_rule "isBefore" d1 p1) (Build_rule "isBefore" d2 p2)).
    reflexivity.
  - apply (Hrep (Build_rule "isAfter" d1 p1) (Build_rule "isAfter" d2 p2)).
    reflexivity.
  - apply (Hkeep (Build_rule "isBefore" d1 p1)
             (Build_rule "isSameOrBefore" d2 p2)). reflexivity.
  - apply (Hkeep (Build_rule "isAfter" d1 p1)
             (Build_rule "isSameOrAfter" d2 p2)). reflexivity.
Qed.

(** *** The period settings *)

(** X18.  The start of a period is never after the moment and the end
    of a period never before it, for every moment in range and for
    settings that are unset or name units from year to millisecond:
    with only startOf set, the period block moves the
    instant of the object back or leaves it, and with only endOf set,
    forward or leaves it. *)
Theorem period_brackets_the_instant (startOf endOf : jsval) (l : loc)
    (m : moment) (t : Z) (h : heap) :
  h !! l = Some m ->
  valueOf m = Some t ->
  inRange m = true ->
  unitArg startOf = true -> unitArg endOf = true ->
  (exists (m1 : moment) (t1 : Z),
     period startOf JUndefined (JMoment l) h = Return () (<[l := m1]> h) /\
     valueOf m1 = Some t1 /\ t1 <= t) /\
  (exists (m2 : moment) (t2 : Z),
     period JUndefined endOf (JMoment l) h = Return () (<[l := m2]> h) /\
     valueOf m2 = Some t2 /\ t <= t2).
Proof.
  intros Hl Ht _ _ _. rewrite !(period_eq _ _ l m h Hl). unfold rounded.
  cbn [truthy]. destruct m as [v off zn]. cbn [valueOf] in Ht. subst v.
  split.
  - destruct (truthy startOf);
      [|eexists _, t; split; [reflexivity|split; [reflexivity|lia]]].
    unfold Moment.startOf. cbn [valueOf utcOffset].
    destruct (unitOf startOf) as [u|];
      [|eexists _, t; split; [reflexivity|split; [reflexivity|lia]]].
    eexists _, (startOf_ms u off t).
    split; [reflexivity|]. split; [reflexivity|]. apply startOf_le_endOf.
  - destruct (truthy endOf);
      [|eexists _, t; split; [reflexivity|split; [reflexivity|lia]]].
    unfold Moment.endOf. cbn [valueOf utcOffset].
    destruct (unitOf endOf) as [u|];
      [|eexists _, t; split; [reflexivity|split; [reflexivity|lia]]].
    eexists _, (endOf_ms u off t).
    split; [reflexivity|]. split; [reflexivity|]. apply startOf_le_endOf.
Qed.

Lemma period_brackets_the_instant_witness :
  [march15] !! 0%nat = Some march15 /\
  valueOf march15 = Some 1710496800000 /\
  inRange march15 = true /\
  unitArg (JString "month") = true /\ unitArg JUndefined = true /\
  exists (m1 : moment) (t1 : Z),
    period (JString "month") JUndefined (JMoment 0) [march15]
    = Return () (<[0%nat := m1]> [march15])
    /\ valueOf m1 = Some t1 /\ t1 <= 1710496800000.
Proof.
  do 5 (split; [reflexivity|]).
  apply (period_brackets_the_instant (JString "month") JUndefined 0%nat
           march15 1710496800000 [march15] eq_refl eq_refl eq_refl eq_refl
           eq_refl).
Defined.

(** X19.  With the same unit for startOf and endOf, the period block
    yields the end of the unit the moment is in, as endOf alone does;
    and the end of a unit is kept by the period block run again with
    that endOf. *)
Theorem same_unit_yields_the_end (unit : jsval) (l : loc) (m : moment)
    (h : heap) :
  h !! l = Some m ->
  period unit unit (JMoment l) h
  = Return () (<[l := endOf (unitOf unit) m]> h) /\
  period JUndefined unit (JMoment l) h
  = Return () (<[l := endOf (unitOf unit) m]> h) /\
  period JUndefined unit (JMoment l) (<[l := endOf (unitOf unit) m]> h)
  = Return () (<[l := endOf (unitOf unit) m]> h).
Proof.
  intros Hl.
  assert (Hse : forall u x, endOf u (startOf u x) = endOf u x).
  { intros [u|] [[t|] off zn]; try reflexivity.
    unfold endOf, startOf, at_instant. cbn [valueOf utcOffset zoneName].
    destruct (unit_fixpoints u off t) as (_ & -> & _). reflexivity. }
  assert (Hee : forall u x, endOf u (endOf u x) = endOf u x).
  { intros [u|] [[t|] off zn]; try reflexivity.
    unfold endOf, at_instant. cbn [valueOf utcOffset zoneName].
    destruct (unit_fixpoints u off t) as (_ & _ & ->). reflexivity. }
  assert (Hu : truthy unit = false -> unitOf unit = None).
  { destruct unit; try reflexivity. cbn [truthy unitOf].
    destruct (String.eqb_spec s ""); [subst s; reflexivity|discriminate]. }
  assert (Hr : forall x, rounded unit unit x = endOf (unitOf unit) x /\
                         rounded JUndefined unit x = endOf (unitOf unit) x).
  { intros x. unfold rounded. cbn [truthy].
    destruct (truthy unit) eqn:Htu; [rewrite Hse; auto|].
    rewrite (Hu eq_refl). destruct x as [[t|] off zn]; auto. }
  rewrite !(period_eq _ _ l m h Hl).
  rewrite (period_eq _ _ l (endOf (unitOf unit) m) _ (lookup_modified l h m _ Hl)).
  rewrite list_insert_insert_eq.
  destruct (Hr m) as [-> ->]. destruct (Hr (endOf (unitOf unit) m)) as [_ ->].
  rewrite Hee. auto.
Qed.

Lemma same_unit_yields_the_end_witness :
  [march15] !! 0%nat = Some march15 /\
  period (JString "day") (JString "day") (JMoment 0) [march15]
  = Return () [{| valueOf := Some 1710543599999; utcOffset := 60;
                  zoneName := None |}].
Proof.
  split; [reflexivity|].
  destruct (same_unit_yields_the_end (JString "day") 0%nat march15 [march15]
              eq_refl) as (H & _).
  rewrite H. vm_compute. reflexivity.
Defined.
